(** * pyorthanc: the Orthanc REST wrapper and its remote-modality layer

    A shallow embedding of [orthanc/orthanc.py] (class [Orthanc]) and of
    [pyorthanc/remote.py] (class [RemoteModality]).

    Python values are a small inductive type, the keyword dictionary
    [**kwargs] is a finite map from names to values, the [Orthanc] instance
    is a record that the methods thread through a state-and-exception
    monad, and the [requests] library together with the remote server is an
    oracle that answers each call with a response or with an exception. *)

From Stdlib Require Import Ascii.
From stdpp Require Import base strings gmap list.

#[local] Set Warnings "-register-all".

Local Open Scope string_scope.
Local Open Scope list_scope.

(** ** Python values *)

Inductive PyVal : Type :=
| PyNone
| PyBool (b : bool)
| PyInt (n : Z)
| PyStr (s : string)
| PyList (l : list PyVal)
| PyDict (d : list (string * PyVal))
| HTTPBasicAuth (username password : string).

(** [**kwargs]: a dict whose keys are the keyword names. *)
Abbreviation Kwargs := (gmap string PyVal).

(** ** The [requests] library *)

(** [requests.get], [requests.delete], [requests.post], [requests.put]. *)
Inductive Verb : Type := GET | DELETE | POST | PUT.

(** One call of [requests.get] or of a sibling, as the library receives
    it: positional arguments in order, keyword arguments by name. *)
Record RequestsCall : Type := mkCall {
  verb : Verb;
  args : list PyVal;
  keywords : gmap string PyVal
}.

(** The positional parameters of [requests.get(url, params=None, **kwargs)],
    [requests.delete(url, **kwargs)],
    [requests.post(url, data=None, json=None, **kwargs)] and
    [requests.put(url, data=None, **kwargs)]. *)
Definition positional_names (v : Verb) : list string :=
  match v with
  | GET => ["url"; "params"]
  | DELETE => ["url"]
  | POST => ["url"; "data"; "json"]
  | PUT => ["url"; "data"]
  end.

(** What comes back is a [requests.Response]; the wrapper never looks inside. *)
Record Response : Type := mkResponse {
  status_code : Z;
  content : string
}.

(** Exceptions.  [TypeError k] is Python's "got multiple values for
    argument k", raised at a call that gives [k] a value twice: a keyword
    repeated by [**kwargs], or a parameter filled by position and named
    again in [**kwargs].  The callee does not run.  [ClientError] is
    whatever is raised inside the HTTP client once it runs: connection
    failures, and also an error of its own about a keyword it does not
    know. *)
Inductive Exn : Type :=
| TypeError (keyword : string)
| ClientError (name : string).

(** The HTTP client and the server behind it: given the calls made so far
    and a new call, a response or an exception of the client. *)
Abbreviation Client := (list RequestsCall → RequestsCall → string + Response).

(** ** The [Orthanc] object *)

Record Orthanc : Type := mkOrthanc {
  _orthanc_url : string;
  _credentials_are_set : bool;
  _credentials : PyVal
}.

(** The four generic helpers of the class. *)
Inductive Helper : Type :=
| Get_request | Delete_request | Post_request | Put_request.

(** The state a method runs in: the object, the helpers entered so far
    (with the route each received) and the HTTP calls issued so far. *)
Record World : Type := mkWorld {
  self : Orthanc;
  entered : list (Helper * string);
  issued : list RequestsCall
}.

(** ** State and exception monad *)

Definition M (A : Type) : Type := World → (Exn + A) * World.

#[global] Instance M_ret : MRet M := λ A a w, (inr a, w).

#[global] Instance M_bind : MBind M := λ A B f m w,
  match m w with
  | (inl e, w') => (inl e, w')
  | (inr a, w') => f a w'
  end.

Definition raise {A} (e : Exn) : M A := λ w, (inl e, w).

(** [self.<field>] *)
Definition getattr {A} (field : Orthanc → A) : M A := λ w, (inr (field (self w)), w).

(** [self.<field> = v], through a record update. *)
Definition setattr (update : Orthanc → Orthanc) : M unit :=
  λ w, (inr tt, mkWorld (update (self w)) (entered w) (issued w)).

(** Entry into the body of a helper, recorded so that statements can say
    which helper a method reached and with which route. *)
Definition enter (h : Helper) (route : string) : M unit :=
  λ w, (inr tt, mkWorld (self w) (entered w ++ [(h, route)]) (issued w)).

(** ** Python call sites with [**kwargs] *)

(** The first of [names] that [kwargs] also supplies, if any. *)
Fixpoint repeated (names : list string) (kwargs : Kwargs) : option string :=
  match names with
  | [] => None
  | k :: rest =>
      match kwargs !! k with
      | Some _ => Some k
      | None => repeated rest kwargs
      end
  end.

(** [f(..., **kwargs)] where the call already gives a value to each of
    [names]: Python raises [TypeError] when [kwargs] repeats one of them,
    before the callee runs. *)
Definition call_with {A} (names : list string) (kwargs : Kwargs) (callee : M A) : M A :=
  match repeated names kwargs with
  | Some k => raise (TypeError k)
  | None => callee
  end.

(** Explicit keywords of a call joined with the expanded [**kwargs]. *)
Definition join (explicit : list (string * PyVal)) (kwargs : Kwargs) : Kwargs :=
  foldr (λ kv m, <[kv.1 := kv.2]> m) kwargs explicit.

Section Orthanc.

Variable client : Client.

(** A call of [requests.get] or of a sibling with positional arguments,
    explicit keywords and [**kwargs]: [kwargs] must repeat neither an
    explicit keyword nor a parameter of the library function that a
    positional argument fills ([url] for the route); then the call goes
    out, is recorded, and its response is the value of the expression, an
    exception of the client propagating. *)
Definition requests (v : Verb) (pos : list PyVal) (explicit : list (string * PyVal))
    (kwargs : Kwargs) : M Response :=
  call_with (explicit.*1 ++ take (length pos) (positional_names v)) kwargs
    (λ w, let c := mkCall v pos (join explicit kwargs) in
          (match client (issued w) c with
           | inl name => inl (ClientError name)
           | inr r => inr r
           end,
           mkWorld (self w) (entered w) (issued w ++ [c]))).

(** [Orthanc(orthanc_url)] *)
Definition __init__ (orthanc_url : string) : Orthanc :=
  mkOrthanc orthanc_url false PyNone.

Definition setup_credentials (username password : string) : M unit :=
  setattr (λ o, mkOrthanc (_orthanc_url o) (_credentials_are_set o)
                          (HTTPBasicAuth username password));;
  setattr (λ o, mkOrthanc (_orthanc_url o) true (_credentials o)).

Definition get_request (route : string) (params : PyVal) (kwargs : Kwargs) : M Response :=
  enter Get_request route;;
  credentials_are_set ← getattr _credentials_are_set;
  if credentials_are_set : bool then
    credentials ← getattr _credentials;
    requests GET [PyStr route] [("params", params); ("auth", credentials)] kwargs
  else
    requests GET [PyStr route] [("params", params)] kwargs.

Definition delete_request (route : string) (kwargs : Kwargs) : M Response :=
  enter Delete_request route;;
  credentials_are_set ← getattr _credentials_are_set;
  if credentials_are_set : bool then
    credentials ← getattr _credentials;
    requests DELETE [PyStr route] [("auth", credentials)] kwargs
  else
    requests DELETE [PyStr route] [] kwargs.

Definition post_request (route : string) (data json : PyVal) (kwargs : Kwargs) : M Response :=
  enter Post_request route;;
  credentials_are_set ← getattr _credentials_are_set;
  if credentials_are_set : bool then
    credentials ← getattr _credentials;
    requests POST [PyStr route] [("auth", credentials); ("data", data); ("json", json)] kwargs
  else
    requests POST [PyStr route] [("data", data); ("json", json)] kwargs.

Definition put_request (route : string) (data json : PyVal) (kwargs : Kwargs) : M Response :=
  enter Put_request route;;
  credentials_are_set ← getattr _credentials_are_set;
  if credentials_are_set : bool then
    credentials ← getattr _credentials;
    requests PUT [PyStr route] [("auth", credentials); ("data", data); ("json", json)] kwargs
  else
    requests PUT [PyStr route; data] [("json", json)] kwargs.

(** The call sites of the endpoint methods:
    [self.get_request(route, params=params, **kwargs)] and its siblings.
    The helper's parameters the call binds cannot come again from
    [kwargs]. *)
Definition self_get_request (route : string) (params : PyVal) (kwargs : Kwargs) : M Response :=
  call_with ["self"; "route"; "params"] kwargs (get_request route params kwargs).

Definition self_delete_request (route : string) (kwargs : Kwargs) : M Response :=
  call_with ["self"; "route"] kwargs (delete_request route kwargs).

Definition self_post_request (route : string) (data json : PyVal) (kwargs : Kwargs) : M Response :=
  call_with ["self"; "route"; "data"; "json"] kwargs (post_request route data json kwargs).

Definition self_put_request (route : string) (data json : PyVal) (kwargs : Kwargs) : M Response :=
  call_with ["self"; "route"; "data"; "json"] kwargs (put_request route data json kwargs).

(** ** The endpoint methods

    One definition per method of the class, in the order of the source.
    Each formats its route from [self._orthanc_url] and its arguments and
    hands it to one helper. *)

Definition get_attachments (resource_type identifier : string) (params : PyVal) (kwargs : Kwargs) : M Response :=
  orthanc_url ← getattr _orthanc_url;
  self_get_request
    (orthanc_url +:+ "/" +:+ resource_type +:+ "/" +:+ identifier +:+ "/attachments")
    params kwargs.

Definition get_attachment_by_name (resource_type identifier name : string) (params : PyVal) (kwargs : Kwargs) : M Response :=
  orthanc_url ← getattr _orthanc_url;
  self_get_request
    (orthanc_url +:+ "/" +:+ resource_type +:+ "/" +:+ identifier +:+ "/attachments/" +:+ name)
    params kwargs.

Definition delete_attachment_by_name (resource_type identifier name : string) (kwargs : Kwargs) : M Response :=
  orthanc_url ← getattr _orthanc_url;
  self_delete_request
    (orthanc_url +:+ "/" +:+ resource_type +:+ "/" +:+ identifier +:+ "/attachments/" +:+ name)
    kwargs.

Definition put_attachment_by_name (resource_type identifier name : string) (data json : PyVal) (kwargs : Kwargs) : M Response :=
  orthanc_url ← getattr _orthanc_url;
  self_put_request
    (orthanc_url +:+ "/" +:+ resource_type +:+ "/" +:+ identifier +:+ "/attachments/" +:+ name)
    data json kwargs.

Definition post_compress_attachment (resource_type identifier name : string) (data json : PyVal) (kwargs : Kwargs) : M Response :=
  orthanc_url ← getattr _orthanc_url;
  self_post_request
    (orthanc_url +:+ "/" +:+ resource_type +:+ "/" +:+ identifier +:+ "/attachments/" +:+ name +:+ "/compress")
    data json kwargs.

Definition get_attachment_compressed_data (resource_type identifier name : string) (params : PyVal) (kwargs : Kwargs) : M Response :=
  orthanc_url ← getattr _orthanc_url;
  self_get_request
    (orthanc_url +:+ "/" +:+ resource_type +:+ "/" +:+ identifier +:+ "/attachments/" +:+ name +:+ "/compressed_data")
    params kwargs.

Definition get_attachment_compressed_data_md5 (resource_type identifier name : string) (params : PyVal) (kwargs : Kwargs) : M Response :=
  orthanc_url ← getattr _orthanc_url;
  self_get_request
    (orthanc_url +:+ "/" +:+ resource_type +:+ "/" +:+ identifier +:+ "/attachments/" +:+ name +:+ "/compressed_md5")
    params kwargs.

Definition get_attachment_compressed_size (resource_type identifier name : string) (params : PyVal) (kwargs : Kwargs) : M Response :=
  orthanc_url ← getattr _orthanc_url;
  self_get_request
    (orthanc_url +:+ "/" +:+ resource_type +:+ "/" +:+ identifier +:+ "/attachments/" +:+ name +:+ "/compressed_size")
    params kwargs.

Definition get_attachment_data (resource_type identifier name : string) (params : PyVal) (kwargs : Kwargs) : M Response :=
  orthanc_url ← getattr _orthanc_url;
  self_get_request
    (orthanc_url +:+ "/" +:+ resource_type +:+ "/" +:+ identifier +:+ "/attachments/" +:+ name +:+ "/data")
    params kwargs.

Definition get_if_attachment_compressed (resource_type identifier name : string) (params : PyVal) (kwargs : Kwargs) : M Response :=
  orthanc_url ← getattr _orthanc_url;
  self_get_request
    (orthanc_url +:+ "/" +:+ resource_type +:+ "/" +:+ identifier +:+ "/attachments/" +:+ name +:+ "/is_compressed")
    params kwargs.

Definition get_attachments_name_md5 (resource_type identifier name : string) (params : PyVal) (kwargs : Kwargs) : M Response :=
  orthanc_url ← getattr _orthanc_url;
  self_get_request
    (orthanc_url +:+ "/" +:+ resource_type +:+ "/" +:+ identifier +:+ "/attachments/" +:+ name +:+ "/md5")
    params kwargs.

Definition get_resource_type_identifier_attachments_name_size (resource_type identifier name : string) (params : PyVal) (kwargs : Kwargs) : M Response :=
  orthanc_url ← getattr _orthanc_url;
  self_get_request
    (orthanc_url +:+ "/" +:+ resource_type +:+ "/" +:+ identifier +:+ "/attachments/" +:+ name +:+ "/size")
    params kwargs.

Definition post_resource_type_identifier_attachments_name_uncompress (resource_type identifier name : string) (data json : PyVal) (kwargs : Kwargs) : M Response :=
  orthanc_url ← getattr _orthanc_url;
  self_post_request
    (orthanc_url +:+ "/" +:+ resource_type +:+ "/" +:+ identifier +:+ "/attachments/" +:+ name +:+ "/uncompress")
    data json kwargs.

Definition post_resource_type_identifier_attachments_name_verify_md5 (resource_type identifier name : string) (data json : PyVal) (kwargs : Kwargs) : M Response :=
  orthanc_url ← getattr _orthanc_url;
  self_post_request
    (orthanc_url +:+ "/" +:+ resource_type +:+ "/" +:+ identifier +:+ "/attachments/" +:+ name +:+ "/verify_md5")
    data json kwargs.

Definition get_resource_type_identifier_metadata (resource_type identifier : string) (params : PyVal) (kwargs : Kwargs) : M Response :=
  orthanc_url ← getattr _orthanc_url;
  self_get_request
    (orthanc_url +:+ "/" +:+ resource_type +:+ "/" +:+ identifier +:+ "/metadata")
    params kwargs.

Definition get_resource_type_identifier_metadata_name (resource_type identifier name : string) (params : PyVal) (kwargs : Kwargs) : M Response :=
  orthanc_url ← getattr _orthanc_url;
  self_get_request
    (orthanc_url +:+ "/" +:+ resource_type +:+ "/" +:+ identifier +:+ "/metadata/" +:+ name)
    params kwargs.

Definition delete_resource_type_identifier_metadata_name (resource_type identifier name : string) (kwargs : Kwargs) : M Response :=
  orthanc_url ← getattr _orthanc_url;
  self_delete_request
    (orthanc_url +:+ "/" +:+ resource_type +:+ "/" +:+ identifier +:+ "/metadata/" +:+ name)
    kwargs.

Definition put_resource_type_identifier_metadata_name (resource_type identifier name : string) (data json : PyVal) (kwargs : Kwargs) : M Response :=
  orthanc_url ← getattr _orthanc_url;
  self_put_request
    (orthanc_url +:+ "/" +:+ resource_type +:+ "/" +:+ identifier +:+ "/metadata/" +:+ name)
    data json kwargs.

Definition get_changes (params : PyVal) (kwargs : Kwargs) : M Response :=
  orthanc_url ← getattr _orthanc_url;
  self_get_request
    (orthanc_url +:+ "/changes")
    params kwargs.

Definition delete_changes (kwargs : Kwargs) : M Response :=
  orthanc_url ← getattr _orthanc_url;
  self_delete_request
    (orthanc_url +:+ "/changes")
    kwargs.

Definition get_exports (params : PyVal) (kwargs : Kwargs) : M Response :=
  orthanc_url ← getattr _orthanc_url;
  self_get_request
    (orthanc_url +:+ "/exports")
    params kwargs.

Definition delete_exports (kwargs : Kwargs) : M Response :=
  orthanc_url ← getattr _orthanc_url;
  self_delete_request
    (orthanc_url +:+ "/exports")
    kwargs.

Definition get_instances (params : PyVal) (kwargs : Kwargs) : M Response :=
  orthanc_url ← getattr _orthanc_url;
  self_get_request
    (orthanc_url +:+ "/instances")
    params kwargs.

Definition post_instances (data json : PyVal) (kwargs : Kwargs) : M Response :=
  orthanc_url ← getattr _orthanc_url;
  self_post_request
    (orthanc_url +:+ "/instances")
    data json kwargs.

Definition get_instances_identifier (identifier : string) (params : PyVal) (kwargs : Kwargs) : M Response :=
  orthanc_url ← getattr _orthanc_url;
  self_get_request
    (orthanc_url +:+ "/instances/" +:+ identifier)
    params kwargs.

Definition delete_instances_identifier (identifier : string) (kwargs : Kwargs) : M Response :=
  orthanc_url ← getattr _orthanc_url;
  self_delete_request
    (orthanc_url +:+ "/instances/" +:+ identifier)
    kwargs.

Definition post_instances_identifier_anonymize (identifier : string) (data json : PyVal) (kwargs : Kwargs) : M Response :=
  orthanc_url ← getattr _orthanc_url;
  self_post_request
    (orthanc_url +:+ "/instances/" +:+ identifier +:+ "/anonymize")
    data json kwargs.

Definition get_instances_identifier_content (identifier : string) (params : PyVal) (kwargs : Kwargs) : M Response :=
  orthanc_url ← getattr _orthanc_url;
  self_get_request
    (orthanc_url +:+ "/instances/" +:+ identifier +:+ "/content/")
    params kwargs.

Definition get_instances_identifier_content_group_element (identifier group_element : string) (params : PyVal) (kwargs : Kwargs) : M Response :=
  orthanc_url ← getattr _orthanc_url;
  self_get_request
    (orthanc_url +:+ "/instances/" +:+ identifier +:+ "/content/" +:+ group_element)
    params kwargs.

Definition get_instances_identifier_content_group_element_index (identifier group_element index : string) (params : PyVal) (kwargs : Kwargs) : M Response :=
  orthanc_url ← getattr _orthanc_url;
  self_get_request
    (orthanc_url +:+ "/instances/" +:+ identifier +:+ "/content/" +:+ group_element +:+ "/" +:+ index +:+ "/...")
    params kwargs.

Definition post_instances_identifier_export (identifier : string) (data json : PyVal) (kwargs : Kwargs) : M Response :=
  orthanc_url ← getattr _orthanc_url;
  self_post_request
    (orthanc_url +:+ "/instances/" +:+ identifier +:+ "/export")
    data json kwargs.

Definition get_instances_identifier_file (identifier : string) (params : PyVal) (kwargs : Kwargs) : M Response :=
  orthanc_url ← getattr _orthanc_url;
  self_get_request
    (orthanc_url +:+ "/instances/" +:+ identifier +:+ "/file")
    params kwargs.

Definition get_instances_identifier_frames (identifier : string) (params : PyVal) (kwargs : Kwargs) : M Response :=
  orthanc_url ← getattr _orthanc_url;
  self_get_request
    (orthanc_url +:+ "/instances/" +:+ identifier +:+ "/frames")
    params kwargs.

Definition get_instances_identifier_frames_frameNumber_image_int16 (identifier frameNumber : string) (params : PyVal) (kwargs : Kwargs) : M Response :=
  orthanc_url ← getattr _orthanc_url;
  self_get_request
    (orthanc_url +:+ "/instances/" +:+ identifier +:+ "/frames/" +:+ frameNumber +:+ "/image_int16")
    params kwargs.

Definition get_instances_identifier_frames_frameNumber_image_uint16 (identifier frameNumber : string) (params : PyVal) (kwargs : Kwargs) : M Response :=
  orthanc_url ← getattr _orthanc_url;
  self_get_request
    (orthanc_url +:+ "/instances/" +:+ identifier +:+ "/frames/" +:+ frameNumber +:+ "/image_uint16")
    params kwargs.

Definition get_instances_identifier_frames_frameNumber_image_uint8 (identifier frameNumber : string) (params : PyVal) (kwargs : Kwargs) : M Response :=
  orthanc_url ← getattr _orthanc_url;
  self_get_request
    (orthanc_url +:+ "/instances/" +:+ identifier +:+ "/frames/" +:+ frameNumber +:+ "/image_uint8")
    params kwargs.

Definition get_instances_identifier_frames_frameNumber_matlab (identifier frameNumber : string) (params : PyVal) (kwargs : Kwargs) : M Response :=
  orthanc_url ← getattr _orthanc_url;
  self_get_request
    (orthanc_url +:+ "/instances/" +:+ identifier +:+ "/frames/" +:+ frameNumber +:+ "/matlab")
    params kwargs.

Definition get_instances_identifier_frames_frameNumber_preview (identifier frameNumber : string) (params : PyVal) (kwargs : Kwargs) : M Response :=
  orthanc_url ← getattr _orthanc_url;
  self_get_request
    (orthanc_url +:+ "/instances/" +:+ identifier +:+ "/frames/" +:+ frameNumber +:+ "/preview")
    params kwargs.

Definition get_instances_identifier_frames_frameNumber_raw (identifier frameNumber : string) (params : PyVal) (kwargs : Kwargs) : M Response :=
  orthanc_url ← getattr _orthanc_url;
  self_get_request
    (orthanc_url +:+ "/instances/" +:+ identifier +:+ "/frames/" +:+ frameNumber +:+ "/raw")
    params kwargs.

Definition get_instances_identifier_frames_frameNumber_raw_gz (identifier frameNumber : string) (params : PyVal) (kwargs : Kwargs) : M Response :=
  orthanc_url ← getattr _orthanc_url;
  self_get_request
    (orthanc_url +:+ "/instances/" +:+ identifier +:+ "/frames/" +:+ frameNumber +:+ "/raw.gz")
    params kwargs.

Definition get_instances_identifier_header (identifier : string) (params : PyVal) (kwargs : Kwargs) : M Response :=
  orthanc_url ← getattr _orthanc_url;
  self_get_request
    (orthanc_url +:+ "/instances/" +:+ identifier +:+ "/header")
    params kwargs.

Definition get_instances_identifier_image_int16 (identifier : string) (params : PyVal) (kwargs : Kwargs) : M Response :=
  orthanc_url ← getattr _orthanc_url;
  self_get_request
    (orthanc_url +:+ "/instances/" +:+ identifier +:+ "/image_int16")
    params kwargs.

Definition get_instances_identifier_image_uint16 (identifier : string) (params : PyVal) (kwargs : Kwargs) : M Response :=
  orthanc_url ← getattr _orthanc_url;
  self_get_request
    (orthanc_url +:+ "/instances/" +:+ identifier +:+ "/image_uint16")
    params kwargs.

Definition get_instances_identifier_image_uint8 (identifier : string) (params : PyVal) (kwargs : Kwargs) : M Response :=
  orthanc_url ← getattr _orthanc_url;
  self_get_request
    (orthanc_url +:+ "/instances/" +:+ identifier +:+ "/image_uint8")
    params kwargs.

Definition get_instances_identifier_matlab (identifier : string) (params : PyVal) (kwargs : Kwargs) : M Response :=
  orthanc_url ← getattr _orthanc_url;
  self_get_request
    (orthanc_url +:+ "/instances/" +:+ identifier +:+ "/matlab")
    params kwargs.

Definition post_instances_identifier_modify (identifier : string) (data json : PyVal) (kwargs : Kwargs) : M Response :=
  orthanc_url ← getattr _orthanc_url;
  self_post_request
    (orthanc_url +:+ "/instances/" +:+ identifier +:+ "/modify")
    data json kwargs.

Definition get_instances_identifier_module (identifier : string) (params : PyVal) (kwargs : Kwargs) : M Response :=
  orthanc_url ← getattr _orthanc_url;
  self_get_request
    (orthanc_url +:+ "/instances/" +:+ identifier +:+ "/module")
    params kwargs.

Definition get_instances_identifier_patient (identifier : string) (params : PyVal) (kwargs : Kwargs) : M Response :=
  orthanc_url ← getattr _orthanc_url;
  self_get_request
    (orthanc_url +:+ "/instances/" +:+ identifier +:+ "/patient")
    params kwargs.

Definition get_instances_identifier_pdf (identifier : string) (params : PyVal) (kwargs : Kwargs) : M Response :=
  orthanc_url ← getattr _orthanc_url;
  self_get_request
    (orthanc_url +:+ "/instances/" +:+ identifier +:+ "/pdf")
    params kwargs.

Definition get_instances_identifier_preview (identifier : string) (params : PyVal) (kwargs : Kwargs) : M Response :=
  orthanc_url ← getattr _orthanc_url;
  self_get_request
    (orthanc_url +:+ "/instances/" +:+ identifier +:+ "/preview")
    params kwargs.

Definition post_instances_identifier_reconstruct (identifier : string) (data json : PyVal) (kwargs : Kwargs) : M Response :=
  orthanc_url ← getattr _orthanc_url;
  self_post_request
    (orthanc_url +:+ "/instances/" +:+ identifier +:+ "/reconstruct")
    data json kwargs.

Definition get_instances_identifier_series (identifier : string) (params : PyVal) (kwargs : Kwargs) : M Response :=
  orthanc_url ← getattr _orthanc_url;
  self_get_request
    (orthanc_url +:+ "/instances/" +:+ identifier +:+ "/series")
    params kwargs.

Definition get_instances_identifier_simplified_tags (identifier : string) (params : PyVal) (kwargs : Kwargs) : M Response :=
  orthanc_url ← getattr _orthanc_url;
  self_get_request
    (orthanc_url +:+ "/instances/" +:+ identifier +:+ "/simplified_tags")
    params kwargs.

Definition get_instances_identifier_statistics (identifier : string) (params : PyVal) (kwargs : Kwargs) : M Response :=
  orthanc_url ← getattr _orthanc_url;
  self_get_request
    (orthanc_url +:+ "/instances/" +:+ identifier +:+ "/statistics")
    params kwargs.

Definition get_instances_identifier_study (identifier : string) (params : PyVal) (kwargs : Kwargs) : M Response :=
  orthanc_url ← getattr _orthanc_url;
  self_get_request
    (orthanc_url +:+ "/instances/" +:+ identifier +:+ "/study")
    params kwargs.

Definition get_instances_identifier_tags (identifier : string) (params : PyVal) (kwargs : Kwargs) : M Response :=
  orthanc_url ← getattr _orthanc_url;
  self_get_request
    (orthanc_url +:+ "/instances/" +:+ identifier +:+ "/tags")
    params kwargs.

Definition get_jobs (params : PyVal) (kwargs : Kwargs) : M Response :=
  orthanc_url ← getattr _orthanc_url;
  self_get_request
    (orthanc_url +:+ "/jobs")
    params kwargs.

Definition get_jobs_identifier (identifier : string) (params : PyVal) (kwargs : Kwargs) : M Response :=
  orthanc_url ← getattr _orthanc_url;
  self_get_request
    (orthanc_url +:+ "/jobs/" +:+ identifier)
    params kwargs.

Definition post_jobs_identifier_cancel (identifier : string) (data json : PyVal) (kwargs : Kwargs) : M Response :=
  orthanc_url ← getattr _orthanc_url;
  self_post_request
    (orthanc_url +:+ "/jobs/" +:+ identifier +:+ "/cancel")
    data json kwargs.

Definition post_jobs_identifier_pause (identifier : string) (data json : PyVal) (kwargs : Kwargs) : M Response :=
  orthanc_url ← getattr _orthanc_url;
  self_post_request
    (orthanc_url +:+ "/jobs/" +:+ identifier +:+ "/pause")
    data json kwargs.

Definition post_jobs_identifier_resubmit (identifier : string) (data json : PyVal) (kwargs : Kwargs) : M Response :=
  orthanc_url ← getattr _orthanc_url;
  self_post_request
    (orthanc_url +:+ "/jobs/" +:+ identifier +:+ "/resubmit")
    data json kwargs.

Definition post_jobs_identifier_resume (identifier : string) (data json : PyVal) (kwargs : Kwargs) : M Response :=
  orthanc_url ← getattr _orthanc_url;
  self_post_request
    (orthanc_url +:+ "/jobs/" +:+ identifier +:+ "/resume")
    data json kwargs.

Definition get_jobs_identifier_key (identifier key : string) (params : PyVal) (kwargs : Kwargs) : M Response :=
  orthanc_url ← getattr _orthanc_url;
  self_get_request
    (orthanc_url +:+ "/jobs/" +:+ identifier +:+ "/" +:+ key)
    params kwargs.

Definition get_modalities (params : PyVal) (kwargs : Kwargs) : M Response :=
  orthanc_url ← getattr _orthanc_url;
  self_get_request
    (orthanc_url +:+ "/modalities")
    params kwargs.

Definition get_modalities_dicom (dicom : string) (params : PyVal) (kwargs : Kwargs) : M Response :=
  orthanc_url ← getattr _orthanc_url;
  self_get_request
    (orthanc_url +:+ "/modalities/" +:+ dicom)
    params kwargs.

Definition delete_modalities_dicom (dicom : string) (kwargs : Kwargs) : M Response :=
  orthanc_url ← getattr _orthanc_url;
  self_delete_request
    (orthanc_url +:+ "/modalities/" +:+ dicom)
    kwargs.

Definition put_modalities_dicom (dicom : string) (data json : PyVal) (kwargs : Kwargs) : M Response :=
  orthanc_url ← getattr _orthanc_url;
  self_put_request
    (orthanc_url +:+ "/modalities/" +:+ dicom)
    data json kwargs.

Definition post_modalities_dicom_echo (dicom : string) (data json : PyVal) (kwargs : Kwargs) : M Response :=
  orthanc_url ← getattr _orthanc_url;
  self_post_request
    (orthanc_url +:+ "/modalities/" +:+ dicom +:+ "/echo")
    data json kwargs.

Definition post_modalities_dicom_move (dicom : string) (data json : PyVal) (kwargs : Kwargs) : M Response :=
  orthanc_url ← getattr _orthanc_url;
  self_post_request
    (orthanc_url +:+ "/modalities/" +:+ dicom +:+ "/move")
    data json kwargs.

Definition post_modalities_dicom_query (dicom : string) (data json : PyVal) (kwargs : Kwargs) : M Response :=
  orthanc_url ← getattr _orthanc_url;
  self_post_request
    (orthanc_url +:+ "/modalities/" +:+ dicom +:+ "/query")
    data json kwargs.

Definition post_modalities_dicom_store (dicom : string) (data json : PyVal) (kwargs : Kwargs) : M Response :=
  orthanc_url ← getattr _orthanc_url;
  self_post_request
    (orthanc_url +:+ "/modalities/" +:+ dicom +:+ "/store")
    data json kwargs.

Definition get_patients (params : PyVal) (kwargs : Kwargs) : M Response :=
  orthanc_url ← getattr _orthanc_url;
  self_get_request
    (orthanc_url +:+ "/patients")
    params kwargs.

Definition get_patients_identifier (identifier : string) (params : PyVal) (kwargs : Kwargs) : M Response :=
  orthanc_url ← getattr _orthanc_url;
  self_get_request
    (orthanc_url +:+ "/patients/" +:+ identifier)
    params kwargs.

Definition delete_patients_identifier (identifier : string) (kwargs : Kwargs) : M Response :=
  orthanc_url ← getattr _orthanc_url;
  self_delete_request
    (orthanc_url +:+ "/patients/" +:+ identifier)
    kwargs.

Definition post_patients_identifier_anonymize (identifier : string) (data json : PyVal) (kwargs : Kwargs) : M Response :=
  orthanc_url ← getattr _orthanc_url;
  self_post_request
    (orthanc_url +:+ "/patients/" +:+ identifier +:+ "/anonymize")
    data json kwargs.

Definition get_patients_identifier_archive (identifier : string) (params : PyVal) (kwargs : Kwargs) : M Response :=
  orthanc_url ← getattr _orthanc_url;
  self_get_request
    (orthanc_url +:+ "/patients/" +:+ identifier +:+ "/archive")
    params kwargs.

Definition post_patients_identifier_archive (identifier : string) (data json : PyVal) (kwargs : Kwargs) : M Response :=
  orthanc_url ← getattr _orthanc_url;
  self_post_request
    (orthanc_url +:+ "/patients/" +:+ identifier +:+ "/archive")
    data json kwargs.

Definition get_patients_identifier_instances (identifier : string) (params : PyVal) (kwargs : Kwargs) : M Response :=
  orthanc_url ← getattr _orthanc_url;
  self_get_request
    (orthanc_url +:+ "/patients/" +:+ identifier +:+ "/instances")
    params kwargs.

Definition get_patients_identifier_instances_tags (identifier : string) (params : PyVal) (kwargs : Kwargs) : M Response :=
  orthanc_url ← getattr _orthanc_url;
  self_get_request
    (orthanc_url +:+ "/patients/" +:+ identifier +:+ "/instances_tags")
    params kwargs.

Definition get_patients_identifier_media (identifier : string) (params : PyVal) (kwargs : Kwargs) : M Response :=
  orthanc_url ← getattr _orthanc_url;
  self_get_request
    (orthanc_url +:+ "/patients/" +:+ identifier +:+ "/media")
    params kwargs.

Definition post_patients_identifier_media (identifier : string) (data json : PyVal) (kwargs : Kwargs) : M Response :=
  orthanc_url ← getattr _orthanc_url;
  self_post_request
    (orthanc_url +:+ "/patients/" +:+ identifier +:+ "/media")
    data json kwargs.

Definition post_patients_identifier_modify (identifier : string) (data json : PyVal) (kwargs : Kwargs) : M Response :=
  orthanc_url ← getattr _orthanc_url;
  self_post_request
    (orthanc_url +:+ "/patients/" +:+ identifier +:+ "/modify")
    data json kwargs.

Definition get_patients_identifier_module (identifier : string) (params : PyVal) (kwargs : Kwargs) : M Response :=
  orthanc_url ← getattr _orthanc_url;
  self_get_request
    (orthanc_url +:+ "/patients/" +:+ identifier +:+ "/module")
    params kwargs.

Definition get_patients_identifier_protected (identifier : string) (params : PyVal) (kwargs : Kwargs) : M Response :=
  orthanc_url ← getattr _orthanc_url;
  self_get_request
    (orthanc_url +:+ "/patients/" +:+ identifier +:+ "/protected")
    params kwargs.

Definition put_patients_identifier_protected (identifier : string) (data json : PyVal) (kwargs : Kwargs) : M Response :=
  orthanc_url ← getattr _orthanc_url;
  self_put_request
    (orthanc_url +:+ "/patients/" +:+ identifier +:+ "/protected")
    data json kwargs.

Definition post_patients_identifier_reconstruct (identifier : string) (data json : PyVal) (kwargs : Kwargs) : M Response :=
  orthanc_url ← getattr _orthanc_url;
  self_post_request
    (orthanc_url +:+ "/patients/" +:+ identifier +:+ "/reconstruct")
    data json kwargs.

Definition get_patients_identifier_series (identifier : string) (params : PyVal) (kwargs : Kwargs) : M Response :=
  orthanc_url ← getattr _orthanc_url;
  self_get_request
    (orthanc_url +:+ "/patients/" +:+ identifier +:+ "/series")
    params kwargs.

Definition get_patients_identifier_shared_tags (identifier : string) (params : PyVal) (kwargs : Kwargs) : M Response :=
  orthanc_url ← getattr _orthanc_url;
  self_get_request
    (orthanc_url +:+ "/patients/" +:+ identifier +:+ "/shared_tags")
    params kwargs.

Definition get_patients_identifier_statistics (identifier : string) (params : PyVal) (kwargs : Kwargs) : M Response :=
  orthanc_url ← getattr _orthanc_url;
  self_get_request
    (orthanc_url +:+ "/patients/" +:+ identifier +:+ "/statistics")
    params kwargs.

Definition get_patients_identifier_studies (identifier : string) (params : PyVal) (kwargs : Kwargs) : M Response :=
  orthanc_url ← getattr _orthanc_url;
  self_get_request
    (orthanc_url +:+ "/patients/" +:+ identifier +:+ "/studies")
    params kwargs.

Definition get_peers (params : PyVal) (kwargs : Kwargs) : M Response :=
  orthanc_url ← getattr _orthanc_url;
  self_get_request
    (orthanc_url +:+ "/peers")
    params kwargs.

Definition get_peers_peer (peer : string) (params : PyVal) (kwargs : Kwargs) : M Response :=
  orthanc_url ← getattr _orthanc_url;
  self_get_request
    (orthanc_url +:+ "/peers/" +:+ peer)
    params kwargs.

Definition delete_peers_peer (peer : string) (kwargs : Kwargs) : M Response :=
  orthanc_url ← getattr _orthanc_url;
  self_delete_request
    (orthanc_url +:+ "/peers/" +:+ peer)
    kwargs.

Definition put_peers_peer (peer : string) (data json : PyVal) (kwargs : Kwargs) : M Response :=
  orthanc_url ← getattr _orthanc_url;
  self_put_request
    (orthanc_url +:+ "/peers/" +:+ peer)
    data json kwargs.

Definition post_peers_peer_store (peer : string) (data json : PyVal) (kwargs : Kwargs) : M Response :=
  orthanc_url ← getattr _orthanc_url;
  self_post_request
    (orthanc_url +:+ "/peers/" +:+ peer +:+ "/store")
    data json kwargs.

Definition get_plugins (params : PyVal) (kwargs : Kwargs) : M Response :=
  orthanc_url ← getattr _orthanc_url;
  self_get_request
    (orthanc_url +:+ "/plugins")
    params kwargs.

Definition get_plugins_identifier (identifier : string) (params : PyVal) (kwargs : Kwargs) : M Response :=
  orthanc_url ← getattr _orthanc_url;
  self_get_request
    (orthanc_url +:+ "/plugins/" +:+ identifier)
    params kwargs.

Definition get_plugins_explorer_js (params : PyVal) (kwargs : Kwargs) : M Response :=
  orthanc_url ← getattr _orthanc_url;
  self_get_request
    (orthanc_url +:+ "/plugins/explorer.js")
    params kwargs.

Definition get_queries (params : PyVal) (kwargs : Kwargs) : M Response :=
  orthanc_url ← getattr _orthanc_url;
  self_get_request
    (orthanc_url +:+ "/queries")
    params kwargs.

Definition get_queries_identifier (identifier : string) (params : PyVal) (kwargs : Kwargs) : M Response :=
  orthanc_url ← getattr _orthanc_url;
  self_get_request
    (orthanc_url +:+ "/queries/" +:+ identifier)
    params kwargs.

Definition delete_queries_identifier (identifier : string) (kwargs : Kwargs) : M Response :=
  orthanc_url ← getattr _orthanc_url;
  self_delete_request
    (orthanc_url +:+ "/queries/" +:+ identifier)
    kwargs.

Definition get_queries_identifier_answers (identifier : string) (params : PyVal) (kwargs : Kwargs) : M Response :=
  orthanc_url ← getattr _orthanc_url;
  self_get_request
    (orthanc_url +:+ "/queries/" +:+ identifier +:+ "/answers")
    params kwargs.

Definition get_queries_identifier_answers_index_content (identifier index : string) (params : PyVal) (kwargs : Kwargs) : M Response :=
  orthanc_url ← getattr _orthanc_url;
  self_get_request
    (orthanc_url +:+ "/queries/" +:+ identifier +:+ "/answers/" +:+ index +:+ "/content")
    params kwargs.

Definition post_queries_identifier_answers_index_retrieve (identifier index : string) (data json : PyVal) (kwargs : Kwargs) : M Response :=
  orthanc_url ← getattr _orthanc_url;
  self_post_request
    (orthanc_url +:+ "/queries/" +:+ identifier +:+ "/answers/" +:+ index +:+ "/retrieve")
    data json kwargs.

Definition post_queries_identifier_answers_index_query_instances (identifier index : string) (data json : PyVal) (kwargs : Kwargs) : M Response :=
  orthanc_url ← getattr _orthanc_url;
  self_post_request
    (orthanc_url +:+ "/queries/" +:+ identifier +:+ "/answers/" +:+ index +:+ "/query_instances")
    data json kwargs.

Definition post_queries_identifier_answers_index_query_series (identifier index : string) (data json : PyVal) (kwargs : Kwargs) : M Response :=
  orthanc_url ← getattr _orthanc_url;
  self_post_request
    (orthanc_url +:+ "/queries/" +:+ identifier +:+ "/answers/" +:+ index +:+ "/query_series")
    data json kwargs.

Definition post_queries_identifier_answers_index_query_studies (identifier index : string) (data json : PyVal) (kwargs : Kwargs) : M Response :=
  orthanc_url ← getattr _orthanc_url;
  self_post_request
    (orthanc_url +:+ "/queries/" +:+ identifier +:+ "/answers/" +:+ index +:+ "/query_studies")
    data json kwargs.

Definition get_queries_identifier_level (identifier : string) (params : PyVal) (kwargs : Kwargs) : M Response :=
  orthanc_url ← getattr _orthanc_url;
  self_get_request
    (orthanc_url +:+ "/queries/" +:+ identifier +:+ "/level")
    params kwargs.

Definition get_queries_identifier_modality (identifier : string) (params : PyVal) (kwargs : Kwargs) : M Response :=
  orthanc_url ← getattr _orthanc_url;
  self_get_request
    (orthanc_url +:+ "/queries/" +:+ identifier +:+ "/modality")
    params kwargs.

Definition get_queries_identifier_query (identifier : string) (params : PyVal) (kwargs : Kwargs) : M Response :=
  orthanc_url ← getattr _orthanc_url;
  self_get_request
    (orthanc_url +:+ "/queries/" +:+ identifier +:+ "/query")
    params kwargs.

Definition post_queries_identifier_retrieve (identifier : string) (data json : PyVal) (kwargs : Kwargs) : M Response :=
  orthanc_url ← getattr _orthanc_url;
  self_post_request
    (orthanc_url +:+ "/queries/" +:+ identifier +:+ "/retrieve")
    data json kwargs.

Definition get_series (params : PyVal) (kwargs : Kwargs) : M Response :=
  orthanc_url ← getattr _orthanc_url;
  self_get_request
    (orthanc_url +:+ "/series")
    params kwargs.

Definition get_series_identifier (identifier : string) (params : PyVal) (kwargs : Kwargs) : M Response :=
  orthanc_url ← getattr _orthanc_url;
  self_get_request
    (orthanc_url +:+ "/series/" +:+ identifier)
    params kwargs.

Definition delete_series_identifier (identifier : string) (kwargs : Kwargs) : M Response :=
  orthanc_url ← getattr _orthanc_url;
  self_delete_request
    (orthanc_url +:+ "/series/" +:+ identifier)
    kwargs.

Definition post_series_identifier_anonymize (identifier : string) (data json : PyVal) (kwargs : Kwargs) : M Response :=
  orthanc_url ← getattr _orthanc_url;
  self_post_request
    (orthanc_url +:+ "/series/" +:+ identifier +:+ "/anonymize")
    data json kwargs.

Definition get_series_identifier_archive (identifier : string) (params : PyVal) (kwargs : Kwargs) : M Response :=
  orthanc_url ← getattr _orthanc_url;
  self_get_request
    (orthanc_url +:+ "/series/" +:+ identifier +:+ "/archive")
    params kwargs.

Definition post_series_identifier_archive (identifier : string) (data json : PyVal) (kwargs : Kwargs) : M Response :=
  orthanc_url ← getattr _orthanc_url;
  self_post_request
    (orthanc_url +:+ "/series/" +:+ identifier +:+ "/archive")
    data json kwargs.

Definition get_series_identifier_instances (identifier : string) (params : PyVal) (kwargs : Kwargs) : M Response :=
  orthanc_url ← getattr _orthanc_url;
  self_get_request
    (orthanc_url +:+ "/series/" +:+ identifier +:+ "/instances")
    params kwargs.

Definition get_series_identifier_instances_tags (identifier : string) (params : PyVal) (kwargs : Kwargs) : M Response :=
  orthanc_url ← getattr _orthanc_url;
  self_get_request
    (orthanc_url +:+ "/series/" +:+ identifier +:+ "/instances_tags")
    params kwargs.

Definition get_series_identifier_media (identifier : string) (params : PyVal) (kwargs : Kwargs) : M Response :=
  orthanc_url ← getattr _orthanc_url;
  self_get_request
    (orthanc_url +:+ "/series/" +:+ identifier +:+ "/media")
    params kwargs.

Definition post_series_identifier_media (identifier : string) (data json : PyVal) (kwargs : Kwargs) : M Response :=
  orthanc_url ← getattr _orthanc_url;
  self_post_request
    (orthanc_url +:+ "/series/" +:+ identifier +:+ "/media")
    data json kwargs.

Definition post_series_identifier_modify (identifier : string) (data json : PyVal) (kwargs : Kwargs) : M Response :=
  orthanc_url ← getattr _orthanc_url;
  self_post_request
    (orthanc_url +:+ "/series/" +:+ identifier +:+ "/modify")
    data json kwargs.

Definition get_series_identifier_module (identifier : string) (params : PyVal) (kwargs : Kwargs) : M Response :=
  orthanc_url ← getattr _orthanc_url;
  self_get_request
    (orthanc_url +:+ "/series/" +:+ identifier +:+ "/module")
    params kwargs.

Definition get_series_identifier_ordered_slices (identifier : string) (params : PyVal) (kwargs : Kwargs) : M Response :=
  orthanc_url ← getattr _orthanc_url;
  self_get_request
    (orthanc_url +:+ "/series/" +:+ identifier +:+ "/ordered_slices")
    params kwargs.

Definition get_series_identifier_patient (identifier : string) (params : PyVal) (kwargs : Kwargs) : M Response :=
  orthanc_url ← getattr _orthanc_url;
  self_get_request
    (orthanc_url +:+ "/series/" +:+ identifier +:+ "/patient")
    params kwargs.

Definition post_series_identifier_reconstruct (identifier : string) (data json : PyVal) (kwargs : Kwargs) : M Response :=
  orthanc_url ← getattr _orthanc_url;
  self_post_request
    (orthanc_url +:+ "/series/" +:+ identifier +:+ "/reconstruct")
    data json kwargs.

Definition get_series_identifier_shared_tags (identifier : string) (params : PyVal) (kwargs : Kwargs) : M Response :=
  orthanc_url ← getattr _orthanc_url;
  self_get_request
    (orthanc_url +:+ "/series/" +:+ identifier +:+ "/shared_tags")
    params kwargs.

Definition get_series_identifier_statistics (identifier : string) (params : PyVal) (kwargs : Kwargs) : M Response :=
  orthanc_url ← getattr _orthanc_url;
  self_get_request
    (orthanc_url +:+ "/series/" +:+ identifier +:+ "/statistics")
    params kwargs.

Definition get_series_identifier_study (identifier : string) (params : PyVal) (kwargs : Kwargs) : M Response :=
  orthanc_url ← getattr _orthanc_url;
  self_get_request
    (orthanc_url +:+ "/series/" +:+ identifier +:+ "/study")
    params kwargs.

Definition get_statistics (params : PyVal) (kwargs : Kwargs) : M Response :=
  orthanc_url ← getattr _orthanc_url;
  self_get_request
    (orthanc_url +:+ "/statistics")
    params kwargs.

Definition get_studies (params : PyVal) (kwargs : Kwargs) : M Response :=
  orthanc_url ← getattr _orthanc_url;
  self_get_request
    (orthanc_url +:+ "/studies")
    params kwargs.

Definition get_studies_identifier (identifier : string) (params : PyVal) (kwargs : Kwargs) : M Response :=
  orthanc_url ← getattr _orthanc_url;
  self_get_request
    (orthanc_url +:+ "/studies/" +:+ identifier)
    params kwargs.

Definition delete_studies_identifier (identifier : string) (kwargs : Kwargs) : M Response :=
  orthanc_url ← getattr _orthanc_url;
  self_delete_request
    (orthanc_url +:+ "/studies/" +:+ identifier)
    kwargs.

Definition post_studies_identifier_anonymize (identifier : string) (data json : PyVal) (kwargs : Kwargs) : M Response :=
  orthanc_url ← getattr _orthanc_url;
  self_post_request
    (orthanc_url +:+ "/studies/" +:+ identifier +:+ "/anonymize")
    data json kwargs.

Definition get_studies_identifier_archive (identifier : string) (params : PyVal) (kwargs : Kwargs) : M Response :=
  orthanc_url ← getattr _orthanc_url;
  self_get_request
    (orthanc_url +:+ "/studies/" +:+ identifier +:+ "/archive")
    params kwargs.

Definition post_studies_identifier_archive (identifier : string) (data json : PyVal) (kwargs : Kwargs) : M Response :=
  orthanc_url ← getattr _orthanc_url;
  self_post_request
    (orthanc_url +:+ "/studies/" +:+ identifier +:+ "/archive")
    data json kwargs.

Definition get_studies_identifier_instances (identifier : string) (params : PyVal) (kwargs : Kwargs) : M Response :=
  orthanc_url ← getattr _orthanc_url;
  self_get_request
    (orthanc_url +:+ "/studies/" +:+ identifier +:+ "/instances")
    params kwargs.

Definition get_studies_identifier_instances_tags (identifier : string) (params : PyVal) (kwargs : Kwargs) : M Response :=
  orthanc_url ← getattr _orthanc_url;
  self_get_request
    (orthanc_url +:+ "/studies/" +:+ identifier +:+ "/instances_tags")
    params kwargs.

Definition get_studies_identifier_media (identifier : string) (params : PyVal) (kwargs : Kwargs) : M Response :=
  orthanc_url ← getattr _orthanc_url;
  self_get_request
    (orthanc_url +:+ "/studies/" +:+ identifier +:+ "/media")
    params kwargs.

Definition post_studies_identifier_media (identifier : string) (data json : PyVal) (kwargs : Kwargs) : M Response :=
  orthanc_url ← getattr _orthanc_url;
  self_post_request
    (orthanc_url +:+ "/studies/" +:+ identifier +:+ "/media")
    data json kwargs.

Definition post_studies_identifier_merge (identifier : string) (data json : PyVal) (kwargs : Kwargs) : M Response :=
  orthanc_url ← getattr _orthanc_url;
  self_post_request
    (orthanc_url +:+ "/studies/" +:+ identifier +:+ "/merge")
    data json kwargs.

Definition post_studies_identifier_modify (identifier : string) (data json : PyVal) (kwargs : Kwargs) : M Response :=
  orthanc_url ← getattr _orthanc_url;
  self_post_request
    (orthanc_url +:+ "/studies/" +:+ identifier +:+ "/modify")
    data json kwargs.

Definition get_studies_identifier_module (identifier : string) (params : PyVal) (kwargs : Kwargs) : M Response :=
  orthanc_url ← getattr _orthanc_url;
  self_get_request
    (orthanc_url +:+ "/studies/" +:+ identifier +:+ "/module")
    params kwargs.

Definition get_studies_identifier_module_patient (identifier : string) (params : PyVal) (kwargs : Kwargs) : M Response :=
  orthanc_url ← getattr _orthanc_url;
  self_get_request
    (orthanc_url +:+ "/studies/" +:+ identifier +:+ "/module_patient")
    params kwargs.

Definition get_studies_identifier_patient (identifier : string) (params : PyVal) (kwargs : Kwargs) : M Response :=
  orthanc_url ← getattr _orthanc_url;
  self_get_request
    (orthanc_url +:+ "/studies/" +:+ identifier +:+ "/patient")
    params kwargs.

Definition post_studies_identifier_reconstruct (identifier : string) (data json : PyVal) (kwargs : Kwargs) : M Response :=
  orthanc_url ← getattr _orthanc_url;
  self_post_request
    (orthanc_url +:+ "/studies/" +:+ identifier +:+ "/reconstruct")
    data json kwargs.

Definition get_studies_identifier_series (identifier : string) (params : PyVal) (kwargs : Kwargs) : M Response :=
  orthanc_url ← getattr _orthanc_url;
  self_get_request
    (orthanc_url +:+ "/studies/" +:+ identifier +:+ "/series")
    params kwargs.

Definition get_studies_identifier_shared_tags (identifier : string) (params : PyVal) (kwargs : Kwargs) : M Response :=
  orthanc_url ← getattr _orthanc_url;
  self_get_request
    (orthanc_url +:+ "/studies/" +:+ identifier +:+ "/shared_tags")
    params kwargs.

Definition post_studies_identifier_split (identifier : string) (data json : PyVal) (kwargs : Kwargs) : M Response :=
  orthanc_url ← getattr _orthanc_url;
  self_post_request
    (orthanc_url +:+ "/studies/" +:+ identifier +:+ "/split")
    data json kwargs.

Definition get_studies_identifier_statistics (identifier : string) (params : PyVal) (kwargs : Kwargs) : M Response :=
  orthanc_url ← getattr _orthanc_url;
  self_get_request
    (orthanc_url +:+ "/studies/" +:+ identifier +:+ "/statistics")
    params kwargs.

Definition get_system (params : PyVal) (kwargs : Kwargs) : M Response :=
  orthanc_url ← getattr _orthanc_url;
  self_get_request
    (orthanc_url +:+ "/system")
    params kwargs.

Definition post_tools_create_archive (data json : PyVal) (kwargs : Kwargs) : M Response :=
  orthanc_url ← getattr _orthanc_url;
  self_post_request
    (orthanc_url +:+ "/tools/create_archive")
    data json kwargs.

Definition post_tools_create_dicom (data json : PyVal) (kwargs : Kwargs) : M Response :=
  orthanc_url ← getattr _orthanc_url;
  self_post_request
    (orthanc_url +:+ "/tools/create_dicom")
    data json kwargs.

Definition post_tools_create_media (data json : PyVal) (kwargs : Kwargs) : M Response :=
  orthanc_url ← getattr _orthanc_url;
  self_post_request
    (orthanc_url +:+ "/tools/create_media")
    data json kwargs.

Definition post_tools_create_media_extended (data json : PyVal) (kwargs : Kwargs) : M Response :=
  orthanc_url ← getattr _orthanc_url;
  self_post_request
    (orthanc_url +:+ "/tools/create_media_extended")
    data json kwargs.

Definition get_tools_default_encoding (params : PyVal) (kwargs : Kwargs) : M Response :=
  orthanc_url ← getattr _orthanc_url;
  self_get_request
    (orthanc_url +:+ "/tools/default_encoding")
    params kwargs.

Definition put_tools_default_encoding (data json : PyVal) (kwargs : Kwargs) : M Response :=
  orthanc_url ← getattr _orthanc_url;
  self_put_request
    (orthanc_url +:+ "/tools/default_encoding")
    data json kwargs.

Definition get_tools_dicom_conformance (params : PyVal) (kwargs : Kwargs) : M Response :=
  orthanc_url ← getattr _orthanc_url;
  self_get_request
    (orthanc_url +:+ "/tools/dicom_conformance")
    params kwargs.

Definition post_tools_execute_script (data json : PyVal) (kwargs : Kwargs) : M Response :=
  orthanc_url ← getattr _orthanc_url;
  self_post_request
    (orthanc_url +:+ "/tools/execute_script")
    data json kwargs.

Definition post_tools_find (data json : PyVal) (kwargs : Kwargs) : M Response :=
  orthanc_url ← getattr _orthanc_url;
  self_post_request
    (orthanc_url +:+ "/tools/find")
    data json kwargs.

Definition get_tools_generate_uid (params : PyVal) (kwargs : Kwargs) : M Response :=
  orthanc_url ← getattr _orthanc_url;
  self_get_request
    (orthanc_url +:+ "/tools/generate_uid")
    params kwargs.

Definition post_tools_invalidate_tags (data json : PyVal) (kwargs : Kwargs) : M Response :=
  orthanc_url ← getattr _orthanc_url;
  self_post_request
    (orthanc_url +:+ "/tools/invalidate_tags")
    data json kwargs.

Definition post_tools_lookup (data json : PyVal) (kwargs : Kwargs) : M Response :=
  orthanc_url ← getattr _orthanc_url;
  self_post_request
    (orthanc_url +:+ "/tools/lookup")
    data json kwargs.

Definition get_tools_metrics (params : PyVal) (kwargs : Kwargs) : M Response :=
  orthanc_url ← getattr _orthanc_url;
  self_get_request
    (orthanc_url +:+ "/tools/metrics")
    params kwargs.

Definition put_tools_metrics (data json : PyVal) (kwargs : Kwargs) : M Response :=
  orthanc_url ← getattr _orthanc_url;
  self_put_request
    (orthanc_url +:+ "/tools/metrics")
    data json kwargs.

Definition get_tools_metrics_prometheus (params : PyVal) (kwargs : Kwargs) : M Response :=
  orthanc_url ← getattr _orthanc_url;
  self_get_request
    (orthanc_url +:+ "/tools/metrics_prometheus")
    params kwargs.

Definition get_tools_now (params : PyVal) (kwargs : Kwargs) : M Response :=
  orthanc_url ← getattr _orthanc_url;
  self_get_request
    (orthanc_url +:+ "/tools/now")
    params kwargs.

Definition get_tools_now_local (params : PyVal) (kwargs : Kwargs) : M Response :=
  orthanc_url ← getattr _orthanc_url;
  self_get_request
    (orthanc_url +:+ "/tools/now_local")
    params kwargs.

Definition post_tools_reconstruct (data json : PyVal) (kwargs : Kwargs) : M Response :=
  orthanc_url ← getattr _orthanc_url;
  self_post_request
    (orthanc_url +:+ "/tools/reconstruct")
    data json kwargs.

Definition post_tools_reset (data json : PyVal) (kwargs : Kwargs) : M Response :=
  orthanc_url ← getattr _orthanc_url;
  self_post_request
    (orthanc_url +:+ "/tools/reset")
    data json kwargs.

Definition post_tools_shutdown (data json : PyVal) (kwargs : Kwargs) : M Response :=
  orthanc_url ← getattr _orthanc_url;
  self_post_request
    (orthanc_url +:+ "/tools/shutdown")
    data json kwargs.

End Orthanc.

(** ** Calls of endpoint methods as data

    A call of an endpoint method with its arguments, so that statements can
    range over every method of the class.  Python binds a keyword that is
    named like a parameter to that parameter, so the [kwargs] of a call made
    by Python never holds [params], [data] or [json] where the method has a
    parameter of that name; a call given here with such a [kwargs] ends in
    [TypeError] at the first call site that passes the name again. *)

Inductive EndpointCall : Type :=
| Get_attachments (resource_type identifier : string) (params : PyVal) (kwargs : Kwargs)
| Get_attachment_by_name (resource_type identifier name : string) (params : PyVal) (kwargs : Kwargs)
| Delete_attachment_by_name (resource_type identifier name : string) (kwargs : Kwargs)
| Put_attachment_by_name (resource_type identifier name : string) (data json : PyVal) (kwargs : Kwargs)
| Post_compress_attachment (resource_type identifier name : string) (data json : PyVal) (kwargs : Kwargs)
| Get_attachment_compressed_data (resource_type identifier name : string) (params : PyVal) (kwargs : Kwargs)
| Get_attachment_compressed_data_md5 (resource_type identifier name : string) (params : PyVal) (kwargs : Kwargs)
| Get_attachment_compressed_size (resource_type identifier name : string) (params : PyVal) (kwargs : Kwargs)
| Get_attachment_data (resource_type identifier name : string) (params : PyVal) (kwargs : Kwargs)
| Get_if_attachment_compressed (resource_type identifier name : string) (params : PyVal) (kwargs : Kwargs)
| Get_attachments_name_md5 (resource_type identifier name : string) (params : PyVal) (kwargs : Kwargs)
| Get_resource_type_identifier_attachments_name_size (resource_type identifier name : string) (params : PyVal) (kwargs : Kwargs)
| Post_resource_type_identifier_attachments_name_uncompress (resource_type identifier name : string) (data json : PyVal) (kwargs : Kwargs)
| Post_resource_type_identifier_attachments_name_verify_md5 (resource_type identifier name : string) (data json : PyVal) (kwargs : Kwargs)
| Get_resource_type_identifier_metadata (resource_type identifier : string) (params : PyVal) (kwargs : Kwargs)
| Get_resource_type_identifier_metadata_name (resource_type identifier name : string) (params : PyVal) (kwargs : Kwargs)
| Delete_resource_type_identifier_metadata_name (resource_type identifier name : string) (kwargs : Kwargs)
| Put_resource_type_identifier_metadata_name (resource_type identifier name : string) (data json : PyVal) (kwargs : Kwargs)
| Get_changes (params : PyVal) (kwargs : Kwargs)
| Delete_changes (kwargs : Kwargs)
| Get_exports (params : PyVal) (kwargs : Kwargs)
| Delete_exports (kwargs : Kwargs)
| Get_instances (params : PyVal) (kwargs : Kwargs)
| Post_instances (data json : PyVal) (kwargs : Kwargs)
| Get_instances_identifier (identifier : string) (params : PyVal) (kwargs : Kwargs)
| Delete_instances_identifier (identifier : string) (kwargs : Kwargs)
| Post_instances_identifier_anonymize (identifier : string) (data json : PyVal) (kwargs : Kwargs)
| Get_instances_identifier_content (identifier : string) (params : PyVal) (kwargs : Kwargs)
| Get_instances_identifier_content_group_element (identifier group_element : string) (params : PyVal) (kwargs : Kwargs)
| Get_instances_identifier_content_group_element_index (identifier group_element index : string) (params : PyVal) (kwargs : Kwargs)
| Post_instances_identifier_export (identifier : string) (data json : PyVal) (kwargs : Kwargs)
| Get_instances_identifier_file (identifier : string) (params : PyVal) (kwargs : Kwargs)
| Get_instances_identifier_frames (identifier : string) (params : PyVal) (kwargs : Kwargs)
| Get_instances_identifier_frames_frameNumber_image_int16 (identifier frameNumber : string) (params : PyVal) (kwargs : Kwargs)
| Get_instances_identifier_frames_frameNumber_image_uint16 (identifier frameNumber : string) (params : PyVal) (kwargs : Kwargs)
| Get_instances_identifier_frames_frameNumber_image_uint8 (identifier frameNumber : string) (params : PyVal) (kwargs : Kwargs)
| Get_instances_identifier_frames_frameNumber_matlab (identifier frameNumber : string) (params : PyVal) (kwargs : Kwargs)
| Get_instances_identifier_frames_frameNumber_preview (identifier frameNumber : string) (params : PyVal) (kwargs : Kwargs)
| Get_instances_identifier_frames_frameNumber_raw (identifier frameNumber : string) (params : PyVal) (kwargs : Kwargs)
| Get_instances_identifier_frames_frameNumber_raw_gz (identifier frameNumber : string) (params : PyVal) (kwargs : Kwargs)
| Get_instances_identifier_header (identifier : string) (params : PyVal) (kwargs : Kwargs)
| Get_instances_identifier_image_int16 (identifier : string) (params : PyVal) (kwargs : Kwargs)
| Get_instances_identifier_image_uint16 (identifier : string) (params : PyVal) (kwargs : Kwargs)
| Get_instances_identifier_image_uint8 (identifier : string) (params : PyVal) (kwargs : Kwargs)
| Get_instances_identifier_matlab (identifier : string) (params : PyVal) (kwargs : Kwargs)
| Post_instances_identifier_modify (identifier : string) (data json : PyVal) (kwargs : Kwargs)
| Get_instances_identifier_module (identifier : string) (params : PyVal) (kwargs : Kwargs)
| Get_instances_identifier_patient (identifier : string) (params : PyVal) (kwargs : Kwargs)
| Get_instances_identifier_pdf (identifier : string) (params : PyVal) (kwargs : Kwargs)
| Get_instances_identifier_preview (identifier : string) (params : PyVal) (kwargs : Kwargs)
| Post_instances_identifier_reconstruct (identifier : string) (data json : PyVal) (kwargs : Kwargs)
| Get_instances_identifier_series (identifier : string) (params : PyVal) (kwargs : Kwargs)
| Get_instances_identifier_simplified_tags (identifier : string) (params : PyVal) (kwargs : Kwargs)
| Get_instances_identifier_statistics (identifier : string) (params : PyVal) (kwargs : Kwargs)
| Get_instances_identifier_study (identifier : string) (params : PyVal) (kwargs : Kwargs)
| Get_instances_identifier_tags (identifier : string) (params : PyVal) (kwargs : Kwargs)
| Get_jobs (params : PyVal) (kwargs : Kwargs)
| Get_jobs_identifier (identifier : string) (params : PyVal) (kwargs : Kwargs)
| Post_jobs_identifier_cancel (identifier : string) (data json : PyVal) (kwargs : Kwargs)
| Post_jobs_identifier_pause (identifier : string) (data json : PyVal) (kwargs : Kwargs)
| Post_jobs_identifier_resubmit (identifier : string) (data json : PyVal) (kwargs : Kwargs)
| Post_jobs_identifier_resume (identifier : string) (data json : PyVal) (kwargs : Kwargs)
| Get_jobs_identifier_key (identifier key : string) (params : PyVal) (kwargs : Kwargs)
| Get_modalities (params : PyVal) (kwargs : Kwargs)
| Get_modalities_dicom (dicom : string) (params : PyVal) (kwargs : Kwargs)
| Delete_modalities_dicom (dicom : string) (kwargs : Kwargs)
| Put_modalities_dicom (dicom : string) (data json : PyVal) (kwargs : Kwargs)
| Post_modalities_dicom_echo (dicom : string) (data json : PyVal) (kwargs : Kwargs)
| Post_modalities_dicom_move (dicom : string) (data json : PyVal) (kwargs : Kwargs)
| Post_modalities_dicom_query (dicom : string) (data json : PyVal) (kwargs : Kwargs)
| Post_modalities_dicom_store (dicom : string) (data json : PyVal) (kwargs : Kwargs)
| Get_patients (params : PyVal) (kwargs : Kwargs)
| Get_patients_identifier (identifier : string) (params : PyVal) (kwargs : Kwargs)
| Delete_patients_identifier (identifier : string) (kwargs : Kwargs)
| Post_patients_identifier_anonymize (identifier : string) (data json : PyVal) (kwargs : Kwargs)
| Get_patients_identifier_archive (identifier : string) (params : PyVal) (kwargs : Kwargs)
| Post_patients_identifier_archive (identifier : string) (data json : PyVal) (kwargs : Kwargs)
| Get_patients_identifier_instances (identifier : string) (params : PyVal) (kwargs : Kwargs)
| Get_patients_identifier_instances_tags (identifier : string) (params : PyVal) (kwargs : Kwargs)
| Get_patients_identifier_media (identifier : string) (params : PyVal) (kwargs : Kwargs)
| Post_patients_identifier_media (identifier : string) (data json : PyVal) (kwargs : Kwargs)
| Post_patients_identifier_modify (identifier : string) (data json : PyVal) (kwargs : Kwargs)
| Get_patients_identifier_module (identifier : string) (params : PyVal) (kwargs : Kwargs)
| Get_patients_identifier_protected (identifier : string) (params : PyVal) (kwargs : Kwargs)
| Put_patients_identifier_protected (identifier : string) (data json : PyVal) (kwargs : Kwargs)
| Post_patients_identifier_reconstruct (identifier : string) (data json : PyVal) (kwargs : Kwargs)
| Get_patients_identifier_series (identifier : string) (params : PyVal) (kwargs : Kwargs)
| Get_patients_identifier_shared_tags (identifier : string) (params : PyVal) (kwargs : Kwargs)
| Get_patients_identifier_statistics (identifier : string) (params : PyVal) (kwargs : Kwargs)
| Get_patients_identifier_studies (identifier : string) (params : PyVal) (kwargs : Kwargs)
| Get_peers (params : PyVal) (kwargs : Kwargs)
| Get_peers_peer (peer : string) (params : PyVal) (kwargs : Kwargs)
| Delete_peers_peer (peer : string) (kwargs : Kwargs)
| Put_peers_peer (peer : string) (data json : PyVal) (kwargs : Kwargs)
| Post_peers_peer_store (peer : string) (data json : PyVal) (kwargs : Kwargs)
| Get_plugins (params : PyVal) (kwargs : Kwargs)
| Get_plugins_identifier (identifier : string) (params : PyVal) (kwargs : Kwargs)
| Get_plugins_explorer_js (params : PyVal) (kwargs : Kwargs)
| Get_queries (params : PyVal) (kwargs : Kwargs)
| Get_queries_identifier (identifier : string) (params : PyVal) (kwargs : Kwargs)
| Delete_queries_identifier (identifier : string) (kwargs : Kwargs)
| Get_queries_identifier_answers (identifier : string) (params : PyVal) (kwargs : Kwargs)
| Get_queries_identifier_answers_index_content (identifier index : string) (params : PyVal) (kwargs : Kwargs)
| Post_queries_identifier_answers_index_retrieve (identifier index : string) (data json : PyVal) (kwargs : Kwargs)
| Post_queries_identifier_answers_index_query_instances (identifier index : string) (data json : PyVal) (kwargs : Kwargs)
| Post_queries_identifier_answers_index_query_series (identifier index : string) (data json : PyVal) (kwargs : Kwargs)
| Post_queries_identifier_answers_index_query_studies (identifier index : string) (data json : PyVal) (kwargs : Kwargs)
| Get_queries_identifier_level (identifier : string) (params : PyVal) (kwargs : Kwargs)
| Get_queries_identifier_modality (identifier : string) (params : PyVal) (kwargs : Kwargs)
| Get_queries_identifier_query (identifier : string) (params : PyVal) (kwargs : Kwargs)
| Post_queries_identifier_retrieve (identifier : string) (data json : PyVal) (kwargs : Kwargs)
| Get_series (params : PyVal) (kwargs : Kwargs)
| Get_series_identifier (identifier : string) (params : PyVal) (kwargs : Kwargs)
| Delete_series_identifier (identifier : string) (kwargs : Kwargs)
| Post_series_identifier_anonymize (identifier : string) (data json : PyVal) (kwargs : Kwargs)
| Get_series_identifier_archive (identifier : string) (params : PyVal) (kwargs : Kwargs)
| Post_series_identifier_archive (identifier : string) (data json : PyVal) (kwargs : Kwargs)
| Get_series_identifier_instances (identifier : string) (params : PyVal) (kwargs : Kwargs)
| Get_series_identifier_instances_tags (identifier : string) (params : PyVal) (kwargs : Kwargs)
| Get_series_identifier_media (identifier : string) (params : PyVal) (kwargs : Kwargs)
| Post_series_identifier_media (identifier : string) (data json : PyVal) (kwargs : Kwargs)
| Post_series_identifier_modify (identifier : string) (data json : PyVal) (kwargs : Kwargs)
| Get_series_identifier_module (identifier : string) (params : PyVal) (kwargs : Kwargs)
| Get_series_identifier_ordered_slices (identifier : string) (params : PyVal) (kwargs : Kwargs)
| Get_series_identifier_patient (identifier : string) (params : PyVal) (kwargs : Kwargs)
| Post_series_identifier_reconstruct (identifier : string) (data json : PyVal) (kwargs : Kwargs)
| Get_series_identifier_shared_tags (identifier : string) (params : PyVal) (kwargs : Kwargs)
| Get_series_identifier_statistics (identifier : string) (params : PyVal) (kwargs : Kwargs)
| Get_series_identifier_study (identifier : string) (params : PyVal) (kwargs : Kwargs)
| Get_statistics (params : PyVal) (kwargs : Kwargs)
| Get_studies (params : PyVal) (kwargs : Kwargs)
| Get_studies_identifier (identifier : string) (params : PyVal) (kwargs : Kwargs)
| Delete_studies_identifier (identifier : string) (kwargs : Kwargs)
| Post_studies_identifier_anonymize (identifier : string) (data json : PyVal) (kwargs : Kwargs)
| Get_studies_identifier_archive (identifier : string) (params : PyVal) (kwargs : Kwargs)
| Post_studies_identifier_archive (identifier : string) (data json : PyVal) (kwargs : Kwargs)
| Get_studies_identifier_instances (identifier : string) (params : PyVal) (kwargs : Kwargs)
| Get_studies_identifier_instances_tags (identifier : string) (params : PyVal) (kwargs : Kwargs)
| Get_studies_identifier_media (identifier : string) (params : PyVal) (kwargs : Kwargs)
| Post_studies_identifier_media (identifier : string) (data json : PyVal) (kwargs : Kwargs)
| Post_studies_identifier_merge (identifier : string) (data json : PyVal) (kwargs : Kwargs)
| Post_studies_identifier_modify (identifier : string) (data json : PyVal) (kwargs : Kwargs)
| Get_studies_identifier_module (identifier : string) (params : PyVal) (kwargs : Kwargs)
| Get_studies_identifier_module_patient (identifier : string) (params : PyVal) (kwargs : Kwargs)
| Get_studies_identifier_patient (identifier : string) (params : PyVal) (kwargs : Kwargs)
| Post_studies_identifier_reconstruct (identifier : string) (data json : PyVal) (kwargs : Kwargs)
| Get_studies_identifier_series (identifier : string) (params : PyVal) (kwargs : Kwargs)
| Get_studies_identifier_shared_tags (identifier : string) (params : PyVal) (kwargs : Kwargs)
| Post_studies_identifier_split (identifier : string) (data json : PyVal) (kwargs : Kwargs)
| Get_studies_identifier_statistics (identifier : string) (params : PyVal) (kwargs : Kwargs)
| Get_system (params : PyVal) (kwargs : Kwargs)
| Post_tools_create_archive (data json : PyVal) (kwargs : Kwargs)
| Post_tools_create_dicom (data json : PyVal) (kwargs : Kwargs)
| Post_tools_create_media (data json : PyVal) (kwargs : Kwargs)
| Post_tools_create_media_extended (data json : PyVal) (kwargs : Kwargs)
| Get_tools_default_encoding (params : PyVal) (kwargs : Kwargs)
| Put_tools_default_encoding (data json : PyVal) (kwargs : Kwargs)
| Get_tools_dicom_conformance (params : PyVal) (kwargs : Kwargs)
| Post_tools_execute_script (data json : PyVal) (kwargs : Kwargs)
| Post_tools_find (data json : PyVal) (kwargs : Kwargs)
| Get_tools_generate_uid (params : PyVal) (kwargs : Kwargs)
| Post_tools_invalidate_tags (data json : PyVal) (kwargs : Kwargs)
| Post_tools_lookup (data json : PyVal) (kwargs : Kwargs)
| Get_tools_metrics (params : PyVal) (kwargs : Kwargs)
| Put_tools_metrics (data json : PyVal) (kwargs : Kwargs)
| Get_tools_metrics_prometheus (params : PyVal) (kwargs : Kwargs)
| Get_tools_now (params : PyVal) (kwargs : Kwargs)
| Get_tools_now_local (params : PyVal) (kwargs : Kwargs)
| Post_tools_reconstruct (data json : PyVal) (kwargs : Kwargs)
| Post_tools_reset (data json : PyVal) (kwargs : Kwargs)
| Post_tools_shutdown (data json : PyVal) (kwargs : Kwargs).

(** What a call consists of: the method, its path arguments in order, its
    payload arguments under the names the method gives them, and the extra
    keyword arguments. *)
Record CallData : Type := mkCallData {
  method_name : string;
  path_args : list string;
  payload : list (string * PyVal);
  extra : Kwargs
}.

Definition call_data (e : EndpointCall) : CallData :=
  match e with
  | Get_attachments resource_type identifier params kwargs =>
      mkCallData "get_attachments" [resource_type; identifier] [("params", params)] kwargs
  | Get_attachment_by_name resource_type identifier name params kwargs =>
      mkCallData "get_attachment_by_name" [resource_type; identifier; name] [("params", params)] kwargs
  | Delete_attachment_by_name resource_type identifier name kwargs =>
      mkCallData "delete_attachment_by_name" [resource_type; identifier; name] [] kwargs
  | Put_attachment_by_name resource_type identifier name data json kwargs =>
      mkCallData "put_attachment_by_name" [resource_type; identifier; name] [("data", data); ("json", json)] kwargs
  | Post_compress_attachment resource_type identifier name data json kwargs =>
      mkCallData "post_compress_attachment" [resource_type; identifier; name] [("data", data); ("json", json)] kwargs
  | Get_attachment_compressed_data resource_type identifier name params kwargs =>
      mkCallData "get_attachment_compressed_data" [resource_type; identifier; name] [("params", params)] kwargs
  | Get_attachment_compressed_data_md5 resource_type identifier name params kwargs =>
      mkCallData "get_attachment_compressed_data_md5" [resource_type; identifier; name] [("params", params)] kwargs
  | Get_attachment_compressed_size resource_type identifier name params kwargs =>
      mkCallData "get_attachment_compressed_size" [resource_type; identifier; name] [("params", params)] kwargs
  | Get_attachment_data resource_type identifier name params kwargs =>
      mkCallData "get_attachment_data" [resource_type; identifier; name] [("params", params)] kwargs
  | Get_if_attachment_compressed resource_type identifier name params kwargs =>
      mkCallData "get_if_attachment_compressed" [resource_type; identifier; name] [("params", params)] kwargs
  | Get_attachments_name_md5 resource_type identifier name params kwargs =>
      mkCallData "get_attachments_name_md5" [resource_type; identifier; name] [("params", params)] kwargs
  | Get_resource_type_identifier_attachments_name_size resource_type identifier name params kwargs =>
      mkCallData "get_resource_type_identifier_attachments_name_size" [resource_type; identifier; name] [("params", params)] kwargs
  | Post_resource_type_identifier_attachments_name_uncompress resource_type identifier name data json kwargs =>
      mkCallData "post_resource_type_identifier_attachments_name_uncompress" [resource_type; identifier; name] [("data", data); ("json", json)] kwargs
  | Post_resource_type_identifier_attachments_name_verify_md5 resource_type identifier name data json kwargs =>
      mkCallData "post_resource_type_identifier_attachments_name_verify_md5" [resource_type; identifier; name] [("data", data); ("json", json)] kwargs
  | Get_resource_type_identifier_metadata resource_type identifier params kwargs =>
      mkCallData "get_resource_type_identifier_metadata" [resource_type; identifier] [("params", params)] kwargs
  | Get_resource_type_identifier_metadata_name resource_type identifier name params kwargs =>
      mkCallData "get_resource_type_identifier_metadata_name" [resource_type; identifier; name] [("params", params)] kwargs
  | Delete_resource_type_identifier_metadata_name resource_type identifier name kwargs =>
      mkCallData "delete_resource_type_identifier_metadata_name" [resource_type; identifier; name] [] kwargs
  | Put_resource_type_identifier_metadata_name resource_type identifier name data json kwargs =>
      mkCallData "put_resource_type_identifier_metadata_name" [resource_type; identifier; name] [("data", data); ("json", json)] kwargs
  | Get_changes params kwargs =>
      mkCallData "get_changes" [] [("params", params)] kwargs
  | Delete_changes kwargs =>
      mkCallData "delete_changes" [] [] kwargs
  | Get_exports params kwargs =>
      mkCallData "get_exports" [] [("params", params)] kwargs
  | Delete_exports kwargs =>
      mkCallData "delete_exports" [] [] kwargs
  | Get_instances params kwargs =>
      mkCallData "get_instances" [] [("params", params)] kwargs
  | Post_instances data json kwargs =>
      mkCallData "post_instances" [] [("data", data); ("json", json)] kwargs
  | Get_instances_identifier identifier params kwargs =>
      mkCallData "get_instances_identifier" [identifier] [("params", params)] kwargs
  | Delete_instances_identifier identifier kwargs =>
      mkCallData "delete_instances_identifier" [identifier] [] kwargs
  | Post_instances_identifier_anonymize identifier data json kwargs =>
      mkCallData "post_instances_identifier_anonymize" [identifier] [("data", data); ("json", json)] kwargs
  | Get_instances_identifier_content identifier params kwargs =>
      mkCallData "get_instances_identifier_content" [identifier] [("params", params)] kwargs
  | Get_instances_identifier_content_group_element identifier group_element params kwargs =>
      mkCallData "get_instances_identifier_content_group_element" [identifier; group_element] [("params", params)] kwargs
  | Get_instances_identifier_content_group_element_index identifier group_element index params kwargs =>
      mkCallData "get_instances_identifier_content_group_element_index" [identifier; group_element; index] [("params", params)] kwargs
  | Post_instances_identifier_export identifier data json kwargs =>
      mkCallData "post_instances_identifier_export" [identifier] [("data", data); ("json", json)] kwargs
  | Get_instances_identifier_file identifier params kwargs =>
      mkCallData "get_instances_identifier_file" [identifier] [("params", params)] kwargs
  | Get_instances_identifier_frames identifier params kwargs =>
      mkCallData "get_instances_identifier_frames" [identifier] [("params", params)] kwargs
  | Get_instances_identifier_frames_frameNumber_image_int16 identifier frameNumber params kwargs =>
      mkCallData "get_instances_identifier_frames_frameNumber_image_int16" [identifier; frameNumber] [("params", params)] kwargs
  | Get_instances_identifier_frames_frameNumber_image_uint16 identifier frameNumber params kwargs =>
      mkCallData "get_instances_identifier_frames_frameNumber_image_uint16" [identifier; frameNumber] [("params", params)] kwargs
  | Get_instances_identifier_frames_frameNumber_image_uint8 identifier frameNumber params kwargs =>
      mkCallData "get_instances_identifier_frames_frameNumber_image_uint8" [identifier; frameNumber] [("params", params)] kwargs
  | Get_instances_identifier_frames_frameNumber_matlab identifier frameNumber params kwargs =>
      mkCallData "get_instances_identifier_frames_frameNumber_matlab" [identifier; frameNumber] [("params", params)] kwargs
  | Get_instances_identifier_frames_frameNumber_preview identifier frameNumber params kwargs =>
      mkCallData "get_instances_identifier_frames_frameNumber_preview" [identifier; frameNumber] [("params", params)] kwargs
  | Get_instances_identifier_frames_frameNumber_raw identifier frameNumber params kwargs =>
      mkCallData "get_instances_identifier_frames_frameNumber_raw" [identifier; frameNumber] [("params", params)] kwargs
  | Get_instances_identifier_frames_frameNumber_raw_gz identifier frameNumber params kwargs =>
      mkCallData "get_instances_identifier_frames_frameNumber_raw_gz" [identifier; frameNumber] [("params", params)] kwargs
  | Get_instances_identifier_header identifier params kwargs =>
      mkCallData "get_instances_identifier_header" [identifier] [("params", params)] kwargs
  | Get_instances_identifier_image_int16 identifier params kwargs =>
      mkCallData "get_instances_identifier_image_int16" [identifier] [("params", params)] kwargs
  | Get_instances_identifier_image_uint16 identifier params kwargs =>
      mkCallData "get_instances_identifier_image_uint16" [identifier] [("params", params)] kwargs
  | Get_instances_identifier_image_uint8 identifier params kwargs =>
      mkCallData "get_instances_identifier_image_uint8" [identifier] [("params", params)] kwargs
  | Get_instances_identifier_matlab identifier params kwargs =>
      mkCallData "get_instances_identifier_matlab" [identifier] [("params", params)] kwargs
  | Post_instances_identifier_modify identifier data json kwargs =>
      mkCallData "post_instances_identifier_modify" [identifier] [("data", data); ("json", json)] kwargs
  | Get_instances_identifier_module identifier params kwargs =>
      mkCallData "get_instances_identifier_module" [identifier] [("params", params)] kwargs
  | Get_instances_identifier_patient identifier params kwargs =>
      mkCallData "get_instances_identifier_patient" [identifier] [("params", params)] kwargs
  | Get_instances_identifier_pdf identifier params kwargs =>
      mkCallData "get_instances_identifier_pdf" [identifier] [("params", params)] kwargs
  | Get_instances_identifier_preview identifier params kwargs =>
      mkCallData "get_instances_identifier_preview" [identifier] [("params", params)] kwargs
  | Post_instances_identifier_reconstruct identifier data json kwargs =>
      mkCallData "post_instances_identifier_reconstruct" [identifier] [("data", data); ("json", json)] kwargs
  | Get_instances_identifier_series identifier params kwargs =>
      mkCallData "get_instances_identifier_series" [identifier] [("params", params)] kwargs
  | Get_instances_identifier_simplified_tags identifier params kwargs =>
      mkCallData "get_instances_identifier_simplified_tags" [identifier] [("params", params)] kwargs
  | Get_instances_identifier_statistics identifier params kwargs =>
      mkCallData "get_instances_identifier_statistics" [identifier] [("params", params)] kwargs
  | Get_instances_identifier_study identifier params kwargs =>
      mkCallData "get_instances_identifier_study" [identifier] [("params", params)] kwargs
  | Get_instances_identifier_tags identifier params kwargs =>
      mkCallData "get_instances_identifier_tags" [identifier] [("params", params)] kwargs
  | Get_jobs params kwargs =>
      mkCallData "get_jobs" [] [("params", params)] kwargs
  | Get_jobs_identifier identifier params kwargs =>
      mkCallData "get_jobs_identifier" [identifier] [("params", params)] kwargs
  | Post_jobs_identifier_cancel identifier data json kwargs =>
      mkCallData "post_jobs_identifier_cancel" [identifier] [("data", data); ("json", json)] kwargs
  | Post_jobs_identifier_pause identifier data json kwargs =>
      mkCallData "post_jobs_identifier_pause" [identifier] [("data", data); ("json", json)] kwargs
  | Post_jobs_identifier_resubmit identifier data json kwargs =>
      mkCallData "post_jobs_identifier_resubmit" [identifier] [("data", data); ("json", json)] kwargs
  | Post_jobs_identifier_resume identifier data json kwargs =>
      mkCallData "post_jobs_identifier_resume" [identifier] [("data", data); ("json", json)] kwargs
  | Get_jobs_identifier_key identifier key params kwargs =>
      mkCallData "get_jobs_identifier_key" [identifier; key] [("params", params)] kwargs
  | Get_modalities params kwargs =>
      mkCallData "get_modalities" [] [("params", params)] kwargs
  | Get_modalities_dicom dicom params kwargs =>
      mkCallData "get_modalities_dicom" [dicom] [("params", params)] kwargs
  | Delete_modalities_dicom dicom kwargs =>
      mkCallData "delete_modalities_dicom" [dicom] [] kwargs
  | Put_modalities_dicom dicom data json kwargs =>
      mkCallData "put_modalities_dicom" [dicom] [("data", data); ("json", json)] kwargs
  | Post_modalities_dicom_echo dicom data json kwargs =>
      mkCallData "post_modalities_dicom_echo" [dicom] [("data", data); ("json", json)] kwargs
  | Post_modalities_dicom_move dicom data json kwargs =>
      mkCallData "post_modalities_dicom_move" [dicom] [("data", data); ("json", json)] kwargs
  | Post_modalities_dicom_query dicom data json kwargs =>
      mkCallData "post_modalities_dicom_query" [dicom] [("data", data); ("json", json)] kwargs
  | Post_modalities_dicom_store dicom data json kwargs =>
      mkCallData "post_modalities_dicom_store" [dicom] [("data", data); ("json", json)] kwargs
  | Get_patients params kwargs =>
      mkCallData "get_patients" [] [("params", params)] kwargs
  | Get_patients_identifier identifier params kwargs =>
      mkCallData "get_patients_identifier" [identifier] [("params", params)] kwargs
  | Delete_patients_identifier identifier kwargs =>
      mkCallData "delete_patients_identifier" [identifier] [] kwargs
  | Post_patients_identifier_anonymize identifier data json kwargs =>
      mkCallData "post_patients_identifier_anonymize" [identifier] [("data", data); ("json", json)] kwargs
  | Get_patients_identifier_archive identifier params kwargs =>
      mkCallData "get_patients_identifier_archive" [identifier] [("params", params)] kwargs
  | Post_patients_identifier_archive identifier data json kwargs =>
      mkCallData "post_patients_identifier_archive" [identifier] [("data", data); ("json", json)] kwargs
  | Get_patients_identifier_instances identifier params kwargs =>
      mkCallData "get_patients_identifier_instances" [identifier] [("params", params)] kwargs
  | Get_patients_identifier_instances_tags identifier params kwargs =>
      mkCallData "get_patients_identifier_instances_tags" [identifier] [("params", params)] kwargs
  | Get_patients_identifier_media identifier params kwargs =>
      mkCallData "get_patients_identifier_media" [identifier] [("params", params)] kwargs
  | Post_patients_identifier_media identifier data json kwargs =>
      mkCallData "post_patients_identifier_media" [identifier] [("data", data); ("json", json)] kwargs
  | Post_patients_identifier_modify identifier data json kwargs =>
      mkCallData "post_patients_identifier_modify" [identifier] [("data", data); ("json", json)] kwargs
  | Get_patients_identifier_module identifier params kwargs =>
      mkCallData "get_patients_identifier_module" [identifier] [("params", params)] kwargs
  | Get_patients_identifier_protected identifier params kwargs =>
      mkCallData "get_patients_identifier_protected" [identifier] [("params", params)] kwargs
  | Put_patients_identifier_protected identifier data json kwargs =>
      mkCallData "put_patients_identifier_protected" [identifier] [("data", data); ("json", json)] kwargs
  | Post_patients_identifier_reconstruct identifier data json kwargs =>
      mkCallData "post_patients_identifier_reconstruct" [identifier] [("data", data); ("json", json)] kwargs
  | Get_patients_identifier_series identifier params kwargs =>
      mkCallData "get_patients_identifier_series" [identifier] [("params", params)] kwargs
  | Get_patients_identifier_shared_tags identifier params kwargs =>
      mkCallData "get_patients_identifier_shared_tags" [identifier] [("params", params)] kwargs
  | Get_patients_identifier_statistics identifier params kwargs =>
      mkCallData "get_patients_identifier_statistics" [identifier] [("params", params)] kwargs
  | Get_patients_identifier_studies identifier params kwargs =>
      mkCallData "get_patients_identifier_studies" [identifier] [("params", params)] kwargs
  | Get_peers params kwargs =>
      mkCallData "get_peers" [] [("params", params)] kwargs
  | Get_peers_peer peer params kwargs =>
      mkCallData "get_peers_peer" [peer] [("params", params)] kwargs
  | Delete_peers_peer peer kwargs =>
      mkCallData "delete_peers_peer" [peer] [] kwargs
  | Put_peers_peer peer data json kwargs =>
      mkCallData "put_peers_peer" [peer] [("data", data); ("json", json)] kwargs
  | Post_peers_peer_store peer data json kwargs =>
      mkCallData "post_peers_peer_store" [peer] [("data", data); ("json", json)] kwargs
  | Get_plugins params kwargs =>
      mkCallData "get_plugins" [] [("params", params)] kwargs
  | Get_plugins_identifier identifier params kwargs =>
      mkCallData "get_plugins_identifier" [identifier] [("params", params)] kwargs
  | Get_plugins_explorer_js params kwargs =>
      mkCallData "get_plugins_explorer_js" [] [("params", params)] kwargs
  | Get_queries params kwargs =>
      mkCallData "get_queries" [] [("params", params)] kwargs
  | Get_queries_identifier identifier params kwargs =>
      mkCallData "get_queries_identifier" [identifier] [("params", params)] kwargs
  | Delete_queries_identifier identifier kwargs =>
      mkCallData "delete_queries_identifier" [identifier] [] kwargs
  | Get_queries_identifier_answers identifier params kwargs =>
      mkCallData "get_queries_identifier_answers" [identifier] [("params", params)] kwargs
  | Get_queries_identifier_answers_index_content identifier index params kwargs =>
      mkCallData "get_queries_identifier_answers_index_content" [identifier; index] [("params", params)] kwargs
  | Post_queries_identifier_answers_index_retrieve identifier index data json kwargs =>
      mkCallData "post_queries_identifier_answers_index_retrieve" [identifier; index] [("data", data); ("json", json)] kwargs
  | Post_queries_identifier_answers_index_query_instances identifier index data json kwargs =>
      mkCallData "post_queries_identifier_answers_index_query_instances" [identifier; index] [("data", data); ("json", json)] kwargs
  | Post_queries_identifier_answers_index_query_series identifier index data json kwargs =>
      mkCallData "post_queries_identifier_answers_index_query_series" [identifier; index] [("data", data); ("json", json)] kwargs
  | Post_queries_identifier_answers_index_query_studies identifier index data json kwargs =>
      mkCallData "post_queries_identifier_answers_index_query_studies" [identifier; index] [("data", data); ("json", json)] kwargs
  | Get_queries_identifier_level identifier params kwargs =>
      mkCallData "get_queries_identifier_level" [identifier] [("params", params)] kwargs
  | Get_queries_identifier_modality identifier params kwargs =>
      mkCallData "get_queries_identifier_modality" [identifier] [("params", params)] kwargs
  | Get_queries_identifier_query identifier params kwargs =>
      mkCallData "get_queries_identifier_query" [identifier] [("params", params)] kwargs
  | Post_queries_identifier_retrieve identifier data json kwargs =>
      mkCallData "post_queries_identifier_retrieve" [identifier] [("data", data); ("json", json)] kwargs
  | Get_series params kwargs =>
      mkCallData "get_series" [] [("params", params)] kwargs
  | Get_series_identifier identifier params kwargs =>
      mkCallData "get_series_identifier" [identifier] [("params", params)] kwargs
  | Delete_series_identifier identifier kwargs =>
      mkCallData "delete_series_identifier" [identifier] [] kwargs
  | Post_series_identifier_anonymize identifier data json kwargs =>
      mkCallData "post_series_identifier_anonymize" [identifier] [("data", data); ("json", json)] kwargs
  | Get_series_identifier_archive identifier params kwargs =>
      mkCallData "get_series_identifier_archive" [identifier] [("params", params)] kwargs
  | Post_series_identifier_archive identifier data json kwargs =>
      mkCallData "post_series_identifier_archive" [identifier] [("data", data); ("json", json)] kwargs
  | Get_series_identifier_instances identifier params kwargs =>
      mkCallData "get_series_identifier_instances" [identifier] [("params", params)] kwargs
  | Get_series_identifier_instances_tags identifier params kwargs =>
      mkCallData "get_series_identifier_instances_tags" [identifier] [("params", params)] kwargs
  | Get_series_identifier_media identifier params kwargs =>
      mkCallData "get_series_identifier_media" [identifier] [("params", params)] kwargs
  | Post_series_identifier_media identifier data json kwargs =>
      mkCallData "post_series_identifier_media" [identifier] [("data", data); ("json", json)] kwargs
  | Post_series_identifier_modify identifier data json kwargs =>
      mkCallData "post_series_identifier_modify" [identifier] [("data", data); ("json", json)] kwargs
  | Get_series_identifier_module identifier params kwargs =>
      mkCallData "get_series_identifier_module" [identifier] [("params", params)] kwargs
  | Get_series_identifier_ordered_slices identifier params kwargs =>
      mkCallData "get_series_identifier_ordered_slices" [identifier] [("params", params)] kwargs
  | Get_series_identifier_patient identifier params kwargs =>
      mkCallData "get_series_identifier_patient" [identifier] [("params", params)] kwargs
  | Post_series_identifier_reconstruct identifier data json kwargs =>
      mkCallData "post_series_identifier_reconstruct" [identifier] [("data", data); ("json", json)] kwargs
  | Get_series_identifier_shared_tags identifier params kwargs =>
      mkCallData "get_series_identifier_shared_tags" [identifier] [("params", params)] kwargs
  | Get_series_identifier_statistics identifier params kwargs =>
      mkCallData "get_series_identifier_statistics" [identifier] [("params", params)] kwargs
  | Get_series_identifier_study identifier params kwargs =>
      mkCallData "get_series_identifier_study" [identifier] [("params", params)] kwargs
  | Get_statistics params kwargs =>
      mkCallData "get_statistics" [] [("params", params)] kwargs
  | Get_studies params kwargs =>
      mkCallData "get_studies" [] [("params", params)] kwargs
  | Get_studies_identifier identifier params kwargs =>
      mkCallData "get_studies_identifier" [identifier] [("params", params)] kwargs
  | Delete_studies_identifier identifier kwargs =>
      mkCallData "delete_studies_identifier" [identifier] [] kwargs
  | Post_studies_identifier_anonymize identifier data json kwargs =>
      mkCallData "post_studies_identifier_anonymize" [identifier] [("data", data); ("json", json)] kwargs
  | Get_studies_identifier_archive identifier params kwargs =>
      mkCallData "get_studies_identifier_archive" [identifier] [("params", params)] kwargs
  | Post_studies_identifier_archive identifier data json kwargs =>
      mkCallData "post_studies_identifier_archive" [identifier] [("data", data); ("json", json)] kwargs
  | Get_studies_identifier_instances identifier params kwargs =>
      mkCallData "get_studies_identifier_instances" [identifier] [("params", params)] kwargs
  | Get_studies_identifier_instances_tags identifier params kwargs =>
      mkCallData "get_studies_identifier_instances_tags" [identifier] [("params", params)] kwargs
  | Get_studies_identifier_media identifier params kwargs =>
      mkCallData "get_studies_identifier_media" [identifier] [("params", params)] kwargs
  | Post_studies_identifier_media identifier data json kwargs =>
      mkCallData "post_studies_identifier_media" [identifier] [("data", data); ("json", json)] kwargs
  | Post_studies_identifier_merge identifier data json kwargs =>
      mkCallData "post_studies_identifier_merge" [identifier] [("data", data); ("json", json)] kwargs
  | Post_studies_identifier_modify identifier data json kwargs =>
      mkCallData "post_studies_identifier_modify" [identifier] [("data", data); ("json", json)] kwargs
  | Get_studies_identifier_module identifier params kwargs =>
      mkCallData "get_studies_identifier_module" [identifier] [("params", params)] kwargs
  | Get_studies_identifier_module_patient identifier params kwargs =>
      mkCallData "get_studies_identifier_module_patient" [identifier] [("params", params)] kwargs
  | Get_studies_identifier_patient identifier params kwargs =>
      mkCallData "get_studies_identifier_patient" [identifier] [("params", params)] kwargs
  | Post_studies_identifier_reconstruct identifier data json kwargs =>
      mkCallData "post_studies_identifier_reconstruct" [identifier] [("data", data); ("json", json)] kwargs
  | Get_studies_identifier_series identifier params kwargs =>
      mkCallData "get_studies_identifier_series" [identifier] [("params", params)] kwargs
  | Get_studies_identifier_shared_tags identifier params kwargs =>
      mkCallData "get_studies_identifier_shared_tags" [identifier] [("params", params)] kwargs
  | Post_studies_identifier_split identifier data json kwargs =>
      mkCallData "post_studies_identifier_split" [identifier] [("data", data); ("json", json)] kwargs
  | Get_studies_identifier_statistics identifier params kwargs =>
      mkCallData "get_studies_identifier_statistics" [identifier] [("params", params)] kwargs
  | Get_system params kwargs =>
      mkCallData "get_system" [] [("params", params)] kwargs
  | Post_tools_create_archive data json kwargs =>
      mkCallData "post_tools_create_archive" [] [("data", data); ("json", json)] kwargs
  | Post_tools_create_dicom data json kwargs =>
      mkCallData "post_tools_create_dicom" [] [("data", data); ("json", json)] kwargs
  | Post_tools_create_media data json kwargs =>
      mkCallData "post_tools_create_media" [] [("data", data); ("json", json)] kwargs
  | Post_tools_create_media_extended data json kwargs =>
      mkCallData "post_tools_create_media_extended" [] [("data", data); ("json", json)] kwargs
  | Get_tools_default_encoding params kwargs =>
      mkCallData "get_tools_default_encoding" [] [("params", params)] kwargs
  | Put_tools_default_encoding data json kwargs =>
      mkCallData "put_tools_default_encoding" [] [("data", data); ("json", json)] kwargs
  | Get_tools_dicom_conformance params kwargs =>
      mkCallData "get_tools_dicom_conformance" [] [("params", params)] kwargs
  | Post_tools_execute_script data json kwargs =>
      mkCallData "post_tools_execute_script" [] [("data", data); ("json", json)] kwargs
  | Post_tools_find data json kwargs =>
      mkCallData "post_tools_find" [] [("data", data); ("json", json)] kwargs
  | Get_tools_generate_uid params kwargs =>
      mkCallData "get_tools_generate_uid" [] [("params", params)] kwargs
  | Post_tools_invalidate_tags data json kwargs =>
      mkCallData "post_tools_invalidate_tags" [] [("data", data); ("json", json)] kwargs
  | Post_tools_lookup data json kwargs =>
      mkCallData "post_tools_lookup" [] [("data", data); ("json", json)] kwargs
  | Get_tools_metrics params kwargs =>
      mkCallData "get_tools_metrics" [] [("params", params)] kwargs
  | Put_tools_metrics data json kwargs =>
      mkCallData "put_tools_metrics" [] [("data", data); ("json", json)] kwargs
  | Get_tools_metrics_prometheus params kwargs =>
      mkCallData "get_tools_metrics_prometheus" [] [("params", params)] kwargs
  | Get_tools_now params kwargs =>
      mkCallData "get_tools_now" [] [("params", params)] kwargs
  | Get_tools_now_local params kwargs =>
      mkCallData "get_tools_now_local" [] [("params", params)] kwargs
  | Post_tools_reconstruct data json kwargs =>
      mkCallData "post_tools_reconstruct" [] [("data", data); ("json", json)] kwargs
  | Post_tools_reset data json kwargs =>
      mkCallData "post_tools_reset" [] [("data", data); ("json", json)] kwargs
  | Post_tools_shutdown data json kwargs =>
      mkCallData "post_tools_shutdown" [] [("data", data); ("json", json)] kwargs
  end.

(** Running a call. *)
Definition invoke (client : Client) (e : EndpointCall) : M Response :=
  match e with
  | Get_attachments resource_type identifier params kwargs => get_attachments client resource_type identifier params kwargs
  | Get_attachment_by_name resource_type identifier name params kwargs => get_attachment_by_name client resource_type identifier name params kwargs
  | Delete_attachment_by_name resource_type identifier name kwargs => delete_attachment_by_name client resource_type identifier name kwargs
  | Put_attachment_by_name resource_type identifier name data json kwargs => put_attachment_by_name client resource_type identifier name data json kwargs
  | Post_compress_attachment resource_type identifier name data json kwargs => post_compress_attachment client resource_type identifier name data json kwargs
  | Get_attachment_compressed_data resource_type identifier name params kwargs => get_attachment_compressed_data client resource_type identifier name params kwargs
  | Get_attachment_compressed_data_md5 resource_type identifier name params kwargs => get_attachment_compressed_data_md5 client resource_type identifier name params kwargs
  | Get_attachment_compressed_size resource_type identifier name params kwargs => get_attachment_compressed_size client resource_type identifier name params kwargs
  | Get_attachment_data resource_type identifier name params kwargs => get_attachment_data client resource_type identifier name params kwargs
  | Get_if_attachment_compressed resource_type identifier name params kwargs => get_if_attachment_compressed client resource_type identifier name params kwargs
  | Get_attachments_name_md5 resource_type identifier name params kwargs => get_attachments_name_md5 client resource_type identifier name params kwargs
  | Get_resource_type_identifier_attachments_name_size resource_type identifier name params kwargs => get_resource_type_identifier_attachments_name_size client resource_type identifier name params kwargs
  | Post_resource_type_identifier_attachments_name_uncompress resource_type identifier name data json kwargs => post_resource_type_identifier_attachments_name_uncompress client resource_type identifier name data json kwargs
  | Post_resource_type_identifier_attachments_name_verify_md5 resource_type identifier name data json kwargs => post_resource_type_identifier_attachments_name_verify_md5 client resource_type identifier name data json kwargs
  | Get_resource_type_identifier_metadata resource_type identifier params kwargs => get_resource_type_identifier_metadata client resource_type identifier params kwargs
  | Get_resource_type_identifier_metadata_name resource_type identifier name params kwargs => get_resource_type_identifier_metadata_name client resource_type identifier name params kwargs
  | Delete_resource_type_identifier_metadata_name resource_type identifier name kwargs => delete_resource_type_identifier_metadata_name client resource_type identifier name kwargs
  | Put_resource_type_identifier_metadata_name resource_type identifier name data json kwargs => put_resource_type_identifier_metadata_name client resource_type identifier name data json kwargs
  | Get_changes params kwargs => get_changes client params kwargs
  | Delete_changes kwargs => delete_changes client kwargs
  | Get_exports params kwargs => get_exports client params kwargs
  | Delete_exports kwargs => delete_exports client kwargs
  | Get_instances params kwargs => get_instances client params kwargs
  | Post_instances data json kwargs => post_instances client data json kwargs
  | Get_instances_identifier identifier params kwargs => get_instances_identifier client identifier params kwargs
  | Delete_instances_identifier identifier kwargs => delete_instances_identifier client identifier kwargs
  | Post_instances_identifier_anonymize identifier data json kwargs => post_instances_identifier_anonymize client identifier data json kwargs
  | Get_instances_identifier_content identifier params kwargs => get_instances_identifier_content client identifier params kwargs
  | Get_instances_identifier_content_group_element identifier group_element params kwargs => get_instances_identifier_content_group_element client identifier group_element params kwargs
  | Get_instances_identifier_content_group_element_index identifier group_element index params kwargs => get_instances_identifier_content_group_element_index client identifier group_element index params kwargs
  | Post_instances_identifier_export identifier data json kwargs => post_instances_identifier_export client identifier data json kwargs
  | Get_instances_identifier_file identifier params kwargs => get_instances_identifier_file client identifier params kwargs
  | Get_instances_identifier_frames identifier params kwargs => get_instances_identifier_frames client identifier params kwargs
  | Get_instances_identifier_frames_frameNumber_image_int16 identifier frameNumber params kwargs => get_instances_identifier_frames_frameNumber_image_int16 client identifier frameNumber params kwargs
  | Get_instances_identifier_frames_frameNumber_image_uint16 identifier frameNumber params kwargs => get_instances_identifier_frames_frameNumber_image_uint16 client identifier frameNumber params kwargs
  | Get_instances_identifier_frames_frameNumber_image_uint8 identifier frameNumber params kwargs => get_instances_identifier_frames_frameNumber_image_uint8 client identifier frameNumber params kwargs
  | Get_instances_identifier_frames_frameNumber_matlab identifier frameNumber params kwargs => get_instances_identifier_frames_frameNumber_matlab client identifier frameNumber params kwargs
  | Get_instances_identifier_frames_frameNumber_preview identifier frameNumber params kwargs => get_instances_identifier_frames_frameNumber_preview client identifier frameNumber params kwargs
  | Get_instances_identifier_frames_frameNumber_raw identifier frameNumber params kwargs => get_instances_identifier_frames_frameNumber_raw client identifier frameNumber params kwargs
  | Get_instances_identifier_frames_frameNumber_raw_gz identifier frameNumber params kwargs => get_instances_identifier_frames_frameNumber_raw_gz client identifier frameNumber params kwargs
  | Get_instances_identifier_header identifier params kwargs => get_instances_identifier_header client identifier params kwargs
  | Get_instances_identifier_image_int16 identifier params kwargs => get_instances_identifier_image_int16 client identifier params kwargs
  | Get_instances_identifier_image_uint16 identifier params kwargs => get_instances_identifier_image_uint16 client identifier params kwargs
  | Get_instances_identifier_image_uint8 identifier params kwargs => get_instances_identifier_image_uint8 client identifier params kwargs
  | Get_instances_identifier_matlab identifier params kwargs => get_instances_identifier_matlab client identifier params kwargs
  | Post_instances_identifier_modify identifier data json kwargs => post_instances_identifier_modify client identifier data json kwargs
  | Get_instances_identifier_module identifier params kwargs => get_instances_identifier_module client identifier params kwargs
  | Get_instances_identifier_patient identifier params kwargs => get_instances_identifier_patient client identifier params kwargs
  | Get_instances_identifier_pdf identifier params kwargs => get_instances_identifier_pdf client identifier params kwargs
  | Get_instances_identifier_preview identifier params kwargs => get_instances_identifier_preview client identifier params kwargs
  | Post_instances_identifier_reconstruct identifier data json kwargs => post_instances_identifier_reconstruct client identifier data json kwargs
  | Get_instances_identifier_series identifier params kwargs => get_instances_identifier_series client identifier params kwargs
  | Get_instances_identifier_simplified_tags identifier params kwargs => get_instances_identifier_simplified_tags client identifier params kwargs
  | Get_instances_identifier_statistics identifier params kwargs => get_instances_identifier_statistics client identifier params kwargs
  | Get_instances_identifier_study identifier params kwargs => get_instances_identifier_study client identifier params kwargs
  | Get_instances_identifier_tags identifier params kwargs => get_instances_identifier_tags client identifier params kwargs
  | Get_jobs params kwargs => get_jobs client params kwargs
  | Get_jobs_identifier identifier params kwargs => get_jobs_identifier client identifier params kwargs
  | Post_jobs_identifier_cancel identifier data json kwargs => post_jobs_identifier_cancel client identifier data json kwargs
  | Post_jobs_identifier_pause identifier data json kwargs => post_jobs_identifier_pause client identifier data json kwargs
  | Post_jobs_identifier_resubmit identifier data json kwargs => post_jobs_identifier_resubmit client identifier data json kwargs
  | Post_jobs_identifier_resume identifier data json kwargs => post_jobs_identifier_resume client identifier data json kwargs
  | Get_jobs_identifier_key identifier key params kwargs => get_jobs_identifier_key client identifier key params kwargs
  | Get_modalities params kwargs => get_modalities client params kwargs
  | Get_modalities_dicom dicom params kwargs => get_modalities_dicom client dicom params kwargs
  | Delete_modalities_dicom dicom kwargs => delete_modalities_dicom client dicom kwargs
  | Put_modalities_dicom dicom data json kwargs => put_modalities_dicom client dicom data json kwargs
  | Post_modalities_dicom_echo dicom data json kwargs => post_modalities_dicom_echo client dicom data json kwargs
  | Post_modalities_dicom_move dicom data json kwargs => post_modalities_dicom_move client dicom data json kwargs
  | Post_modalities_dicom_query dicom data json kwargs => post_modalities_dicom_query client dicom data json kwargs
  | Post_modalities_dicom_store dicom data json kwargs => post_modalities_dicom_store client dicom data json kwargs
  | Get_patients params kwargs => get_patients client params kwargs
  | Get_patients_identifier identifier params kwargs => get_patients_identifier client identifier params kwargs
  | Delete_patients_identifier identifier kwargs => delete_patients_identifier client identifier kwargs
  | Post_patients_identifier_anonymize identifier data json kwargs => post_patients_identifier_anonymize client identifier data json kwargs
  | Get_patients_identifier_archive identifier params kwargs => get_patients_identifier_archive client identifier params kwargs
  | Post_patients_identifier_archive identifier data json kwargs => post_patients_identifier_archive client identifier data json kwargs
  | Get_patients_identifier_instances identifier params kwargs => get_patients_identifier_instances client identifier params kwargs
  | Get_patients_identifier_instances_tags identifier params kwargs => get_patients_identifier_instances_tags client identifier params kwargs
  | Get_patients_identifier_media identifier params kwargs => get_patients_identifier_media client identifier params kwargs
  | Post_patients_identifier_media identifier data json kwargs => post_patients_identifier_media client identifier data json kwargs
  | Post_patients_identifier_modify identifier data json kwargs => post_patients_identifier_modify client identifier data json kwargs
  | Get_patients_identifier_module identifier params kwargs => get_patients_identifier_module client identifier params kwargs
  | Get_patients_identifier_protected identifier params kwargs => get_patients_identifier_protected client identifier params kwargs
  | Put_patients_identifier_protected identifier data json kwargs => put_patients_identifier_protected client identifier data json kwargs
  | Post_patients_identifier_reconstruct identifier data json kwargs => post_patients_identifier_reconstruct client identifier data json kwargs
  | Get_patients_identifier_series identifier params kwargs => get_patients_identifier_series client identifier params kwargs
  | Get_patients_identifier_shared_tags identifier params kwargs => get_patients_identifier_shared_tags client identifier params kwargs
  | Get_patients_identifier_statistics identifier params kwargs => get_patients_identifier_statistics client identifier params kwargs
  | Get_patients_identifier_studies identifier params kwargs => get_patients_identifier_studies client identifier params kwargs
  | Get_peers params kwargs => get_peers client params kwargs
  | Get_peers_peer peer params kwargs => get_peers_peer client peer params kwargs
  | Delete_peers_peer peer kwargs => delete_peers_peer client peer kwargs
  | Put_peers_peer peer data json kwargs => put_peers_peer client peer data json kwargs
  | Post_peers_peer_store peer data json kwargs => post_peers_peer_store client peer data json kwargs
  | Get_plugins params kwargs => get_plugins client params kwargs
  | Get_plugins_identifier identifier params kwargs => get_plugins_identifier client identifier params kwargs
  | Get_plugins_explorer_js params kwargs => get_plugins_explorer_js client params kwargs
  | Get_queries params kwargs => get_queries client params kwargs
  | Get_queries_identifier identifier params kwargs => get_queries_identifier client identifier params kwargs
  | Delete_queries_identifier identifier kwargs => delete_queries_identifier client identifier kwargs
  | Get_queries_identifier_answers identifier params kwargs => get_queries_identifier_answers client identifier params kwargs
  | Get_queries_identifier_answers_index_content identifier index params kwargs => get_queries_identifier_answers_index_content client identifier index params kwargs
  | Post_queries_identifier_answers_index_retrieve identifier index data json kwargs => post_queries_identifier_answers_index_retrieve client identifier index data json kwargs
  | Post_queries_identifier_answers_index_query_instances identifier index data json kwargs => post_queries_identifier_answers_index_query_instances client identifier index data json kwargs
  | Post_queries_identifier_answers_index_query_series identifier index data json kwargs => post_queries_identifier_answers_index_query_series client identifier index data json kwargs
  | Post_queries_identifier_answers_index_query_studies identifier index data json kwargs => post_queries_identifier_answers_index_query_studies client identifier index data json kwargs
  | Get_queries_identifier_level identifier params kwargs => get_queries_identifier_level client identifier params kwargs
  | Get_queries_identifier_modality identifier params kwargs => get_queries_identifier_modality client identifier params kwargs
  | Get_queries_identifier_query identifier params kwargs => get_queries_identifier_query client identifier params kwargs
  | Post_queries_identifier_retrieve identifier data json kwargs => post_queries_identifier_retrieve client identifier data json kwargs
  | Get_series params kwargs => get_series client params kwargs
  | Get_series_identifier identifier params kwargs => get_series_identifier client identifier params kwargs
  | Delete_series_identifier identifier kwargs => delete_series_identifier client identifier kwargs
  | Post_series_identifier_anonymize identifier data json kwargs => post_series_identifier_anonymize client identifier data json kwargs
  | Get_series_identifier_archive identifier params kwargs => get_series_identifier_archive client identifier params kwargs
  | Post_series_identifier_archive identifier data json kwargs => post_series_identifier_archive client identifier data json kwargs
  | Get_series_identifier_instances identifier params kwargs => get_series_identifier_instances client identifier params kwargs
  | Get_series_identifier_instances_tags identifier params kwargs => get_series_identifier_instances_tags client identifier params kwargs
  | Get_series_identifier_media identifier params kwargs => get_series_identifier_media client identifier params kwargs
  | Post_series_identifier_media identifier data json kwargs => post_series_identifier_media client identifier data json kwargs
  | Post_series_identifier_modify identifier data json kwargs => post_series_identifier_modify client identifier data json kwargs
  | Get_series_identifier_module identifier params kwargs => get_series_identifier_module client identifier params kwargs
  | Get_series_identifier_ordered_slices identifier params kwargs => get_series_identifier_ordered_slices client identifier params kwargs
  | Get_series_identifier_patient identifier params kwargs => get_series_identifier_patient client identifier params kwargs
  | Post_series_identifier_reconstruct identifier data json kwargs => post_series_identifier_reconstruct client identifier data json kwargs
  | Get_series_identifier_shared_tags identifier params kwargs => get_series_identifier_shared_tags client identifier params kwargs
  | Get_series_identifier_statistics identifier params kwargs => get_series_identifier_statistics client identifier params kwargs
  | Get_series_identifier_study identifier params kwargs => get_series_identifier_study client identifier params kwargs
  | Get_statistics params kwargs => get_statistics client params kwargs
  | Get_studies params kwargs => get_studies client params kwargs
  | Get_studies_identifier identifier params kwargs => get_studies_identifier client identifier params kwargs
  | Delete_studies_identifier identifier kwargs => delete_studies_identifier client identifier kwargs
  | Post_studies_identifier_anonymize identifier data json kwargs => post_studies_identifier_anonymize client identifier data json kwargs
  | Get_studies_identifier_archive identifier params kwargs => get_studies_identifier_archive client identifier params kwargs
  | Post_studies_identifier_archive identifier data json kwargs => post_studies_identifier_archive client identifier data json kwargs
  | Get_studies_identifier_instances identifier params kwargs => get_studies_identifier_instances client identifier params kwargs
  | Get_studies_identifier_instances_tags identifier params kwargs => get_studies_identifier_instances_tags client identifier params kwargs
  | Get_studies_identifier_media identifier params kwargs => get_studies_identifier_media client identifier params kwargs
  | Post_studies_identifier_media identifier data json kwargs => post_studies_identifier_media client identifier data json kwargs
  | Post_studies_identifier_merge identifier data json kwargs => post_studies_identifier_merge client identifier data json kwargs
  | Post_studies_identifier_modify identifier data json kwargs => post_studies_identifier_modify client identifier data json kwargs
  | Get_studies_identifier_module identifier params kwargs => get_studies_identifier_module client identifier params kwargs
  | Get_studies_identifier_module_patient identifier params kwargs => get_studies_identifier_module_patient client identifier params kwargs
  | Get_studies_identifier_patient identifier params kwargs => get_studies_identifier_patient client identifier params kwargs
  | Post_studies_identifier_reconstruct identifier data json kwargs => post_studies_identifier_reconstruct client identifier data json kwargs
  | Get_studies_identifier_series identifier params kwargs => get_studies_identifier_series client identifier params kwargs
  | Get_studies_identifier_shared_tags identifier params kwargs => get_studies_identifier_shared_tags client identifier params kwargs
  | Post_studies_identifier_split identifier data json kwargs => post_studies_identifier_split client identifier data json kwargs
  | Get_studies_identifier_statistics identifier params kwargs => get_studies_identifier_statistics client identifier params kwargs
  | Get_system params kwargs => get_system client params kwargs
  | Post_tools_create_archive data json kwargs => post_tools_create_archive client data json kwargs
  | Post_tools_create_dicom data json kwargs => post_tools_create_dicom client data json kwargs
  | Post_tools_create_media data json kwargs => post_tools_create_media client data json kwargs
  | Post_tools_create_media_extended data json kwargs => post_tools_create_media_extended client data json kwargs
  | Get_tools_default_encoding params kwargs => get_tools_default_encoding client params kwargs
  | Put_tools_default_encoding data json kwargs => put_tools_default_encoding client data json kwargs
  | Get_tools_dicom_conformance params kwargs => get_tools_dicom_conformance client params kwargs
  | Post_tools_execute_script data json kwargs => post_tools_execute_script client data json kwargs
  | Post_tools_find data json kwargs => post_tools_find client data json kwargs
  | Get_tools_generate_uid params kwargs => get_tools_generate_uid client params kwargs
  | Post_tools_invalidate_tags data json kwargs => post_tools_invalidate_tags client data json kwargs
  | Post_tools_lookup data json kwargs => post_tools_lookup client data json kwargs
  | Get_tools_metrics params kwargs => get_tools_metrics client params kwargs
  | Put_tools_metrics data json kwargs => put_tools_metrics client data json kwargs
  | Get_tools_metrics_prometheus params kwargs => get_tools_metrics_prometheus client params kwargs
  | Get_tools_now params kwargs => get_tools_now client params kwargs
  | Get_tools_now_local params kwargs => get_tools_now_local client params kwargs
  | Post_tools_reconstruct data json kwargs => post_tools_reconstruct client data json kwargs
  | Post_tools_reset data json kwargs => post_tools_reset client data json kwargs
  | Post_tools_shutdown data json kwargs => post_tools_shutdown client data json kwargs
  end.

(** ** Sequences of operations on one object *)

(** A direct call of one of the four helpers. *)
Inductive HelperCall : Type :=
| Get_request_call (route : string) (params : PyVal) (kwargs : Kwargs)
| Delete_request_call (route : string) (kwargs : Kwargs)
| Post_request_call (route : string) (data json : PyVal) (kwargs : Kwargs)
| Put_request_call (route : string) (data json : PyVal) (kwargs : Kwargs).

Definition request (client : Client) (hc : HelperCall) : M Response :=
  match hc with
  | Get_request_call route params kwargs => get_request client route params kwargs
  | Delete_request_call route kwargs => delete_request client route kwargs
  | Post_request_call route data json kwargs => post_request client route data json kwargs
  | Put_request_call route data json kwargs => put_request client route data json kwargs
  end.

Definition helper_kwargs (hc : HelperCall) : Kwargs :=
  match hc with
  | Get_request_call _ _ kwargs => kwargs
  | Delete_request_call _ kwargs => kwargs
  | Post_request_call _ _ _ kwargs => kwargs
  | Put_request_call _ _ _ kwargs => kwargs
  end.

(** What a caller can do with an [Orthanc] object. *)
Inductive Op : Type :=
| Setup_credentials (username password : string)
| Direct (hc : HelperCall)
| Method (e : EndpointCall).

(** One operation; the caller goes on whatever it returned or raised. *)
Definition perform (client : Client) (op : Op) (w : World) : World :=
  match op with
  | Setup_credentials username password => (setup_credentials username password w).2
  | Direct hc => (request client hc w).2
  | Method e => (invoke client e w).2
  end.

Definition run (client : Client) (ops : list Op) (w : World) : World :=
  foldl (λ w op, perform client op w) w ops.

(** The world right after [Orthanc(orthanc_url)]. *)
Definition fresh (orthanc_url : string) : World :=
  mkWorld (__init__ orthanc_url) [] [].

(** The arguments of the most recent [setup_credentials] among [ops]. *)
Definition last_credentials (ops : list Op) : option (string * string) :=
  foldl (λ acc op,
           match op with
           | Setup_credentials username password => Some (username, password)
           | _ => acc
           end) None ops.

(** ** Describing what a helper sends *)

(** [requests.get] for [get_request], and so on. *)
Definition helper_verb (h : Helper) : Verb :=
  match h with
  | Get_request => GET
  | Delete_request => DELETE
  | Post_request => POST
  | Put_request => PUT
  end.

(** The parameters of a helper that an endpoint method's call binds. *)
Definition bound (h : Helper) : list string :=
  match h with
  | Get_request => ["self"; "route"; "params"]
  | Delete_request => ["self"; "route"]
  | Post_request | Put_request => ["self"; "route"; "data"; "json"]
  end.

(** The value a payload list gives to a name, [None] when it has none. *)
Fixpoint arg (name : string) (payload : list (string * PyVal)) : PyVal :=
  match payload with
  | [] => PyNone
  | (k, v) :: rest => if String.eqb k name then v else arg name rest
  end.

(** The positional arguments and the explicit keywords a helper passes to
    [requests], by the state of the object. *)
Definition positional (h : Helper) (o : Orthanc) (route : string)
    (payload : list (string * PyVal)) : list PyVal :=
  match h with
  | Put_request =>
      if _credentials_are_set o then [PyStr route] else [PyStr route; arg "data" payload]
  | _ => [PyStr route]
  end.

Definition explicit (h : Helper) (o : Orthanc) (payload : list (string * PyVal))
    : list (string * PyVal) :=
  match h, _credentials_are_set o with
  | Get_request, true => [("params", arg "params" payload); ("auth", _credentials o)]
  | Get_request, false => [("params", arg "params" payload)]
  | Delete_request, true => [("auth", _credentials o)]
  | Delete_request, false => []
  | Post_request, true | Put_request, true =>
      [("auth", _credentials o); ("data", arg "data" payload); ("json", arg "json" payload)]
  | Post_request, false => [("data", arg "data" payload); ("json", arg "json" payload)]
  | Put_request, false => [("json", arg "json" payload)]
  end.

(** The parameters of the library function that the helper fills by
    position. *)
Definition filled (h : Helper) (o : Orthanc) : list string :=
  match h with
  | Put_request => if _credentials_are_set o then ["url"] else ["url"; "data"]
  | _ => ["url"]
  end.

(** Every name the helper's call of [requests] gives a value to. *)
Definition given (h : Helper) (o : Orthanc) (payload : list (string * PyVal))
    : list string :=
  (explicit h o payload).*1 ++ filled h o.

Definition the_call (h : Helper) (o : Orthanc) (route : string)
    (payload : list (string * PyVal)) (kwargs : Kwargs) : RequestsCall :=
  mkCall (helper_verb h) (positional h o route payload) (join (explicit h o payload) kwargs).

(** What the client answers, as the value or exception of the call. *)
Definition answer (client : Client) (w : World) (c : RequestsCall) : Exn + Response :=
  match client (issued w) c with
  | inl name => inl (ClientError name)
  | inr r => inr r
  end.

(** A helper body run on [route]: entered, then either a name given twice
    at the call of [requests], or the call and its answer. *)
Definition helper_outcome (client : Client) (h : Helper) (route : string)
    (payload : list (string * PyVal)) (kwargs : Kwargs) (w : World) : (Exn + Response) * World :=
  match repeated (given h (self w) payload) kwargs with
  | Some k => (inl (TypeError k), mkWorld (self w) (entered w ++ [(h, route)]) (issued w))
  | None =>
      let c := the_call h (self w) route payload kwargs in
      (answer client w c, mkWorld (self w) (entered w ++ [(h, route)]) (issued w ++ [c]))
  end.

(** The same from an endpoint method, whose call of the helper can
    already repeat a keyword. *)
Definition outcome (client : Client) (h : Helper) (route : string)
    (payload : list (string * PyVal)) (kwargs : Kwargs) (w : World) : (Exn + Response) * World :=
  match repeated (bound h) kwargs with
  | Some k => (inl (TypeError k), w)
  | None => helper_outcome client h route payload kwargs w
  end.

(** The call sites [self.<helper>(route, ..., **kwargs)] by helper. *)
Definition delegate (client : Client) (h : Helper) (route : string)
    (payload : list (string * PyVal)) (kwargs : Kwargs) : M Response :=
  match h with
  | Get_request => self_get_request client route (arg "params" payload) kwargs
  | Delete_request => self_delete_request client route kwargs
  | Post_request =>
      self_post_request client route (arg "data" payload) (arg "json" payload) kwargs
  | Put_request =>
      self_put_request client route (arg "data" payload) (arg "json" payload) kwargs
  end.

(** ** Reading a call the way [requests] binds it *)

Fixpoint index_of (name : string) (names : list string) : option nat :=
  match names with
  | [] => None
  | k :: rest => if String.eqb k name then Some 0 else S <$> index_of name rest
  end.

(** The value the library function receives for [name]. *)
Definition argument (c : RequestsCall) (name : string) : option PyVal :=
  match index_of name (positional_names (verb c)) with
  | Some i =>
      match args c !! i with
      | Some v => Some v
      | None => keywords c !! name
      end
  | None => keywords c !! name
  end.

(** The verb a method's name announces: its prefix up to the first
    underscore. *)
Definition method_verb (name : string) : option Verb :=
  if String.prefix "get_" name then Some GET
  else if String.prefix "delete_" name then Some DELETE
  else if String.prefix "post_" name then Some POST
  else if String.prefix "put_" name then Some PUT
  else None.

(** Names an endpoint method or a helper gives a value to itself
    somewhere on the way into [requests]: the parameters of the helper, the
    keywords of its call of [requests], and [url], which the route fills by
    position. *)
Definition reserved : list string :=
  ["self"; "route"; "params"; "data"; "json"; "auth"; "url"].

(** Extra keyword arguments that name none of them. *)
Definition plain (kwargs : Kwargs) : Prop := repeated reserved kwargs = None.

(** The attachment and metadata methods, whose route starts with a
    [resource_type] argument. *)
Definition resource_methods : list string :=
  [ "get_attachments"; "get_attachment_by_name"; "delete_attachment_by_name";
    "put_attachment_by_name"; "post_compress_attachment";
    "get_attachment_compressed_data"; "get_attachment_compressed_data_md5";
    "get_attachment_compressed_size"; "get_attachment_data";
    "get_if_attachment_compressed"; "get_attachments_name_md5";
    "get_resource_type_identifier_attachments_name_size";
    "post_resource_type_identifier_attachments_name_uncompress";
    "post_resource_type_identifier_attachments_name_verify_md5";
    "get_resource_type_identifier_metadata";
    "get_resource_type_identifier_metadata_name";
    "delete_resource_type_identifier_metadata_name";
    "put_resource_type_identifier_metadata_name" ].

Definition is_resource_method (name : string) : bool :=
  existsb (String.eqb name) resource_methods.

(** ** [pyorthanc/remote.py] *)

Module RemoteModality.

(** The methods of the wrapped object that the four convenience methods
    call.  The wrapped class is [pyorthanc.Orthanc], which is not the class
    [Orthanc] above and defines these methods itself; the object is the one
    the world holds.  The two methods that read the answers of a query
    forward in the same way and are left out. *)
Record OrthancAPI : Type := mkAPI {
  echo_to_modality : string → M bool;
  query_on_modality : string → PyVal → M Response;
  move_from_modality : string → PyVal → M bool;
  move_query_results_to_given_modality : string → PyVal → M bool
}.

(** [RemoteModality(orthanc, modality)] *)
Record t : Type := __init__ {
  orthanc : OrthancAPI;
  modality : string
}.

Definition echo (self : t) : M bool :=
  echo_to_modality (orthanc self) (modality self).

Definition query (self : t) (data : PyVal) : M Response :=
  query_on_modality (orthanc self) (modality self) data.

Definition retrieve (self : t) (data : PyVal) : M bool :=
  move_from_modality (orthanc self) (modality self) data.

Definition move (self : t) (query_identifier : string) (cmove_data : PyVal) : M bool :=
  move_query_results_to_given_modality (orthanc self) query_identifier cmove_data.

End RemoteModality.

(** ** Sample values *)

(** A server that answers every call with 404. *)
Definition not_found : Client := λ _ _, inr (mkResponse 404 "").

(** A client that cannot connect. *)
Definition unreachable : Client := λ _ _, inl "ConnectionError".

Definition localhost : string := "http://localhost:8042".

Definition timeout_5 : Kwargs := {[ "timeout" := PyInt 5 ]}.

Definition own_auth : Kwargs := {[ "auth" := HTTPBasicAuth "me" "mine" ]}.

Definition own_url : Kwargs := {[ "url" := PyStr "https://elsewhere.example" ]}.

(** The payload parameters of each helper. *)
Definition payload_names (h : Helper) : list string :=
  match h with
  | Get_request => ["params"]
  | Delete_request => []
  | Post_request | Put_request => ["data"; "json"]
  end.

(** The helper, the route and the payload of a direct call. *)
Definition hc_helper (hc : HelperCall) : Helper :=
  match hc with
  | Get_request_call _ _ _ => Get_request
  | Delete_request_call _ _ => Delete_request
  | Post_request_call _ _ _ _ => Post_request
  | Put_request_call _ _ _ _ => Put_request
  end.

Definition hc_route (hc : HelperCall) : string :=
  match hc with
  | Get_request_call route _ _ => route
  | Delete_request_call route _ => route
  | Post_request_call route _ _ _ => route
  | Put_request_call route _ _ _ => route
  end.

Definition hc_payload (hc : HelperCall) : list (string * PyVal) :=
  match hc with
  | Get_request_call _ params _ => [("params", params)]
  | Delete_request_call _ _ => []
  | Post_request_call _ data json _ => [("data", data); ("json", json)]
  | Put_request_call _ data json _ => [("data", data); ("json", json)]
  end.

(** The object built on [orthanc_url], by the arguments of the most recent
    [setup_credentials] if there was one. *)
Definition object_after (orthanc_url : string) (latest : option (string * string)) : Orthanc :=
  match latest with
  | Some (username, password) => mkOrthanc orthanc_url true (HTTPBasicAuth username password)
  | None => __init__ orthanc_url
  end.

(** The world once a helper has sent [c] on [route]. *)
Definition sent (w : World) (h : Helper) (route : string) (c : RequestsCall) : World :=
  mkWorld (self w) (entered w ++ [(h, route)]) (issued w ++ [c]).

(** ** Further descriptions *)

(** Every name an endpoint method and the helper behind it give a value to
    on the way into [requests], by the helper and the state of the object. *)
Definition own_names (h : Helper) (o : Orthanc) : list string :=
  "self" :: "route" :: "url" :: payload_names h
    ++ (if _credentials_are_set o then ["auth"] else []).

(** The extra keyword arguments of an operation. *)
Definition op_kwargs (op : Op) : Kwargs :=
  match op with
  | Setup_credentials _ _ => ∅
  | Direct hc => helper_kwargs hc
  | Method e => extra (call_data e)
  end.

(** How many of [ops] are calls of a helper or of an endpoint method. *)
Fixpoint requests_in (ops : list Op) : nat :=
  match ops with
  | [] => 0
  | Setup_credentials _ _ :: rest => requests_in rest
  | _ :: rest => S (requests_in rest)
  end.

(** ** Names that mirror routes *)






(** * Properties *)

(** ** Repeated keywords *)

Lemma repeated_None names (kwargs : Kwargs) :
  repeated names kwargs = None ↔ Forall (λ k, kwargs !! k = None) names.
Proof.
  induction names as [|k names IH]; simpl.
  - split; [constructor | done].
  - destruct (kwargs !! k) eqn:Hk.
    + split; [done | intros H; inversion H; congruence].
    + rewrite IH. split; [by constructor | by inversion 1].
Qed.

Lemma repeated_Some names (kwargs : Kwargs) k :
  repeated names kwargs = Some k → k ∈ names ∧ is_Some (kwargs !! k).
Proof.
  induction names as [|k' names IH]; simpl; [done |].
  destruct (kwargs !! k') eqn:Hk.
  - intros [= <-]. split; [left | eauto].
  - intros H. destruct (IH H). split; [by right | done].
Qed.

Lemma repeated_empty names : repeated names ∅ = None.
Proof. apply repeated_None, Forall_forall. intros. apply lookup_empty. Qed.

Lemma repeated_app names names' (kwargs : Kwargs) :
  repeated (names ++ names') kwargs = None ↔
  repeated names kwargs = None ∧ repeated names' kwargs = None.
Proof. rewrite !repeated_None. apply Forall_app. Qed.

Lemma given_explicit h o payload (kwargs : Kwargs) :
  repeated (given h o payload) kwargs = None →
  repeated (explicit h o payload).*1 kwargs = None.
Proof. unfold given. rewrite repeated_app. by intros [? _]. Qed.

Lemma given_url h o payload (kwargs : Kwargs) :
  repeated (given h o payload) kwargs = None → kwargs !! "url" = None.
Proof.
  unfold given. rewrite repeated_app. intros [_ H].
  destruct h; unfold filled in H; destruct (_credentials_are_set o); simpl in H;
    by destruct (kwargs !! "url").
Qed.

Lemma plain_bound h kwargs : plain kwargs → repeated (bound h) kwargs = None.
Proof.
  unfold plain, reserved. destruct h; simpl;
    repeat (destruct (kwargs !! _)); congruence.
Qed.

Lemma plain_given h o payload kwargs :
  plain kwargs → repeated (given h o payload) kwargs = None.
Proof.
  unfold plain, reserved, given, explicit, filled.
  destruct h; destruct (_credentials_are_set o); simpl;
    repeat (destruct (kwargs !! _)); congruence.
Qed.

Lemma plain_empty : plain ∅.
Proof. apply repeated_empty. Qed.

(** ** Explicit keywords joined with [**kwargs] *)

Lemma join_lookup explicit (kwargs : Kwargs) k v :
  join explicit kwargs !! k = Some v → (k, v) ∈ explicit ∨ kwargs !! k = Some v.
Proof.
  induction explicit as [|[k' v'] explicit IH]; simpl; [by right |].
  destruct (decide (k' = k)) as [->|Hne].
  - rewrite lookup_insert_eq. intros [= <-]. left. left.
  - rewrite lookup_insert_ne by done. intros H. destruct (IH H); [left; by right | by right].
Qed.

Lemma join_kwargs explicit (kwargs : Kwargs) k v :
  repeated explicit.*1 kwargs = None →
  kwargs !! k = Some v → join explicit kwargs !! k = Some v.
Proof.
  rewrite repeated_None.
  induction explicit as [|[k' v'] explicit IH]; simpl; [done |].
  intros H Hk. inversion H as [|? ? Hk' Hrest]; subst.
  rewrite lookup_insert_ne by congruence. by apply IH.
Qed.

Lemma join_explicit explicit (kwargs : Kwargs) k v :
  NoDup explicit.*1 → (k, v) ∈ explicit → join explicit kwargs !! k = Some v.
Proof.
  induction explicit as [|[k' v'] explicit IH]; simpl; [by inversion 2 |].
  intros Hnd Hin. inversion Hnd as [|? ? Hnotin Hnd']; subst.
  apply elem_of_cons in Hin as [[= -> ->]|Hin].
  - apply lookup_insert_eq.
  - rewrite lookup_insert_ne; [by apply IH |].
    intros ->. apply Hnotin. apply list_elem_of_fmap. by exists (k, v).
Qed.

Lemma join_other explicit (kwargs : Kwargs) k :
  k ∉ explicit.*1 → join explicit kwargs !! k = kwargs !! k.
Proof.
  induction explicit as [|[k' v'] explicit IH]; simpl; [done |].
  intros Hk. apply not_elem_of_cons in Hk as [Hne Hk].
  rewrite lookup_insert_ne by done. by apply IH.
Qed.

Lemma explicit_NoDup h o payload : NoDup (explicit h o payload).*1.
Proof.
  destruct h; unfold explicit; destruct (_credentials_are_set o); simpl;
    by apply (bool_decide_unpack _).
Qed.

(** ** The helpers and their call sites, in normal form *)

Section Helpers.

Variable client : Client.

Lemma get_request_outcome route params kwargs w :
  get_request client route params kwargs w
  = helper_outcome client Get_request route [("params", params)] kwargs w.
Proof.
  destruct w as [[url [] creds] log calls];
    unfold get_request, helper_outcome, requests, call_with; simpl;
    repeat (destruct (kwargs !! _)); reflexivity.
Qed.

Lemma delete_request_outcome route kwargs w :
  delete_request client route kwargs w
  = helper_outcome client Delete_request route [] kwargs w.
Proof.
  destruct w as [[url [] creds] log calls];
    unfold delete_request, helper_outcome, requests, call_with; simpl;
    repeat (destruct (kwargs !! _)); reflexivity.
Qed.

Lemma post_request_outcome route data json kwargs w :
  post_request client route data json kwargs w
  = helper_outcome client Post_request route [("data", data); ("json", json)] kwargs w.
Proof.
  destruct w as [[url [] creds] log calls];
    unfold post_request, helper_outcome, requests, call_with; simpl;
    repeat (destruct (kwargs !! _)); reflexivity.
Qed.

Lemma put_request_outcome route data json kwargs w :
  put_request client route data json kwargs w
  = helper_outcome client Put_request route [("data", data); ("json", json)] kwargs w.
Proof.
  destruct w as [[url [] creds] log calls];
    unfold put_request, helper_outcome, requests, call_with; simpl;
    repeat (destruct (kwargs !! _)); reflexivity.
Qed.

Lemma delegate_outcome h route payload kwargs w :
  delegate client h route payload kwargs w = outcome client h route payload kwargs w.
Proof.
  unfold outcome.
  destruct h; cbn [delegate bound];
    unfold self_get_request, self_delete_request, self_post_request, self_put_request,
      call_with;
    (destruct (repeated _ kwargs); [reflexivity |]).
  - rewrite get_request_outcome. unfold helper_outcome, the_call, explicit, positional.
    destruct (_credentials_are_set (self w)); reflexivity.
  - rewrite delete_request_outcome. reflexivity.
  - rewrite post_request_outcome. unfold helper_outcome, the_call, explicit, positional.
    destruct (_credentials_are_set (self w)); reflexivity.
  - rewrite put_request_outcome. unfold helper_outcome, the_call, explicit, positional.
    destruct (_credentials_are_set (self w)); reflexivity.
Qed.

End Helpers.

(** ** Every endpoint method is one call site of one helper *)

Lemma append_cons (x : Ascii.ascii) (a b : string) :
  String x a +:+ b = String x (a +:+ b).
Proof. reflexivity. Qed.

Lemma prefix_append (p s : string) : String.prefix p (p +:+ s) = true.
Proof.
  induction p as [|a p IH]; [by destruct s |].
  rewrite append_cons. change (String.prefix (String a p) (String a (p +:+ s)))
    with (if Ascii.ascii_dec a a then String.prefix p (p +:+ s) else false).
  destruct (Ascii.ascii_dec a a); [done | congruence].
Qed.

Lemma append_assoc (a b c : string) : (a +:+ b) +:+ c = a +:+ b +:+ c.
Proof. induction a as [|x a IH]; [done | by rewrite !append_cons, IH]. Qed.

Lemma append_nil_r (a : string) : a +:+ "" = a.
Proof. induction a as [|x a IH]; [done | by rewrite append_cons, IH]. Qed.

Lemma route_prefix (url rest : string) :
  String.prefix (url +:+ "/") (url +:+ "/" +:+ rest) = true.
Proof. rewrite <- append_assoc. apply prefix_append. Qed.

Lemma invoke_delegate client e w :
  ∃ h rest,
    method_verb (method_name (call_data e)) = Some (helper_verb h) ∧
    (payload (call_data e)).*1 = payload_names h ∧
    invoke client e w
    = delegate client h (_orthanc_url (self w) +:+ "/" +:+ rest)
        (payload (call_data e)) (extra (call_data e)) w.
Proof.
  destruct e;
    first [ exists Get_request; eexists; split; [reflexivity | split; reflexivity]
          | exists Post_request; eexists; split; [reflexivity | split; reflexivity]
          | exists Delete_request; eexists; split; [reflexivity | split; reflexivity]
          | exists Put_request; eexists; split; [reflexivity | split; reflexivity] ].
Qed.

Lemma invoke_outcome client e w :
  ∃ h rest,
    method_verb (method_name (call_data e)) = Some (helper_verb h) ∧
    (payload (call_data e)).*1 = payload_names h ∧
    invoke client e w
    = outcome client h (_orthanc_url (self w) +:+ "/" +:+ rest)
        (payload (call_data e)) (extra (call_data e)) w.
Proof.
  destruct (invoke_delegate client e w) as (h & rest & Hverb & Hshape & Heq).
  exists h, rest. repeat split; [done | done |]. by rewrite Heq, delegate_outcome.
Qed.

(** ** What an outcome can be *)

Section Outcomes.

Variable client : Client.

Lemma app_singleton_ne {A} (l : list A) (x : A) : l ≠ l ++ [x].
Proof.
  intros H. apply (f_equal length) in H. rewrite length_app in H. simpl in H. lia.
Qed.

Lemma helper_outcome_self h route payload kwargs w :
  self (helper_outcome client h route payload kwargs w).2 = self w.
Proof. unfold helper_outcome. by destruct (repeated _ kwargs). Qed.

Lemma outcome_self h route payload kwargs w :
  self (outcome client h route payload kwargs w).2 = self w.
Proof.
  unfold outcome. destruct (repeated (bound h) kwargs); [done |].
  apply helper_outcome_self.
Qed.

Lemma helper_outcome_issued h route payload kwargs w c :
  issued (helper_outcome client h route payload kwargs w).2 = issued w ++ [c] →
  c = the_call h (self w) route payload kwargs ∧
  repeated (given h (self w) payload) kwargs = None ∧
  helper_outcome client h route payload kwargs w = (answer client w c, sent w h route c).
Proof.
  unfold helper_outcome. destruct (repeated _ kwargs); simpl.
  - intros H. by apply app_singleton_ne in H.
  - intros H. apply app_inv_head in H. injection H as <-. done.
Qed.

Lemma outcome_issued h route payload kwargs w c :
  issued (outcome client h route payload kwargs w).2 = issued w ++ [c] →
  c = the_call h (self w) route payload kwargs ∧
  repeated (bound h) kwargs = None ∧
  repeated (given h (self w) payload) kwargs = None ∧
  outcome client h route payload kwargs w = (answer client w c, sent w h route c).
Proof.
  unfold outcome. destruct (repeated (bound h) kwargs); simpl.
  - intros H. by apply app_singleton_ne in H.
  - intros H. by apply helper_outcome_issued in H as (-> & ? & ?).
Qed.

Lemma helper_outcome_accepted h route payload kwargs w :
  repeated (given h (self w) payload) kwargs = None →
  helper_outcome client h route payload kwargs w
  = (answer client w (the_call h (self w) route payload kwargs),
     sent w h route (the_call h (self w) route payload kwargs)).
Proof. unfold helper_outcome. by intros ->. Qed.

Lemma outcome_plain h route payload kwargs w :
  plain kwargs →
  outcome client h route payload kwargs w
  = (answer client w (the_call h (self w) route payload kwargs),
     sent w h route (the_call h (self w) route payload kwargs)).
Proof.
  intros Hplain. unfold outcome. rewrite plain_bound by done.
  apply helper_outcome_accepted. by apply plain_given.
Qed.

(** A rejected call: a reserved name came again in [kwargs], and nothing
    was sent. *)
Lemma outcome_cases h route payload kwargs w :
  (∃ k, (outcome client h route payload kwargs w).1 = inl (TypeError k) ∧
        k ∈ reserved ∧ is_Some (kwargs !! k) ∧
        issued (outcome client h route payload kwargs w).2 = issued w)
  ∨ outcome client h route payload kwargs w
    = (answer client w (the_call h (self w) route payload kwargs),
       sent w h route (the_call h (self w) route payload kwargs)).
Proof.
  unfold outcome, helper_outcome.
  destruct (repeated (bound h) kwargs) as [k|] eqn:Hb.
  { left. exists k. apply repeated_Some in Hb as [Hin Hk]. repeat split; try done.
    destruct h; simpl in Hin; unfold reserved;
      repeat (apply elem_of_cons in Hin as [->|Hin]; [by apply (bool_decide_unpack _) |]);
      by apply elem_of_nil in Hin. }
  destruct (repeated (given _ _ _) kwargs) as [k|] eqn:He; [| by right].
  left. exists k. apply repeated_Some in He as [Hin Hk]. repeat split; try done.
  destruct h; unfold given, explicit, filled in Hin; destruct (_credentials_are_set (self w));
    simpl in Hin; unfold reserved;
    repeat (apply elem_of_cons in Hin as [->|Hin]; [by apply (bool_decide_unpack _) |]);
    by apply elem_of_nil in Hin.
Qed.

Lemma request_outcome hc w :
  request client hc w
  = helper_outcome client (hc_helper hc) (hc_route hc) (hc_payload hc) (helper_kwargs hc) w.
Proof.
  destruct hc; simpl.
  - apply get_request_outcome.
  - apply delete_request_outcome.
  - apply post_request_outcome.
  - apply put_request_outcome.
Qed.

End Outcomes.

(** ** What the call carries *)

Lemma the_call_verb h o route payload kwargs :
  verb (the_call h o route payload kwargs) = helper_verb h.
Proof. reflexivity. Qed.

Lemma the_call_url h o route payload kwargs :
  argument (the_call h o route payload kwargs) "url" = Some (PyStr route).
Proof. destruct h; unfold the_call, positional; destruct (_credentials_are_set o); reflexivity. Qed.

Lemma the_call_auth h o route payload kwargs :
  keywords (the_call h o route payload kwargs) !! "auth"
  = if _credentials_are_set o then Some (_credentials o) else kwargs !! "auth".
Proof.
  unfold the_call; simpl. destruct (_credentials_are_set o) eqn:Hset.
  - apply join_explicit; [apply explicit_NoDup |].
    destruct h; unfold explicit; rewrite Hset; simpl;
      repeat first [ apply list_elem_of_here | apply list_elem_of_further ].
  - apply join_other. destruct h; unfold explicit; rewrite Hset; simpl;
      by apply (bool_decide_unpack _).
Qed.

(** ** The object along a sequence of operations *)

Section Sequences.

Variable client : Client.

Lemma setup_credentials_world username password w :
  setup_credentials username password w
  = (inr tt,
     mkWorld (mkOrthanc (_orthanc_url (self w)) true (HTTPBasicAuth username password))
       (entered w) (issued w)).
Proof. reflexivity. Qed.

Lemma request_self hc w : self (request client hc w).2 = self w.
Proof. rewrite request_outcome. apply helper_outcome_self. Qed.

Lemma invoke_self e w : self (invoke client e w).2 = self w.
Proof.
  destruct (invoke_outcome client e w) as (h & rest & _ & _ & ->). apply outcome_self.
Qed.

Lemma perform_self_other op w :
  (∀ username password, op ≠ Setup_credentials username password) →
  self (perform client op w) = self w.
Proof.
  destruct op as [username password|hc|e]; simpl; intros Hop.
  - by destruct (Hop username password).
  - apply request_self.
  - apply invoke_self.
Qed.

Lemma perform_object orthanc_url latest op w :
  self w = object_after orthanc_url latest →
  self (perform client op w)
  = object_after orthanc_url
      match op with
      | Setup_credentials username password => Some (username, password)
      | _ => latest
      end.
Proof.
  intros Hw. destruct op as [username password|hc|e]; simpl.
  - rewrite Hw. by destruct latest as [[? ?]|].
  - by rewrite request_self.
  - by rewrite invoke_self.
Qed.

Lemma run_object_from orthanc_url ops : ∀ latest w,
  self w = object_after orthanc_url latest →
  self (run client ops w)
  = object_after orthanc_url
      (foldl (λ acc op,
                match op with
                | Setup_credentials username password => Some (username, password)
                | _ => acc
                end) latest ops).
Proof.
  induction ops as [|op ops IH]; intros latest w Hw; simpl; [done |].
  apply IH. by apply perform_object.
Qed.

Lemma run_object orthanc_url ops :
  self (run client ops (fresh orthanc_url))
  = object_after orthanc_url (last_credentials ops).
Proof. by apply run_object_from. Qed.

Lemma last_credentials_snoc ops op :
  last_credentials (ops ++ [op])
  = match op with
    | Setup_credentials username password => Some (username, password)
    | _ => last_credentials ops
    end.
Proof. unfold last_credentials. by rewrite foldl_app. Qed.

Lemma last_credentials_called ops :
  is_Some (last_credentials ops) ↔
  ∃ username password, Setup_credentials username password ∈ ops.
Proof.
  induction ops as [|op ops IH] using rev_ind.
  - split; [by intros [? [=]] | intros (? & ? & H); by apply elem_of_nil in H].
  - rewrite last_credentials_snoc. split.
    + destruct op as [username password|hc|e].
      * intros _. exists username, password. apply elem_of_app. right. left.
      * intros H. apply IH in H as (u & p & H). exists u, p.
        apply elem_of_app. by left.
      * intros H. apply IH in H as (u & p & H). exists u, p.
        apply elem_of_app. by left.
    + intros (u & p & H). apply elem_of_app in H as [H|H].
      * destruct op; [by eexists | apply IH; eauto | apply IH; eauto].
      * apply list_elem_of_singleton in H as <-. by eexists.
Qed.

Lemma perform_issued_auth op w c :
  issued (perform client op w) = issued w ++ [c] →
  keywords c !! "auth"
  = if _credentials_are_set (self w) then Some (_credentials (self w))
    else match op with
         | Setup_credentials _ _ => None
         | Direct hc => helper_kwargs hc !! "auth"
         | Method e => extra (call_data e) !! "auth"
         end.
Proof.
  destruct op as [username password|hc|e]; simpl.
  - intros H. by apply app_singleton_ne in H.
  - rewrite request_outcome. intros H.
    apply helper_outcome_issued in H as (-> & _ & _). apply the_call_auth.
  - destruct (invoke_outcome client e w) as (h & rest & _ & _ & ->). intros H.
    apply outcome_issued in H as (-> & _ & _ & _). apply the_call_auth.
Qed.

End Sequences.

(** * The claims *)

(** C8.  Along every sequence of operations on an object built by the
    constructor, the flag [_credentials_are_set] is true exactly when
    [_credentials] is not [None]; the object is the constructed one until
    [setup_credentials] is called and afterwards carries the credentials of
    the most recent call; no other operation changes the object, none
    unsets the flag, and every request sent once credentials are set
    carries the last-set credentials as its [auth] argument. *)
Theorem credentials_invariant (client : Client) (orthanc_url : string) (ops : list Op) :
  let w := run client ops (fresh orthanc_url) in
  self (fresh orthanc_url) = mkOrthanc orthanc_url false PyNone ∧
  (_credentials_are_set (self w) = true ↔ _credentials (self w) ≠ PyNone) ∧
  self w = object_after orthanc_url (last_credentials ops) ∧
  (∀ op, (∀ username password, op ≠ Setup_credentials username password) →
         self (perform client op w) = self w) ∧
  (∀ op, _credentials_are_set (self w) = true →
         _credentials_are_set (self (perform client op w)) = true) ∧
  (∀ username password op c,
     last_credentials ops = Some (username, password) →
     issued (perform client op w) = issued w ++ [c] →
     keywords c !! "auth" = Some (HTTPBasicAuth username password)).
Proof.
  intros w. pose proof (run_object client orthanc_url ops) as Hw. fold w in Hw.
  split; [reflexivity |]. split; [| split; [exact Hw |]].
  { rewrite Hw. destruct (last_credentials ops) as [[username password]|]; simpl.
    - split; [discriminate | reflexivity].
    - split; [discriminate | congruence]. }
  split; [intros op; apply perform_self_other |]. split.
  - intros op Hset. destruct op as [username password|hc|e]; simpl.
    + reflexivity.
    + by rewrite request_self.
    + by rewrite invoke_self.
  - intros username password op c Hlast Hc.
    rewrite (perform_issued_auth client op w c Hc), Hw, Hlast. reflexivity.
Qed.

Lemma credentials_invariant_witness :
  let ops := [ Setup_credentials "alice" "x";
               Method (Get_patients PyNone timeout_5);
               Setup_credentials "bob" "y" ] in
  let op := Method (Get_patients_identifier "abc" PyNone timeout_5) in
  let c := mkCall GET [PyStr "http://localhost:8042/patients/abc"]
             (join [("params", PyNone); ("auth", HTTPBasicAuth "bob" "y")] timeout_5) in
  let w := run not_found ops (fresh localhost) in
  last_credentials ops = Some ("bob", "y") ∧
  issued (perform not_found op w) = issued w ++ [c] ∧
  keywords c !! "auth" = Some (HTTPBasicAuth "bob" "y").
Proof.
  intros ops op c w.
  split; [reflexivity |]. split; [vm_compute; reflexivity |].
  destruct (credentials_invariant not_found localhost ops) as (_ & _ & _ & _ & _ & H).
  apply (H "bob" "y" op c); [reflexivity | vm_compute; reflexivity].
Defined.

(** C2, as the code has it.  A helper passes [auth=self._credentials] to
    the HTTP client if and only if [setup_credentials] has been called on
    the object before; otherwise it adds no [auth] argument of its own, so
    the request has one only when the caller supplied it among the extra
    keyword arguments.  A caller's [auth] on an object whose credentials
    are set is a repeated keyword: [TypeError], and no request goes out.
    The call does reach the HTTP client whenever the extra keyword
    arguments name neither [url], nor a payload parameter of the helper,
    nor [auth] on an object whose credentials are set. *)
Theorem helper_auth_argument (client : Client) (orthanc_url : string) (ops : list Op)
    (hc : HelperCall) :
  let w := run client ops (fresh orthanc_url) in
  let out := request client hc w in
  (is_Some (last_credentials ops) ↔
   ∃ username password, Setup_credentials username password ∈ ops) ∧
  (∀ c, issued out.2 = issued w ++ [c] →
        keywords c !! "auth"
        = match last_credentials ops with
          | Some (username, password) => Some (HTTPBasicAuth username password)
          | None => helper_kwargs hc !! "auth"
          end) ∧
  (is_Some (last_credentials ops) → is_Some (helper_kwargs hc !! "auth") →
   (∃ k, out.1 = inl (TypeError k)) ∧ issued out.2 = issued w) ∧
  (repeated ("url" :: payload_names (hc_helper hc)) (helper_kwargs hc) = None →
   (is_Some (last_credentials ops) → helper_kwargs hc !! "auth" = None) →
   ∃ c, issued out.2 = issued w ++ [c]).
Proof.
  intros w out. pose proof (run_object client orthanc_url ops) as Hw. fold w in Hw.
  split; [apply last_credentials_called |]. split; [| split].
  - intros c Hc. rewrite (perform_issued_auth client (Direct hc) w c Hc), Hw.
    by destruct (last_credentials ops) as [[username password]|].
  - intros [[username password] Hlast] [v Hv]. subst out.
    rewrite request_outcome. unfold helper_outcome.
    destruct (repeated _ (helper_kwargs hc)) as [k|] eqn:Hrep; simpl; [by eauto |].
    exfalso. rewrite repeated_None, Forall_forall in Hrep.
    assert ("auth" ∈ given (hc_helper hc) (self w) (hc_payload hc)) as Hin.
    { rewrite Hw, Hlast. destruct (hc_helper hc); simpl; by apply (bool_decide_unpack _). }
    apply Hrep in Hin. congruence.
  - intros Hpayload Hauth. subst out. rewrite request_outcome.
    rewrite helper_outcome_accepted; [by eexists |].
    rewrite Hw. unfold given, explicit, filled.
    destruct (last_credentials ops) as [[username password]|]; simpl.
    + specialize (Hauth (ltac:(by eexists))).
      destruct (hc_helper hc); simpl in *; rewrite ?Hauth;
        repeat (destruct (helper_kwargs hc !! _)); congruence.
    + destruct (hc_helper hc); simpl in *;
        repeat (destruct (helper_kwargs hc !! _)); congruence.
Qed.

Lemma helper_auth_argument_witness :
  let ops := [Setup_credentials "alice" "x"] in
  let hc := Delete_request_call "http://localhost:8042/patients/abc" timeout_5 in
  let c := mkCall DELETE [PyStr "http://localhost:8042/patients/abc"]
             (join [("auth", HTTPBasicAuth "alice" "x")] timeout_5) in
  let w := run not_found ops (fresh localhost) in
  issued (request not_found hc w).2 = issued w ++ [c] ∧
  keywords c !! "auth" = Some (HTTPBasicAuth "alice" "x").
Proof.
  intros ops hc c w. split; [vm_compute; reflexivity |].
  destruct (helper_auth_argument not_found localhost ops hc) as (_ & H & _).
  apply (H c). vm_compute; reflexivity.
Defined.

(** C2, as stated, fails: on an object whose credentials were never set,
    [get_request] with the caller's own [auth] keyword sends a request
    that has an [auth] argument. *)
Lemma helper_auth_from_kwargs :
  let w := fresh localhost in
  let out := get_request not_found "http://localhost:8042/patients" PyNone own_auth w in
  _credentials_are_set (self w) = false ∧
  ∃ c, issued out.2 = [c] ∧ keywords c !! "auth" = Some (HTTPBasicAuth "me" "mine").
Proof.
  split; [reflexivity |]. eexists. split; [reflexivity |]. vm_compute. reflexivity.
Qed.

(** ** Payload and keywords of the call *)

Arguments join : simpl never.

Lemma the_call_explicit h o route payload kwargs k v :
  (k, v) ∈ explicit h o payload →
  keywords (the_call h o route payload kwargs) !! k = Some v.
Proof. apply join_explicit, explicit_NoDup. Qed.

Lemma the_call_payload h o route payload kwargs n v :
  payload.*1 = payload_names h → (n, v) ∈ payload →
  argument (the_call h o route payload kwargs) n = Some v.
Proof.
  intros Hshape Hin.
  destruct h; destruct payload as [|[k1 v1] [|[k2 v2] [|? ?]]];
    try discriminate Hshape; simpl in Hshape; simplify_eq;
    repeat (apply elem_of_cons in Hin as [Heq|Hin]; [simplify_eq |]);
    try (by apply elem_of_nil in Hin);
    unfold argument; rewrite the_call_verb; simpl;
    unfold positional; destruct (_credentials_are_set o) eqn:Hset; simpl;
    try reflexivity;
    (apply join_explicit;
     [ simpl; by apply (bool_decide_unpack _)
     | repeat first [ apply list_elem_of_here | apply list_elem_of_further ] ]).
Qed.

Lemma explicit_origin h o payload k v :
  payload.*1 = payload_names h → (k, v) ∈ explicit h o payload →
  (k, v) ∈ payload ∨
  (k = "auth" ∧ v = _credentials o ∧ _credentials_are_set o = true).
Proof.
  intros Hshape Hin.
  destruct h; destruct payload as [|[k1 v1] [|[k2 v2] [|? ?]]];
    try discriminate Hshape; simpl in Hshape; simplify_eq;
    unfold explicit in Hin; destruct (_credentials_are_set o); simpl in Hin;
    repeat (apply elem_of_cons in Hin as [Heq|Hin];
            [simplify_eq; first [ by right
                                | left; repeat first [ apply list_elem_of_here
                                                     | apply list_elem_of_further ] ] |]);
    by apply elem_of_nil in Hin.
Qed.

(** C5, as the code has it.  An endpoint method leaves the object as it
    found it, and hands at most one call to the HTTP client: exactly one,
    unless the extra keyword arguments repeat a reserved name ([self],
    [route], [params], [data], [json], [auth] or [url]), in which case
    Python raises [TypeError] before anything is sent.  Plain extra keyword
    arguments always give exactly one call.  Direct calls of the helpers
    leave the object alone as well; [setup_credentials] is the one
    operation that changes it. *)
Theorem endpoint_frame (client : Client) (e : EndpointCall) (w : World) :
  let out := invoke client e w in
  self out.2 = self w ∧
  ((∃ k, out.1 = inl (TypeError k) ∧ k ∈ reserved ∧
         is_Some (extra (call_data e) !! k) ∧ issued out.2 = issued w)
   ∨ (∃ c, issued out.2 = issued w ++ [c])) ∧
  (plain (extra (call_data e)) → ∃ c, issued out.2 = issued w ++ [c]) ∧
  (∀ op, (∀ username password, op ≠ Setup_credentials username password) →
         self (perform client op w) = self w) ∧
  (∀ username password,
     self (perform client (Setup_credentials username password) w)
     = mkOrthanc (_orthanc_url (self w)) true (HTTPBasicAuth username password)).
Proof.
  intros out. split; [apply invoke_self |]. subst out.
  destruct (invoke_outcome client e w) as (h & rest & _ & _ & ->).
  split; [| split; [| split]].
  - destruct (outcome_cases client h (_orthanc_url (self w) +:+ "/" +:+ rest)
                (payload (call_data e)) (extra (call_data e)) w) as [Hrej| ->].
    + by left.
    + right. by eexists.
  - intros Hplain. rewrite outcome_plain by done. by eexists.
  - intros op. apply perform_self_other.
  - reflexivity.
Qed.

Lemma endpoint_frame_witness :
  let e := Get_patients PyNone timeout_5 in
  let w := fresh localhost in
  plain (extra (call_data e)) ∧ ∃ c, issued (invoke not_found e w).2 = issued w ++ [c].
Proof.
  intros e w. assert (plain (extra (call_data e))) as Hplain by (vm_compute; reflexivity).
  split; [exact Hplain |].
  destruct (endpoint_frame not_found e w) as (_ & _ & H & _). exact (H Hplain).
Defined.

(** C5, as stated, fails: once credentials are set, [get_patients] called
    with the caller's own [auth] keyword raises [TypeError] and performs no
    HTTP call at all. *)
Lemma endpoint_without_call :
  let w := run not_found [Setup_credentials "alice" "x"] (fresh localhost) in
  let out := invoke not_found (Get_patients PyNone own_auth) w in
  out.1 = inl (TypeError "auth") ∧ issued out.2 = issued w ∧ issued w = [].
Proof. vm_compute. repeat split. Qed.

(** C4.  Whatever the HTTP client produces for the call an endpoint method
    sends is what the method gives back: a response of any status code is
    returned as it is, an exception of the client propagates as it is, and
    the call is not sent a second time. *)
Theorem endpoint_returns_response (client : Client) (e : EndpointCall) (w : World) :
  let out := invoke client e w in
  (length (issued out.2) ≤ S (length (issued w)))%nat ∧
  (∀ c, issued out.2 = issued w ++ [c] →
        out.1 = answer client w c ∧
        (∀ response, client (issued w) c = inr response → out.1 = inr response) ∧
        (∀ name, client (issued w) c = inl name → out.1 = inl (ClientError name))).
Proof.
  intros out. subst out.
  destruct (invoke_outcome client e w) as (h & rest & _ & _ & ->). split.
  - destruct (outcome_cases client h (_orthanc_url (self w) +:+ "/" +:+ rest)
                (payload (call_data e)) (extra (call_data e)) w)
      as [(k & _ & _ & _ & ->)| ->]; simpl; [lia |].
    rewrite length_app. simpl. lia.
  - intros c Hc. apply outcome_issued in Hc as (_ & _ & _ & ->). simpl.
    split; [done |]. unfold answer. split.
    + by intros response ->.
    + by intros name ->.
Qed.

Lemma endpoint_returns_response_witness :
  let e := Get_patients_identifier "abc" PyNone timeout_5 in
  let w := fresh localhost in
  let c := mkCall GET [PyStr "http://localhost:8042/patients/abc"]
             (join [("params", PyNone)] timeout_5) in
  issued (invoke not_found e w).2 = issued w ++ [c] ∧
  not_found (issued w) c = inr (mkResponse 404 "") ∧
  (invoke not_found e w).1 = inr (mkResponse 404 "").
Proof.
  intros e w c.
  assert (issued (invoke not_found e w).2 = issued w ++ [c]) as Hc
    by (vm_compute; reflexivity).
  split; [exact Hc |]. split; [reflexivity |].
  destruct (endpoint_returns_response not_found e w) as (_ & H).
  destruct (H c Hc) as (_ & Hresponse & _). apply Hresponse. reflexivity.
Defined.

(** C6.  An endpoint method called with plain extra keyword arguments
    sends its call, and the call an endpoint method sends carries every
    payload argument under its name with the value the caller gave, and
    every extra keyword argument with its value; conversely each keyword of
    the call is an extra keyword argument, a payload argument, or the
    credentials of the object under [auth]. *)
Theorem endpoint_forwards_arguments (client : Client) (e : EndpointCall) (w : World) :
  (plain (extra (call_data e)) →
   ∃ c, issued (invoke client e w).2 = issued w ++ [c]) ∧
  (∀ c, issued (invoke client e w).2 = issued w ++ [c] →
     (∀ n v, (n, v) ∈ payload (call_data e) → argument c n = Some v) ∧
     (∀ k v, extra (call_data e) !! k = Some v → keywords c !! k = Some v) ∧
     (∀ k v, keywords c !! k = Some v →
             extra (call_data e) !! k = Some v ∨
             (k, v) ∈ payload (call_data e) ∨
             (k = "auth" ∧ v = _credentials (self w) ∧
              _credentials_are_set (self w) = true))).
Proof.
  destruct (invoke_outcome client e w) as (h & rest & _ & Hshape & ->). split.
  { intros Hplain. rewrite outcome_plain by done. by eexists. }
  intros c Hc. apply outcome_issued in Hc as (-> & _ & Hgiven & _).
  apply given_explicit in Hgiven.
  split; [| split].
  - intros n v Hin. by apply the_call_payload.
  - intros k v Hk. by apply join_kwargs.
  - intros k v Hk. apply join_lookup in Hk as [Hk|Hk]; [| by left].
    right. by apply (explicit_origin h).
Qed.

Lemma endpoint_forwards_arguments_witness :
  let data := PyDict [("Level", PyStr "Study")] in
  let e := Post_tools_find data PyNone timeout_5 in
  let w := fresh localhost in
  let c := mkCall POST [PyStr "http://localhost:8042/tools/find"]
             (join [("data", data); ("json", PyNone)] timeout_5) in
  plain (extra (call_data e)) ∧
  (∃ c', issued (invoke not_found e w).2 = issued w ++ [c']) ∧
  issued (invoke not_found e w).2 = issued w ++ [c] ∧
  argument c "data" = Some data ∧
  keywords c !! "timeout" = Some (PyInt 5).
Proof.
  intros data e w c.
  assert (plain (extra (call_data e))) as Hplain by (vm_compute; reflexivity).
  assert (issued (invoke not_found e w).2 = issued w ++ [c]) as Hc
    by (vm_compute; reflexivity).
  destruct (endpoint_forwards_arguments not_found e w) as (Hsent & Hcarried).
  split; [exact Hplain |]. split; [exact (Hsent Hplain) |]. split; [exact Hc |].
  destruct (Hcarried c Hc) as (Hpayload & Hextra & _).
  split.
  - apply Hpayload. apply list_elem_of_here.
  - apply Hextra. vm_compute. reflexivity.
Defined.

(** C7.  On an object built by the constructor on [orthanc_url], every
    endpoint method is one call of one of the four helpers; the route it
    passes begins with [orthanc_url] followed by a slash, and the helper
    entered is that one, with that route, and no other. *)
Theorem endpoint_delegates (client : Client) (orthanc_url : string) (ops : list Op)
    (e : EndpointCall) :
  let w := run client ops (fresh orthanc_url) in
  ∃ h rest,
    let route := orthanc_url +:+ "/" +:+ rest in
    invoke client e w
    = delegate client h route (payload (call_data e)) (extra (call_data e)) w ∧
    String.prefix (orthanc_url +:+ "/") route = true ∧
    entered (invoke client e w).2
    = match repeated (bound h) (extra (call_data e)) with
      | Some _ => entered w
      | None => entered w ++ [(h, route)]
      end.
Proof.
  intros w.
  destruct (invoke_delegate client e w) as (h & rest & _ & _ & Heq).
  assert (_orthanc_url (self w) = orthanc_url) as Hurl.
  { unfold w. rewrite run_object. by destruct (last_credentials ops) as [[? ?]|]. }
  rewrite Hurl in Heq. exists h, rest. simpl.
  split; [exact Heq |]. split; [apply route_prefix |].
  rewrite Heq, delegate_outcome. unfold outcome, helper_outcome.
  destruct (repeated (bound h) _); [done |].
  by destruct (repeated (given _ _ _) _).
Qed.

(** ** Single methods *)

(** A method whose body is the call site of helper [h] on [route], run
    with plain extra keyword arguments: one call, on that route. *)
Ltac by_delegation client h route payload kwargs w :=
  eexists; split;
  [ etransitivity;
    [ exact (delegate_outcome client h route payload kwargs w)
    | by apply outcome_plain ]
  | split; [reflexivity | apply the_call_url] ].



(** C9.  Two routes are not the plain mirrored path:
    [get_instances_identifier_content] requests
    [{orthanc_url}/instances/{identifier}/content/], with the slash at the
    end, and [get_instances_identifier_content_group_element_index]
    requests
    [{orthanc_url}/instances/{identifier}/content/{group_element}/{index}/...],
    the three dots being characters of the route. *)
Theorem content_urls (client : Client) (w : World) :
  let url := _orthanc_url (self w) in
  (∀ identifier params kwargs, plain kwargs →
     ∃ c, get_instances_identifier_content client identifier params kwargs w
          = (answer client w c,
             sent w Get_request (url +:+ "/instances/" +:+ identifier +:+ "/content/") c) ∧
          verb c = GET ∧
          argument c "url"
          = Some (PyStr (url +:+ "/instances/" +:+ identifier +:+ "/content/"))) ∧
  (∀ identifier group_element index params kwargs, plain kwargs →
     ∃ c, get_instances_identifier_content_group_element_index client
            identifier group_element index params kwargs w
          = (answer client w c,
             sent w Get_request
               (url +:+ "/instances/" +:+ identifier +:+ "/content/" +:+ group_element
                    +:+ "/" +:+ index +:+ "/...") c) ∧
          verb c = GET ∧
          argument c "url"
          = Some (PyStr (url +:+ "/instances/" +:+ identifier +:+ "/content/"
                             +:+ group_element +:+ "/" +:+ index +:+ "/..."))).
Proof.
  intros url. split.
  - intros identifier params kwargs Hplain.
    by_delegation client Get_request
      (url +:+ "/instances/" +:+ identifier +:+ "/content/")
      [("params", params)] kwargs w.
  - intros identifier group_element index params kwargs Hplain.
    by_delegation client Get_request
      (url +:+ "/instances/" +:+ identifier +:+ "/content/" +:+ group_element
           +:+ "/" +:+ index +:+ "/...")
      [("params", params)] kwargs w.
Qed.

Lemma content_urls_witness :
  let w := fresh localhost in
  plain timeout_5 ∧
  ∃ c, get_instances_identifier_content_group_element_index not_found
         "abc" "0008-1110" "0" PyNone timeout_5 w
       = (answer not_found w c,
          sent w Get_request
            ("http://localhost:8042" +:+ "/instances/" +:+ "abc" +:+ "/content/"
               +:+ "0008-1110" +:+ "/" +:+ "0" +:+ "/...") c) ∧
       verb c = GET ∧
       argument c "url"
       = Some (PyStr ("http://localhost:8042" +:+ "/instances/" +:+ "abc" +:+ "/content/"
                        +:+ "0008-1110" +:+ "/" +:+ "0" +:+ "/...")).
Proof.
  intros w. assert (plain timeout_5) as Hplain by (vm_compute; reflexivity).
  split; [exact Hplain |].
  destruct (content_urls not_found w) as (_ & H).
  exact (H "abc" "0008-1110" "0" PyNone timeout_5 Hplain).
Defined.

(** C10.  The attachment and metadata methods do not look at
    [resource_type]: whatever strings the caller gives for it, for the
    identifier and for the name, the route is
    [{orthanc_url}/{resource_type}/{identifier}/...] with the name inside as
    it is, the request goes out, and the outcome is what the HTTP client
    answers.  Spelled out for [get_attachments] and
    [get_resource_type_identifier_metadata]. *)
Theorem resource_type_unchecked (client : Client) (w : World) :
  let url := _orthanc_url (self w) in
  (∀ e, is_resource_method (method_name (call_data e)) = true →
        plain (extra (call_data e)) →
        ∃ resource_type identifier names rest h c,
          path_args (call_data e) = resource_type :: identifier :: names ∧
          invoke client e w
          = (answer client w c,
             sent w h (url +:+ "/" +:+ resource_type +:+ "/" +:+ identifier +:+ "/" +:+ rest) c) ∧
          argument c "url"
          = Some (PyStr (url +:+ "/" +:+ resource_type +:+ "/" +:+ identifier +:+ "/" +:+ rest)) ∧
          (∀ name, names = [name] → ∃ before after, rest = before +:+ name +:+ after)) ∧
  (∀ resource_type identifier params kwargs, plain kwargs →
     ∃ c, get_attachments client resource_type identifier params kwargs w
          = (answer client w c,
             sent w Get_request
               (url +:+ "/" +:+ resource_type +:+ "/" +:+ identifier +:+ "/attachments") c) ∧
          verb c = GET ∧
          argument c "url"
          = Some (PyStr (url +:+ "/" +:+ resource_type +:+ "/" +:+ identifier
                             +:+ "/attachments"))) ∧
  (∀ resource_type identifier params kwargs, plain kwargs →
     ∃ c, get_resource_type_identifier_metadata client resource_type identifier
            params kwargs w
          = (answer client w c,
             sent w Get_request
               (url +:+ "/" +:+ resource_type +:+ "/" +:+ identifier +:+ "/metadata") c) ∧
          verb c = GET ∧
          argument c "url"
          = Some (PyStr (url +:+ "/" +:+ resource_type +:+ "/" +:+ identifier
                             +:+ "/metadata"))).
Proof.
  intros url. split; [| split].
  - intros e Hmethod Hplain.
    destruct e; try (vm_compute in Hmethod; discriminate Hmethod); clear Hmethod;
      simpl in Hplain;
      match goal with
      | |- context [invoke client ?e w] =>
          eexists _, _, _, _, _, _; split; [reflexivity |]; split;
          [ etransitivity;
            [ first
                [ exact (delegate_outcome client Get_request _
                           (payload (call_data e)) (extra (call_data e)) w)
                | exact (delegate_outcome client Post_request _
                           (payload (call_data e)) (extra (call_data e)) w)
                | exact (delegate_outcome client Delete_request _
                           (payload (call_data e)) (extra (call_data e)) w)
                | exact (delegate_outcome client Put_request _
                           (payload (call_data e)) (extra (call_data e)) w) ]
            | rewrite outcome_plain by exact Hplain; reflexivity ]
          | split;
            [ apply the_call_url
            | intros ? Hnames; try discriminate Hnames; injection Hnames as <-;
              first
                [ exists "attachments/";
                  first [ eexists; reflexivity
                        | exists ""; rewrite append_nil_r; reflexivity ]
                | exists "metadata/";
                  first [ eexists; reflexivity
                        | exists ""; rewrite append_nil_r; reflexivity ] ] ] ]
      end.
  - intros resource_type identifier params kwargs Hplain.
    by_delegation client Get_request
      (url +:+ "/" +:+ resource_type +:+ "/" +:+ identifier +:+ "/attachments")
      [("params", params)] kwargs w.
  - intros resource_type identifier params kwargs Hplain.
    by_delegation client Get_request
      (url +:+ "/" +:+ resource_type +:+ "/" +:+ identifier +:+ "/metadata")
      [("params", params)] kwargs w.
Qed.

Lemma resource_type_unchecked_witness :
  let w := fresh localhost in
  plain timeout_5 ∧
  ∃ c, get_attachments not_found "NotAResource" "abc" PyNone timeout_5 w
       = (answer not_found w c,
          sent w Get_request
            ("http://localhost:8042" +:+ "/" +:+ "NotAResource" +:+ "/" +:+ "abc"
               +:+ "/attachments") c) ∧
       verb c = GET ∧
       argument c "url"
       = Some (PyStr ("http://localhost:8042" +:+ "/" +:+ "NotAResource" +:+ "/" +:+ "abc"
                        +:+ "/attachments")).
Proof.
  intros w. assert (plain timeout_5) as Hplain by (vm_compute; reflexivity).
  split; [exact Hplain |].
  destruct (resource_type_unchecked not_found w) as (_ & H & _).
  exact (H "NotAResource" "abc" PyNone timeout_5 Hplain).
Defined.

(** * Further properties *)

(** ** Which calls Python refuses *)

Lemma own_names_None h o payload (kwargs : Kwargs) :
  repeated (own_names h o) kwargs = None ↔
  repeated (bound h) kwargs = None ∧ repeated (given h o payload) kwargs = None.
Proof.
  unfold own_names, given, explicit, filled.
  destruct h; destruct (_credentials_are_set o); simpl;
    repeat (destruct (kwargs !! _)); split; try intros [? ?]; try split; congruence.
Qed.

Lemma answer_not_TypeError client w c k : answer client w c ≠ inl (TypeError k).
Proof. unfold answer. by destruct (client (issued w) c). Qed.

Lemma helper_verb_inj h h' : helper_verb h = helper_verb h' → h = h'.
Proof. by destruct h, h'. Qed.

(** The helper and the rest of the route of a call are the same on every
    object and for every client. *)
Lemma invoke_delegate_uniform e :
  ∃ h rest,
    method_verb (method_name (call_data e)) = Some (helper_verb h) ∧
    (payload (call_data e)).*1 = payload_names h ∧
    ∀ client w,
      invoke client e w
      = delegate client h (_orthanc_url (self w) +:+ "/" +:+ rest)
          (payload (call_data e)) (extra (call_data e)) w.
Proof.
  destruct e;
    first [ exists Get_request; eexists; split; [reflexivity | split; [reflexivity |]]
          | exists Post_request; eexists; split; [reflexivity | split; [reflexivity |]]
          | exists Delete_request; eexists; split; [reflexivity | split; [reflexivity |]]
          | exists Put_request; eexists; split; [reflexivity | split; [reflexivity |]] ];
    intros client w; reflexivity.
Qed.

(** X1.  Python refuses the call of an endpoint method before anything
    is handed to the HTTP client exactly when the extra keyword arguments
    hold [self], [route], [url], a payload name of the method's verb, or
    [auth] while the credentials of the object are set.  The call then
    ends in [TypeError] on one of these names; in every other case exactly
    one call is handed to the client. *)
Theorem endpoint_rejection (client : Client) (e : EndpointCall) (w : World) :
  ∃ h rest,
    method_verb (method_name (call_data e)) = Some (helper_verb h) ∧
    (issued (invoke client e w).2 = issued w ↔
     repeated (own_names h (self w)) (extra (call_data e)) ≠ None) ∧
    (repeated (own_names h (self w)) (extra (call_data e)) ≠ None →
     ∃ k, (invoke client e w).1 = inl (TypeError k) ∧
          k ∈ own_names h (self w) ∧ is_Some (extra (call_data e) !! k)) ∧
    issued (invoke client e w).2
    = match repeated (own_names h (self w)) (extra (call_data e)) with
      | Some _ => issued w
      | None =>
          issued w
          ++ [the_call h (self w) (_orthanc_url (self w) +:+ "/" +:+ rest)
                (payload (call_data e)) (extra (call_data e))]
      end.
Proof.
  destruct (invoke_outcome client e w) as (h & rest & Hverb & _ & ->).
  exists h, rest. split; [exact Hverb |].
  pose proof (own_names_None h (self w) (payload (call_data e)) (extra (call_data e)))
    as Hown.
  assert (∀ k, k ∈ bound h ∨ k ∈ given h (self w) (payload (call_data e)) →
               k ∈ own_names h (self w)) as Hin.
  { intros k. unfold own_names, given, explicit, filled.
    destruct h; destruct (_credentials_are_set (self w)); simpl;
      intros [H|H];
      repeat (apply elem_of_cons in H as [->|H]; [by apply (bool_decide_unpack _) |]);
      by apply elem_of_nil in H. }
  unfold outcome, helper_outcome.
  destruct (repeated (bound h) _) as [k|] eqn:Hb; cbn [fst snd issued].
  { assert (repeated (own_names h (self w)) (extra (call_data e)) ≠ None) as Hne.
    { intros H. apply Hown in H as [? ?]. congruence. }
    apply repeated_Some in Hb as [Hk Hsome].
    split; [done |]. split; [intros _; exists k; by auto |].
    destruct (repeated (own_names h (self w)) _) eqn:Ho; [done | by destruct Hne]. }
  destruct (repeated (given _ _ _) _) as [k|] eqn:He; cbn [fst snd issued].
  { assert (repeated (own_names h (self w)) (extra (call_data e)) ≠ None) as Hne.
    { intros H. apply Hown in H as [? ?]. congruence. }
    apply repeated_Some in He as [Hk Hsome].
    split; [done |]. split; [intros _; exists k; by auto |].
    destruct (repeated (own_names h (self w)) _) eqn:Ho; [done | by destruct Hne]. }
  assert (repeated (own_names h (self w)) (extra (call_data e)) = None) as ->
    by (by apply Hown).
  split; [| done]. split; [| done].
  intros H. symmetry in H. by apply app_singleton_ne in H.
Qed.

Lemma endpoint_rejection_witness :
  let e := Get_patients PyNone own_url in
  let w := fresh localhost in
  repeated (own_names Get_request (self w)) (extra (call_data e)) ≠ None ∧
  (invoke not_found e w).1 = inl (TypeError "url") ∧
  issued (invoke not_found e w).2 = issued w.
Proof.
  intros e w.
  assert (repeated (own_names Get_request (self w)) (extra (call_data e)) ≠ None) as Hne
    by (vm_compute; discriminate).
  split; [exact Hne |]. split; [vm_compute; reflexivity |].
  destruct (endpoint_rejection not_found e w) as (h & rest & Hverb & Hiff & _).
  assert (h = Get_request) as ->
    by (destruct h; vm_compute in Hverb; try discriminate Hverb; reflexivity).
  apply Hiff. exact Hne.
Defined.

(** ** No memory between calls *)

Lemma outcome_same_object client client' h route payload kwargs w w' c :
  self w = self w' →
  issued (outcome client h route payload kwargs w).2 = issued w ++ [c] →
  issued (outcome client' h route payload kwargs w').2 = issued w' ++ [c].
Proof.
  intros Hself Hc. apply outcome_issued in Hc as (-> & Hb & He & _).
  unfold outcome, helper_outcome. rewrite Hb, <- Hself, He. reflexivity.
Qed.

(** X2.  What an endpoint method sends depends on the object and on the
    arguments only, not on the calls made before nor on what they came back
    with: on two worlds that hold the same object the same call goes out.
    So a call made twice sends the same request twice; nothing is cached. *)
Theorem endpoint_history_independent (client client' : Client) (e : EndpointCall)
    (w w' : World) (c : RequestsCall) :
  self w = self w' →
  issued (invoke client e w).2 = issued w ++ [c] →
  issued (invoke client' e w').2 = issued w' ++ [c] ∧
  issued (run client [Method e; Method e] w) = issued w ++ [c; c].
Proof.
  intros Hself Hc.
  destruct (invoke_delegate_uniform e) as (h & rest & _ & _ & Heq).
  assert (∀ cl v v', self v = self v' →
            issued (invoke cl e v).2 = issued v ++ [c] →
            ∀ cl', issued (invoke cl' e v').2 = issued v' ++ [c]) as Hsame.
  { intros cl v v' Hv Hsent cl'. rewrite Heq, delegate_outcome in Hsent.
    rewrite Heq, delegate_outcome, <- Hv.
    by apply (outcome_same_object cl cl' h _ _ _ v v'). }
  split; [by apply (Hsame client w w') |].
  simpl. rewrite (Hsame client w (invoke client e w).2 (eq_sym (invoke_self client e w)) Hc).
  rewrite Hc, <- app_assoc. reflexivity.
Qed.

Lemma endpoint_history_independent_witness :
  let e := Get_patients PyNone timeout_5 in
  let c := mkCall GET [PyStr "http://localhost:8042/patients"]
             (join [("params", PyNone)] timeout_5) in
  issued (invoke not_found e (fresh localhost)).2 = issued (fresh localhost) ++ [c] ∧
  issued (run unreachable [Method e; Method e] (fresh localhost)) = [c; c].
Proof.
  intros e c.
  assert (issued (invoke not_found e (fresh localhost)).2 = issued (fresh localhost) ++ [c])
    as Hc by (vm_compute; reflexivity).
  split; [exact Hc |].
  assert (issued (invoke unreachable e (fresh localhost)).2
          = issued (fresh localhost) ++ [c]) as Hc'.
  { exact (proj1 (endpoint_history_independent not_found unreachable e
                    (fresh localhost) (fresh localhost) c eq_refl Hc)). }
  exact (proj2 (endpoint_history_independent unreachable unreachable e
                  (fresh localhost) (fresh localhost) c eq_refl Hc')).
Defined.

(** ** Traffic of a sequence of operations *)

Lemma perform_issued client op w :
  (issued (perform client op w) = issued w ∧
   (plain (op_kwargs op) → ∃ username password, op = Setup_credentials username password))
  ∨ (∃ c, issued (perform client op w) = issued w ++ [c] ∧ requests_in [op] = 1).
Proof.
  destruct op as [username password|hc|e]; simpl.
  - left. split; [done | by eauto].
  - rewrite request_outcome. unfold helper_outcome.
    destruct (repeated _ (helper_kwargs hc)) eqn:Hrep; simpl; [| right; by eexists].
    left. split; [done |]. intros Hplain.
    rewrite (plain_given _ _ _ _ Hplain) in Hrep. discriminate.
  - destruct (invoke_outcome client e w) as (h & rest & _ & _ & ->).
    destruct (outcome_cases client h (_orthanc_url (self w) +:+ "/" +:+ rest)
                (payload (call_data e)) (extra (call_data e)) w)
      as [(k & Hk & _ & _ & Hsame)| ->]; [| right; by eexists].
    left. split; [done |]. intros Hplain. rewrite outcome_plain in Hk by done.
    by apply answer_not_TypeError in Hk.
Qed.

(** X3.  A sequence of operations only adds to the HTTP traffic, by at
    most one call for each call of a helper or of an endpoint method and by
    nothing for [setup_credentials]; when no operation repeats a reserved
    name in its extra keyword arguments, the count is exact. *)
Theorem traffic_bound (client : Client) (ops : list Op) (w : World) :
  (∃ sent_by_ops,
     issued (run client ops w) = issued w ++ sent_by_ops ∧
     (length sent_by_ops ≤ requests_in ops)%nat ∧
     (Forall (λ op, plain (op_kwargs op)) ops → length sent_by_ops = requests_in ops)).
Proof.
  revert w. induction ops as [|op ops IH]; intros w.
  { exists []. simpl. rewrite app_nil_r. done. }
  simpl. destruct (IH (perform client op w)) as (rest & Hrest & Hle & Heq).
  destruct (perform_issued client op w) as [[Hsame Hsetup]|(c & Hc & Hone)].
  - exists rest. rewrite Hrest, Hsame. split; [done |]. split.
    + destruct op; simpl; lia.
    + intros Hall. inversion Hall as [|? ? Hop Hops]; subst.
      destruct (Hsetup Hop) as (username & password & ->). by apply Heq.
  - exists (c :: rest). rewrite Hrest, Hc, <- app_assoc. split; [done |].
    destruct op; simpl in *; try discriminate; (split; [lia |]);
      intros Hall; inversion Hall; subst; f_equal; by apply Heq.
Qed.

Lemma traffic_bound_witness :
  let ops := [ Method (Get_patients PyNone timeout_5);
               Setup_credentials "alice" "x";
               Direct (Delete_request_call "http://localhost:8042/patients/abc" ∅) ] in
  Forall (λ op, plain (op_kwargs op)) ops ∧
  ∃ sent_by_ops,
    issued (run unreachable ops (fresh localhost)) = [] ++ sent_by_ops ∧
    length sent_by_ops = 2.
Proof.
  intros ops.
  assert (Forall (λ op, plain (op_kwargs op)) ops) as Hall
    by (repeat constructor; vm_compute; reflexivity).
  split; [exact Hall |].
  destruct (traffic_bound unreachable ops (fresh localhost)) as (l & Hl & _ & Heq).
  exists l. split; [exact Hl | exact (Heq Hall)].
Defined.

(** ** Credentials and the rest of the request *)

Lemma join_cons k' v explicit (kwargs : Kwargs) k :
  join ((k', v) :: explicit) kwargs !! k
  = if decide (k' = k) then Some v else join explicit kwargs !! k.
Proof. unfold join. simpl. apply lookup_insert. Qed.

Lemma join_nil (kwargs : Kwargs) : join [] kwargs = kwargs.
Proof. reflexivity. Qed.

Lemma the_call_but_auth (h : Helper) (o o' : Orthanc) (route : string)
    (payload : list (string * PyVal)) (kwargs : Kwargs) (name : string) :
  name ≠ "auth" →
  argument (the_call h o route payload kwargs) name
  = argument (the_call h o' route payload kwargs) name.
Proof.
  intros Hname.
  unfold argument. rewrite !the_call_verb.
  unfold the_call, positional, explicit; cbn [args keywords].
  destruct h; destruct (_credentials_are_set o), (_credentials_are_set o');
    cbn [helper_verb positional_names index_of];
    repeat match goal with
           | |- context [String.eqb ?a name] =>
               destruct (String.eqb_spec a name) as [<-|?]
           end;
    simpl; rewrite ?join_cons, ?join_nil;
    repeat (case_decide; simplify_eq); try reflexivity; try congruence.
Qed.

(** X4.  Setting credentials changes nothing of a request but its [auth]
    argument: a helper called with the same route, payload and plain extra
    keyword arguments on any two objects sends a call on each, and the two
    calls have the same verb and give [requests] the same value for every
    argument other than [auth].  This includes [put_request], which passes
    [data] by position without credentials and by keyword with them. *)
Theorem credentials_only_add_auth (client client' : Client) (hc : HelperCall)
    (w w' : World) :
  plain (helper_kwargs hc) →
  ∃ c c',
    issued (request client hc w).2 = issued w ++ [c] ∧
    issued (request client' hc w').2 = issued w' ++ [c'] ∧
    verb c = verb c' ∧
    ∀ name, name ≠ "auth" → argument c name = argument c' name.
Proof.
  intros Hplain. rewrite !request_outcome.
  rewrite !helper_outcome_accepted by (by apply plain_given).
  eexists _, _. split; [reflexivity |]. split; [reflexivity |].
  split; [reflexivity |]. intros name Hname. by apply the_call_but_auth.
Qed.

Lemma credentials_only_add_auth_witness :
  let hc := Put_request_call "r" (PyStr "1") PyNone timeout_5 in
  let w := fresh localhost in
  let w' := run not_found [Setup_credentials "alice" "x"] (fresh localhost) in
  plain (helper_kwargs hc) ∧
  ∃ c c',
    issued (request not_found hc w).2 = issued w ++ [c] ∧
    issued (request unreachable hc w').2 = issued w' ++ [c'] ∧
    verb c = verb c' ∧
    ∀ name, name ≠ "auth" → argument c name = argument c' name.
Proof.
  intros hc w w'.
  assert (plain (helper_kwargs hc)) as Hplain by (vm_compute; reflexivity).
  split; [exact Hplain |].
  exact (credentials_only_add_auth not_found unreachable hc w w' Hplain).
Defined.

(** ** The helpers called directly *)

(** X5.  A helper called directly sends its request to the route exactly
    as given: the address of the object plays no part.  The request has
    the verb of the helper, carries the payload under its names and every
    extra keyword argument, and its answer is the value of the call. *)
Theorem helper_sends_route (client : Client) (hc : HelperCall) (w : World)
    (c : RequestsCall) :
  issued (request client hc w).2 = issued w ++ [c] →
  verb c = helper_verb (hc_helper hc) ∧
  argument c "url" = Some (PyStr (hc_route hc)) ∧
  (∀ n v, (n, v) ∈ hc_payload hc → argument c n = Some v) ∧
  (∀ k v, helper_kwargs hc !! k = Some v → keywords c !! k = Some v) ∧
  (request client hc w).1 = answer client w c ∧
  (∀ orthanc_url,
     issued (request client hc
               (mkWorld (mkOrthanc orthanc_url (_credentials_are_set (self w))
                           (_credentials (self w)))
                  (entered w) (issued w))).2
     = issued w ++ [c]).
Proof.
  rewrite request_outcome. intros Hc.
  apply helper_outcome_issued in Hc as (-> & Hgiven & Heq).
  split; [apply the_call_verb |]. split; [apply the_call_url |]. split; [| split; [| split]].
  - intros n v Hin. apply the_call_payload; [by destruct hc | done].
  - intros k v Hk. apply join_kwargs; [by apply given_explicit in Hgiven | done].
  - by rewrite Heq.
  - intros orthanc_url. rewrite request_outcome.
    set (o' := mkOrthanc orthanc_url (_credentials_are_set (self w)) (_credentials (self w))).
    assert (explicit (hc_helper hc) o' (hc_payload hc)
            = explicit (hc_helper hc) (self w) (hc_payload hc)) as He
      by (by destruct (hc_helper hc)).
    assert (positional (hc_helper hc) o' (hc_route hc) (hc_payload hc)
            = positional (hc_helper hc) (self w) (hc_route hc) (hc_payload hc)) as Hp
      by (by destruct (hc_helper hc)).
    assert (given (hc_helper hc) o' (hc_payload hc)
            = given (hc_helper hc) (self w) (hc_payload hc)) as Hg
      by (by destruct (hc_helper hc)).
    unfold helper_outcome, the_call. cbn [self]. rewrite He, Hp, Hg, Hgiven. reflexivity.
Qed.

Lemma helper_sends_route_witness :
  let hc := Post_request_call "https://elsewhere.example/tools/find"
              (PyDict [("Level", PyStr "Study")]) PyNone timeout_5 in
  let c := mkCall POST [PyStr "https://elsewhere.example/tools/find"]
             (join [("data", PyDict [("Level", PyStr "Study")]); ("json", PyNone)]
                timeout_5) in
  issued (request not_found hc (fresh localhost)).2 = issued (fresh localhost) ++ [c] ∧
  argument c "url" = Some (PyStr "https://elsewhere.example/tools/find").
Proof.
  intros hc c.
  assert (issued (request not_found hc (fresh localhost)).2
          = issued (fresh localhost) ++ [c]) as Hc by (vm_compute; reflexivity).
  split; [exact Hc |].
  exact (proj1 (proj2 (helper_sends_route not_found hc (fresh localhost) c Hc))).
Defined.

(** ** Path arguments go into the route as they are *)

(** X6.  A path argument is neither checked nor escaped.  An identifier
    that holds a slash reaches the route of another method: the patient
    [identifier/archive] is the archive of [identifier], a job
    [identifier/key] is the key of that job, the resource type [patients]
    gives the attachments below a patient, and the slash can move between
    the two arguments of [get_jobs_identifier_key].  An empty argument is
    sent as well: an empty [group_element] is the content listing, and
    [get_plugins_identifier] on [explorer.js] is [get_plugins_explorer_js]. *)
Theorem path_arguments_as_given (client : Client) (w : World)
    (identifier key a b c : string) (params : PyVal) (kwargs : Kwargs) :
  get_patients_identifier client (identifier +:+ "/archive") params kwargs w
  = get_patients_identifier_archive client identifier params kwargs w ∧
  get_jobs_identifier client (identifier +:+ "/" +:+ key) params kwargs w
  = get_jobs_identifier_key client identifier key params kwargs w ∧
  get_attachments client "patients" identifier params kwargs w
  = get_patients_identifier client (identifier +:+ "/attachments") params kwargs w ∧
  get_jobs_identifier_key client (a +:+ "/" +:+ b) c params kwargs w
  = get_jobs_identifier_key client a (b +:+ "/" +:+ c) params kwargs w ∧
  get_instances_identifier_content_group_element client identifier "" params kwargs w
  = get_instances_identifier_content client identifier params kwargs w ∧
  get_plugins_identifier client "explorer.js" params kwargs w
  = get_plugins_explorer_js client params kwargs w.
Proof.
  repeat split; try reflexivity.
  unfold get_jobs_identifier_key, mbind, M_bind, getattr.
  by rewrite !append_assoc.
Qed.

(** ** Distinct identifiers, distinct addresses *)

Lemma append_length (a b : string) :
  String.length (a +:+ b) = (String.length a + String.length b)%nat.
Proof.
  induction a as [|x a IH]; [done |].
  rewrite append_cons. simpl. by rewrite IH.
Qed.

Lemma append_inj_r (a b t : string) : a +:+ t = b +:+ t → a = b.
Proof.
  revert b. induction a as [|x a IH]; intros [|y b] H.
  - done.
  - apply (f_equal String.length) in H. rewrite !append_length in H. simpl in H. lia.
  - apply (f_equal String.length) in H. rewrite !append_length in H. simpl in H. lia.
  - rewrite !append_cons in H. injection H as -> H. f_equal. by apply IH.
Qed.

Lemma route_inj (url before a a' after : string) :
  url +:+ before +:+ a +:+ after = url +:+ before +:+ a' +:+ after → a = a'.
Proof.
  intros H. apply String.app_inj, String.app_inj in H. by apply append_inj_r in H.
Qed.

Lemma route_inj_end (url before a a' : string) :
  url +:+ before +:+ a = url +:+ before +:+ a' → a = a'.
Proof. intros H. by apply String.app_inj, String.app_inj in H. Qed.

(** The address of the call a call site sent. *)
Lemma delegate_address client h route payload kwargs w c :
  issued (delegate client h route payload kwargs w).2 = issued w ++ [c] →
  argument c "url" = Some (PyStr route).
Proof.
  rewrite delegate_outcome. intros Hc.
  apply outcome_issued in Hc as (-> & _). apply the_call_url.
Qed.

(** X7.  The readers of one resource never send two different identifiers
    to the same address: when [get_patients_identifier],
    [get_studies_identifier], [get_series_identifier],
    [get_instances_identifier] or [get_instances_identifier_tags] sends
    requests for two identifiers on the same object and the addresses
    agree, the identifiers agree. *)
Theorem identifier_determines_address (client client' : Client) (w w' : World)
    (identifier identifier' : string) (params params' : PyVal) (kwargs kwargs' : Kwargs)
    (c c' : RequestsCall) :
  _orthanc_url (self w) = _orthanc_url (self w') →
  argument c "url" = argument c' "url" →
  (issued (get_patients_identifier client identifier params kwargs w).2 = issued w ++ [c] →
   issued (get_patients_identifier client' identifier' params' kwargs' w').2
   = issued w' ++ [c'] →
   identifier = identifier') ∧
  (issued (get_studies_identifier client identifier params kwargs w).2 = issued w ++ [c] →
   issued (get_studies_identifier client' identifier' params' kwargs' w').2
   = issued w' ++ [c'] →
   identifier = identifier') ∧
  (issued (get_series_identifier client identifier params kwargs w).2 = issued w ++ [c] →
   issued (get_series_identifier client' identifier' params' kwargs' w').2
   = issued w' ++ [c'] →
   identifier = identifier') ∧
  (issued (get_instances_identifier client identifier params kwargs w).2
   = issued w ++ [c] →
   issued (get_instances_identifier client' identifier' params' kwargs' w').2
   = issued w' ++ [c'] →
   identifier = identifier') ∧
  (issued (get_instances_identifier_tags client identifier params kwargs w).2
   = issued w ++ [c] →
   issued (get_instances_identifier_tags client' identifier' params' kwargs' w').2
   = issued w' ++ [c'] →
   identifier = identifier').
Proof.
  intros Hurl Haddress.
  split; [| split; [| split; [| split]]]; intros Hc Hc'.
  - apply (delegate_address client Get_request
             (_orthanc_url (self w) +:+ "/patients/" +:+ identifier)
             [("params", params)]) in Hc.
    apply (delegate_address client' Get_request
             (_orthanc_url (self w') +:+ "/patients/" +:+ identifier')
             [("params", params')]) in Hc'.
    rewrite Hc, Hc', Hurl in Haddress. injection Haddress as Haddress.
    by apply route_inj_end in Haddress.
  - apply (delegate_address client Get_request
             (_orthanc_url (self w) +:+ "/studies/" +:+ identifier)
             [("params", params)]) in Hc.
    apply (delegate_address client' Get_request
             (_orthanc_url (self w') +:+ "/studies/" +:+ identifier')
             [("params", params')]) in Hc'.
    rewrite Hc, Hc', Hurl in Haddress. injection Haddress as Haddress.
    by apply route_inj_end in Haddress.
  - apply (delegate_address client Get_request
             (_orthanc_url (self w) +:+ "/series/" +:+ identifier)
             [("params", params)]) in Hc.
    apply (delegate_address client' Get_request
             (_orthanc_url (self w') +:+ "/series/" +:+ identifier')
             [("params", params')]) in Hc'.
    rewrite Hc, Hc', Hurl in Haddress. injection Haddress as Haddress.
    by apply route_inj_end in Haddress.
  - apply (delegate_address client Get_request
             (_orthanc_url (self w) +:+ "/instances/" +:+ identifier)
             [("params", params)]) in Hc.
    apply (delegate_address client' Get_request
             (_orthanc_url (self w') +:+ "/instances/" +:+ identifier')
             [("params", params')]) in Hc'.
    rewrite Hc, Hc', Hurl in Haddress. injection Haddress as Haddress.
    by apply route_inj_end in Haddress.
  - apply (delegate_address client Get_request
             (_orthanc_url (self w) +:+ "/instances/" +:+ identifier +:+ "/tags")
             [("params", params)]) in Hc.
    apply (delegate_address client' Get_request
             (_orthanc_url (self w') +:+ "/instances/" +:+ identifier' +:+ "/tags")
             [("params", params')]) in Hc'.
    rewrite Hc, Hc', Hurl in Haddress. injection Haddress as Haddress.
    by apply route_inj in Haddress.
Qed.

Lemma identifier_determines_address_witness :
  let w := fresh localhost in
  let w' := run unreachable [Setup_credentials "alice" "x"] (fresh localhost) in
  let c := mkCall GET [PyStr "http://localhost:8042/instances/abc/tags"]
             (join [("params", PyNone)] ∅) in
  let c' := mkCall GET [PyStr "http://localhost:8042/instances/abc/tags"]
              (join [("params", PyInt 1); ("auth", HTTPBasicAuth "alice" "x")] timeout_5) in
  _orthanc_url (self w) = _orthanc_url (self w') ∧
  argument c "url" = argument c' "url" ∧
  issued (get_instances_identifier_tags not_found "abc" PyNone ∅ w).2 = issued w ++ [c] ∧
  issued (get_instances_identifier_tags unreachable "abc" (PyInt 1) timeout_5 w').2
  = issued w' ++ [c'] ∧
  "abc" = "abc".
Proof.
  intros w w' c c'.
  assert (_orthanc_url (self w) = _orthanc_url (self w')) as Hurl by reflexivity.
  assert (argument c "url" = argument c' "url") as Haddress by reflexivity.
  assert (issued (get_instances_identifier_tags not_found "abc" PyNone ∅ w).2
          = issued w ++ [c]) as Hc by (vm_compute; reflexivity).
  assert (issued (get_instances_identifier_tags unreachable "abc" (PyInt 1) timeout_5 w').2
          = issued w' ++ [c']) as Hc' by (vm_compute; reflexivity).
  repeat (split; [assumption |]).
  destruct (identifier_determines_address not_found unreachable w w' "abc" "abc"
              PyNone (PyInt 1) ∅ timeout_5 c c' Hurl Haddress) as (_ & _ & _ & _ & H).
  exact (H Hc Hc').
Defined.

(** ** The shape of the interface *)

(** X8.  The name of an endpoint method fixes what it takes and what it
    calls: a method named [get_...] takes [params] and goes through
    [get_request], one named [delete_...] takes no payload and goes through
    [delete_request], one named [post_...] or [put_...] takes [data] and
    [json] and goes through [post_request] or [put_request]; and the helper
    it enters is that one. *)
Theorem payload_by_verb (client : Client) (e : EndpointCall) (w : World) :
  ∃ h,
    method_verb (method_name (call_data e)) = Some (helper_verb h) ∧
    (payload (call_data e)).*1 = payload_names h ∧
    (entered (invoke client e w).2 = entered w ∨
     ∃ route, entered (invoke client e w).2 = entered w ++ [(h, route)]).
Proof.
  destruct (invoke_outcome client e w) as (h & rest & Hverb & Hshape & ->).
  exists h. split; [exact Hverb |]. split; [exact Hshape |].
  unfold outcome, helper_outcome.
  destruct (repeated (bound h) _); [by left |].
  destruct (repeated (given _ _ _) _); right; by eexists.
Qed.
